(** * Meeting Summarizer: a shallow embedding of the processing pipeline

    The development follows the Python sources:

    - [utils/transcription.py]   : [is_audio_file], [transcribe_audio],
                                   [load_whisper_model]
    - [utils/text_extraction.py] : [extract_text] and its three decoders
    - [utils/llm_analysis.py]    : [analyze_meeting], [format_analysis_for_display]
    - [utils/pdf_generator.py]   : [generate_pdf] and its body over
                                   reportlab, [cleanup_temp_pdf]
    - [utils/data_persistence.py]: [save_meeting_to_dataset],
                                   [load_meetings_from_dataset]
    - [app.py]                   : [process_meeting], [cleanup_temp_files]

    Python [str] values are represented by their UTF-8 encoding (Rocq
    [string], a sequence of bytes).  Calls that leave the repository (the
    file system, codecs, PyPDF2, python-docx, the speech stack, the OpenAI
    client, [json], reportlab, the Hugging Face hub) are fields of a record
    [World] of oracles; an optional import that failed is a field equal to
    [None], as the module-level [try: import ... except ImportError] leaves
    the name bound to [None].  Logging calls have no influence on any result
    and are left out. *)

From Stdlib Require Import Bool Arith Lia List Ascii String ZArith DecimalString.
Import ListNotations.
Open Scope string_scope.
Open Scope nat_scope.
Set Warnings "-register-all".

(** ** Python built-ins on [str] *)

Module Py.

(** [not s] for a string: only the empty string is falsy. *)
Definition truthy (s : string) : bool :=
  match s with "" => false | _ => true end.

(** [s.startswith(p)] *)
Definition startswith (p s : string) : bool := String.prefix p s.

Fixpoint drop (n : nat) (s : string) : string :=
  match n, s with
  | O, _ => s
  | S _, "" => ""
  | S n', String _ s' => drop n' s'
  end.

Fixpoint take (n : nat) (s : string) : string :=
  match n, s with
  | O, _ => ""
  | S _, "" => ""
  | S n', String c s' => String c (take n' s')
  end.

(** [s.endswith(p)] *)
Definition endswith (p s : string) : bool :=
  Nat.leb (String.length p) (String.length s)
  && String.eqb (drop (String.length s - String.length p) s) p.

(** [s[:-n]] for [0 < n]; when [len(s) < n] Python yields the empty string,
    and so does the natural subtraction here. *)
Definition drop_last (n : nat) (s : string) : string :=
  take (String.length s - n) s.

(** [needle in hay] *)
Fixpoint contains (needle hay : string) : bool :=
  String.prefix needle hay
  || match hay with
     | "" => false
     | String _ hay' => contains needle hay'
     end.

Fixpoint rev_onto (s acc : string) : string :=
  match s with
  | "" => acc
  | String c s' => rev_onto s' (String c acc)
  end.

Definition rev (s : string) : string := rev_onto s "".

(** [sep.join(items)] *)
Fixpoint join (sep : string) (items : list string) : string :=
  match items with
  | [] => ""
  | [x] => x
  | x :: rest => x ++ sep ++ join sep rest
  end.

(** [str(n)] for a non-negative integer. *)
Definition str_of_nat (n : nat) : string :=
  NilEmpty.string_of_uint (Nat.to_uint n).

(** [len(s)]: Python counts code points; in UTF-8 these are the bytes that
    are not continuation bytes (10xxxxxx). *)
Definition is_continuation (c : ascii) : bool :=
  let n := nat_of_ascii c in (128 <=? n) && (n <? 192).

Fixpoint len (s : string) : nat :=
  match s with
  | "" => 0
  | String c s' => (if is_continuation c then 0 else 1) + len s'
  end.

(** [s.lower()].  Only the ASCII letters are mapped.  The result is used by
    the sources solely to test membership in lists of ASCII extensions, and
    no code point outside ASCII lower-cases to a string made of the letters
    and digits of those extensions, so the tests agree with Python's. *)
Definition lower_char (c : ascii) : ascii :=
  let n := nat_of_ascii c in
  if (65 <=? n) && (n <=? 90) then ascii_of_nat (n + 32) else c.

Fixpoint lower (s : string) : string :=
  match s with
  | "" => ""
  | String c s' => String (lower_char c) (lower s')
  end.

(** *** [str.strip()]

    With no argument [strip] removes the code points for which
    [str.isspace] holds: U+0009..U+000D, U+001C..U+0020, U+0085, U+00A0,
    U+1680, U+2000..U+200A, U+2028, U+2029, U+202F, U+205F, U+3000.  They
    are recognised here by their UTF-8 encodings of one, two or three
    bytes. *)
Definition space1 (a : ascii) : bool :=
  let n := nat_of_ascii a in
  ((9 <=? n) && (n <=? 13)) || ((28 <=? n) && (n <=? 32)).

Definition space2 (a b : ascii) : bool :=
  let x := nat_of_ascii a in
  let y := nat_of_ascii b in
  (x =? 194) && ((y =? 133) || (y =? 160)).

Definition space3 (a b c : ascii) : bool :=
  let x := nat_of_ascii a in
  let y := nat_of_ascii b in
  let z := nat_of_ascii c in
  ((x =? 225) && (y =? 154) && (z =? 128))
  || ((x =? 226) && (y =? 128)
      && (((128 <=? z) && (z <=? 138)) || (z =? 168) || (z =? 169) || (z =? 175)))
  || ((x =? 226) && (y =? 129) && (z =? 159))
  || ((x =? 227) && (y =? 128) && (z =? 128)).

(** Removal of the leading run of code points recognised by [p1], [p2],
    [p3]; [rstrip] reuses it on the reversed string with the byte patterns
    reversed. *)
Fixpoint strip_front (p1 : ascii -> bool) (p2 : ascii -> ascii -> bool)
  (p3 : ascii -> ascii -> ascii -> bool) (s : string) : string :=
  match s with
  | "" => ""
  | String a r1 =>
      if p1 a then strip_front p1 p2 p3 r1
      else match r1 with
           | "" => s
           | String b r2 =>
               if p2 a b then strip_front p1 p2 p3 r2
               else match r2 with
                    | "" => s
                    | String c r3 =>
                        if p3 a b c then strip_front p1 p2 p3 r3 else s
                    end
           end
  end.

Definition lstrip (s : string) : string := strip_front space1 space2 space3 s.

Definition rstrip (s : string) : string :=
  rev (strip_front space1 (fun a b => space2 b a) (fun a b c => space3 c b a)
         (rev s)).

Definition strip (s : string) : string := rstrip (lstrip s).

(** [tiled p1 p2 p3 s]: [s] is a sequence of code points recognised by
    [p1], [p2], [p3]. *)
Inductive tiled (p1 : ascii -> bool) (p2 : ascii -> ascii -> bool)
  (p3 : ascii -> ascii -> ascii -> bool) : string -> Prop :=
| tiled_nil : tiled p1 p2 p3 ""
| tiled_1 a s :
    p1 a = true -> tiled p1 p2 p3 s -> tiled p1 p2 p3 (String a s)
| tiled_2 a b s :
    p2 a b = true -> tiled p1 p2 p3 s -> tiled p1 p2 p3 (String a (String b s))
| tiled_3 a b c s :
    p3 a b c = true -> tiled p1 p2 p3 s ->
    tiled p1 p2 p3 (String a (String b (String c s))).

(** A string made of white space only (the empty string included), stated
    without [strip]. *)
Definition all_space : string -> Prop := tiled space1 space2 space3.

(** [s.split(sep)] for a one-character separator. *)
Fixpoint split_on (sep : ascii) (s : string) : list string :=
  match s with
  | "" => [""]
  | String c s' =>
      if Ascii.eqb c sep then "" :: split_on sep s'
      else match split_on sep s' with
           | x :: rest => String c x :: rest
           | [] => [String c ""]
           end
  end.

(** The bytes of a string. *)
Fixpoint bytes (s : string) : list ascii :=
  match s with
  | "" => []
  | String c s' => c :: bytes s'
  end.

End Py.

(** ** [os.path] (POSIX flavour) *)

Module OsPath.

(** [s.rfind(c)] for a one-character [c]: the highest index, or [-1]. *)
Fixpoint rfind_from (c : ascii) (s : string) (i last : Z) : Z :=
  match s with
  | "" => last
  | String a s' =>
      rfind_from c s' (i + 1)%Z (if Ascii.eqb a c then i else last)
  end.

Definition rfind (c : ascii) (s : string) : Z := rfind_from c s 0%Z (-1)%Z.

(** The [while filenameIndex < dotIndex] loop of [genericpath._splitext]:
    [n] is the number of iterations left; the result tells whether a
    character other than the dot was met. *)
Fixpoint skip_leading_dots (p : string) (filenameIndex n : nat) : bool :=
  match n with
  | O => false
  | S n' =>
      if negb (String.eqb (substring filenameIndex 1 p) ".") then true
      else skip_leading_dots p (S filenameIndex) n'
  end.

(** [os.path.splitext(p)] *)
Definition splitext (p : string) : string * string :=
  let sepIndex := rfind "/" p in
  let dotIndex := rfind "." p in
  if (sepIndex <? dotIndex)%Z
     && skip_leading_dots p (Z.to_nat (sepIndex + 1))
          (Z.to_nat (dotIndex - (sepIndex + 1)))
  then (Py.take (Z.to_nat dotIndex) p, Py.drop (Z.to_nat dotIndex) p)
  else (p, "").

(** [os.path.basename(p)]: [p[p.rfind('/') + 1:]] *)
Definition basename (p : string) : string :=
  Py.drop (Z.to_nat (rfind "/" p + 1)) p.

End OsPath.

(** ** utils/transcription.py: file classification *)

Definition get_supported_audio_extensions : list string :=
  [".mp3"; ".wav"; ".m4a"; ".flac"; ".ogg"].

Definition str_in (x : string) (l : list string) : bool :=
  existsb (String.eqb x) l.

Definition is_audio_file (file_path : string) : bool :=
  if negb (Py.truthy file_path) then false
  else
    let file_extension := Py.lower (snd (OsPath.splitext file_path)) in
    str_in file_extension get_supported_audio_extensions.

(** ** Exceptions; computations that may raise

    Every exception class met in the sources derives from [Exception], so
    an [except Exception] handler catches all of them. *)

Inductive exn_class : Type :=
| ImportError | UnicodeDecodeError | JSONDecodeError | TypeError
| AttributeError | KeyError | FileNotFoundError | IsADirectoryError
| OtherException.

Record exn : Type := mk_exn { exn_cls : exn_class; exn_msg : string }.

Inductive outcome (A : Type) : Type :=
| Ret (a : A)
| Raise (e : exn).

Arguments Ret {A} a.
Arguments Raise {A} e.

Definition bind {A B : Type} (c : outcome A) (k : A -> outcome B) : outcome B :=
  match c with
  | Ret a => k a
  | Raise e => Raise e
  end.

Notation "x <- c ;; k" := (bind c (fun x => k))
  (at level 61, c at next level, right associativity).

(** [try: c  except Exception as e: h e] *)
Definition try_except {A : Type} (c : outcome A) (h : exn -> outcome A) : outcome A :=
  match c with
  | Ret a => Ret a
  | Raise e => h e
  end.

Definition is_class (cls : exn_class) (e : exn) : bool :=
  match cls, exn_cls e with
  | ImportError, ImportError | UnicodeDecodeError, UnicodeDecodeError
  | JSONDecodeError, JSONDecodeError | TypeError, TypeError
  | AttributeError, AttributeError | KeyError, KeyError
  | FileNotFoundError, FileNotFoundError
  | IsADirectoryError, IsADirectoryError
  | OtherException, OtherException => true
  | _, _ => false
  end.

(** ** Python values, as [json.loads] produces them *)

(** A dictionary is an association list with string keys; the first binding
    of a key is its value.  A float is kept abstract: the program observes
    of it only its truth value ([zero]) and its printed form. *)
Inductive pyval : Type :=
| PNone
| PBool (b : bool)
| PInt (z : Z)
| PFloat (zero : bool) (text : string)
| PStr (s : string)
| PList (items : list pyval)
| PDict (items : list (string * pyval)).

Definition nl : string := String (ascii_of_nat 10) "".

Module PyVal.

(** [not v] is [negb (truthy v)]. *)
Definition truthy (v : pyval) : bool :=
  match v with
  | PNone => false
  | PBool b => b
  | PInt z => negb (z =? 0)%Z
  | PFloat zero _ => negb zero
  | PStr s => Py.truthy s
  | PList [] => false
  | PList (_ :: _) => true
  | PDict [] => false
  | PDict (_ :: _) => true
  end.

Fixpoint dict_get (d : list (string * pyval)) (k : string) : option pyval :=
  match d with
  | [] => None
  | (k', v) :: d' => if String.eqb k' k then Some v else dict_get d' k
  end.

Definition dict_keys (d : list (string * pyval)) : list string :=
  nodup string_dec (map fst d).

(** The code points of a string, each as a string of its own. *)
Fixpoint code_points (s : string) : list string :=
  match s with
  | "" => []
  | String c s' =>
      match code_points s' with
      | (String d _ as x) :: rest =>
          if Py.is_continuation d then String c x :: rest
          else String c "" :: x :: rest
      | other => String c "" :: other
      end
  end.

Definition is_str_eq (k : string) (v : pyval) : bool :=
  match v with PStr s => String.eqb s k | _ => false end.

(** [k in v] for a string [k] *)
Definition contains (k : string) (v : pyval) : outcome bool :=
  match v with
  | PDict d => Ret (match dict_get d k with Some _ => true | None => false end)
  | PList l => Ret (existsb (is_str_eq k) l)
  | PStr s => Ret (Py.contains k s)
  | _ => Raise (mk_exn TypeError "argument is not iterable")
  end.

(** [v[k]] for a string [k] *)
Definition getitem (v : pyval) (k : string) : outcome pyval :=
  match v with
  | PDict d =>
      match dict_get d k with
      | Some x => Ret x
      | None => Raise (mk_exn KeyError k)
      end
  | PList _ | PStr _ => Raise (mk_exn TypeError "indices must be integers")
  | _ => Raise (mk_exn TypeError "object is not subscriptable")
  end.

(** [v.get(k, default)] *)
Definition get (v : pyval) (k : string) (default : pyval) : outcome pyval :=
  match v with
  | PDict d =>
      match dict_get d k with
      | Some x => Ret x
      | None => Ret default
      end
  | _ => Raise (mk_exn AttributeError "object has no attribute 'get'")
  end.

(** [for x in v]: the items visited. *)
Definition iter (v : pyval) : outcome (list pyval) :=
  match v with
  | PList l => Ret l
  | PDict d => Ret (map PStr (dict_keys d))
  | PStr s => Ret (map PStr (code_points s))
  | _ => Raise (mk_exn TypeError "object is not iterable")
  end.

(** [len(v)] *)
Definition len (v : pyval) : outcome nat :=
  match v with
  | PList l => Ret (List.length l)
  | PDict d => Ret (List.length (dict_keys d))
  | PStr s => Ret (Py.len s)
  | _ => Raise (mk_exn TypeError "object has no len()")
  end.

Definition isinstance_str (v : pyval) : bool :=
  match v with PStr _ => true | _ => false end.

Definition isinstance_list (v : pyval) : bool :=
  match v with PList _ => true | _ => false end.

End PyVal.

(** ** The state threaded through a request

    [trace] records, oldest first, the calls towards remote services and
    the entries into the archive writer; [temp_files] is the global list
    [_temp_files] of [app.py].  An event is recorded when the call is
    reached, before the library is consulted: the trace tells which calls
    the program makes, and so bounds from above what is sent.  The globals
    [_model] and [_processor] of [utils/transcription.py] are not part of
    this state; [load_whisper_model] is modelled on its own. *)

Inductive event : Type :=
| ChatRequest (api_key prompt : string)
| ArchiveCall (meeting_data : pyval) (hf_token : string)
| HubLogin (token : string)
| HubFetch (dataset_name : string)
| HubPush (dataset_name token : string).

Record state : Type := mk_state {
  trace : list event;
  temp_files : list string
}.

Definition M (A : Type) : Type := state -> outcome A * state.

Definition retM {A : Type} (a : A) : M A := fun st => (Ret a, st).

Definition bindM {A B : Type} (c : M A) (k : A -> M B) : M B :=
  fun st =>
    match c st with
    | (Ret a, st') => k a st'
    | (Raise e, st') => (Raise e, st')
    end.

Notation "x <~ c ;; k" := (bindM c (fun x => k))
  (at level 61, c at next level, right associativity).

Definition liftM {A : Type} (c : outcome A) : M A := fun st => (c, st).

Definition emit (ev : event) : M unit :=
  fun st => (Ret tt, mk_state (trace st ++ [ev])%list (temp_files st)).

Definition track_temp_file (p : string) : M unit :=
  fun st => (Ret tt, mk_state (trace st) (temp_files st ++ [p])%list).

(** [try: c  except Exception as e: h e], effects of [c] kept. *)
Definition try_exceptM {A : Type} (c : M A) (h : exn -> M A) : M A :=
  fun st =>
    match c st with
    | (Ret a, st') => (Ret a, st')
    | (Raise e, st') => h e st'
    end.

(** ** The world outside the repository *)

Inductive node : Type :=
| Directory
| Regular (data : outcome string).

(** A row of the remote dataset, as [_prepare_meeting_record] builds it. *)
Record meeting_record : Type := mk_record {
  rec_id : string;
  rec_file_name : pyval;
  rec_meeting_date : string;
  rec_transcription : pyval;
  rec_summary : pyval;
  rec_topics : string;
  rec_keywords : string;
  rec_created_at : string
}.

(** [datasets] and [huggingface_hub], when they could be imported. *)
Record Hub : Type := mk_hub {
  login : string -> outcome unit;
  from_hub : string -> outcome (list meeting_record);
  from_dict_empty : outcome (list meeting_record);
  from_list : list meeting_record -> outcome (list meeting_record);
  push_to_hub : list meeting_record -> string -> string -> outcome unit
}.

Record World : Type := mk_world {
  (** the file system: what a path names *)
  fs : string -> option node;
  (** [open(path, 'r', encoding=enc).read()] on the bytes of a file; the
      flag stands for [errors='replace'] *)
  decode : string -> bool -> string -> outcome string;
  (** [PyPDF2.PdfReader]: the pages, each with what [extract_text()] does *)
  PyPDF2 : option (string -> outcome (list (outcome string)));
  (** [docx.Document]: the text of the paragraphs *)
  Document : option (string -> outcome (list string));
  (** librosa and the Whisper model: samples and language to the decoded
      transcription; [None] when the imports failed *)
  librosa : option (string -> string -> outcome string);
  (** the OpenAI client: key and prompt to
      [response.choices[0].message.content], which may be [None] *)
  OpenAI : option (string -> string -> outcome (option string));
  json_loads : string -> outcome pyval;
  json_dumps : pyval -> outcome string;
  (** [str(v)] for a value that is not a string *)
  str_other : pyval -> string;
  (** reportlab: the body of [generate_pdf] from the temporary name to
      [doc.build], giving the path written *)
  SimpleDocTemplate : option (pyval -> outcome string);
  (** [os.path.isfile] on a report path, once rendering is over *)
  report_isfile : string -> bool;
  datasets : option Hub;
  uuid4 : string;
  now_date : string;
  now_iso : string
}.

Module Os.

(** The empty path names nothing. *)
Definition lookup (w : World) (p : string) : option node :=
  if Py.truthy p then fs w p else None.

(** [os.path.exists] *)
Definition exists_ (w : World) (p : string) : bool :=
  match lookup w p with Some _ => true | None => false end.

(** [os.path.isfile] *)
Definition isfile (w : World) (p : string) : bool :=
  match lookup w p with Some (Regular _) => true | _ => false end.

(** The bytes behind [open(p, ...)]. *)
Definition open_read (w : World) (p : string) : outcome string :=
  match lookup w p with
  | None => Raise (mk_exn FileNotFoundError p)
  | Some Directory => Raise (mk_exn IsADirectoryError p)
  | Some (Regular data) => data
  end.

End Os.

(** ** utils/text_extraction.py *)

Definition read_text (w : World) (file_path encoding : string) (replace : bool)
  : outcome string :=
  data <- Os.open_read w file_path ;;
  decode w encoding replace data.

(** The [for encoding in encodings] loop of [_extract_from_txt]: [Some] is
    the [return] inside the loop, [None] is the loop running out. *)
Fixpoint try_encodings (w : World) (file_path : string) (encodings : list string)
  : outcome (option string) :=
  match encodings with
  | [] => Ret None
  | encoding :: rest =>
      match read_text w file_path encoding false with
      | Ret s => Ret (Some s)
      | Raise e =>
          if is_class UnicodeDecodeError e
          then try_encodings w file_path rest
          else Raise e
      end
  end.

Definition _extract_from_txt (w : World) (file_path : string) : outcome string :=
  let encodings := ["utf-8"; "latin-1"; "cp1252"] in
  r <- try_encodings w file_path encodings ;;
  match r with
  | Some s => Ret s
  | None => read_text w file_path "utf-8" true
  end.

(** [for page_num in range(len(pdf_reader.pages)): text += ... + newline] *)
Fixpoint pdf_pages_loop (pages : list (outcome string)) (text : string)
  : outcome string :=
  match pages with
  | [] => Ret text
  | page :: rest =>
      t <- page ;;
      pdf_pages_loop rest (text ++ t ++ nl)
  end.

Definition _extract_from_pdf (w : World) (file_path : string) : outcome string :=
  match PyPDF2 w with
  | None => Raise (mk_exn ImportError "PyPDF2 not installed. Install with: pip install pypdf2")
  | Some PdfReader =>
      file <- Os.open_read w file_path ;;
      pages <- PdfReader file ;;
      text <- pdf_pages_loop pages "" ;;
      Ret (Py.strip text)
  end.

(** [for paragraph in doc.paragraphs: text += paragraph.text + newline] *)
Fixpoint docx_paragraphs_loop (paragraphs : list string) (text : string) : string :=
  match paragraphs with
  | [] => text
  | paragraph :: rest => docx_paragraphs_loop rest (text ++ paragraph ++ nl)
  end.

Definition _extract_from_docx (w : World) (file_path : string) : outcome string :=
  match Document w with
  | None => Raise (mk_exn ImportError "python-docx not installed. Install with: pip install python-docx")
  | Some Doc =>
      file <- Os.open_read w file_path ;;
      paragraphs <- Doc file ;;
      Ret (Py.strip (docx_paragraphs_loop paragraphs ""))
  end.

Definition extract_text (w : World) (file_path : string) : outcome (option string) :=
  if negb (Os.exists_ w file_path) then Ret None
  else
    let file_extension := Py.lower (snd (OsPath.splitext file_path)) in
    try_except
      (if String.eqb file_extension ".txt" then
         t <- _extract_from_txt w file_path ;; Ret (Some t)
       else if String.eqb file_extension ".pdf" then
         t <- _extract_from_pdf w file_path ;; Ret (Some t)
       else if String.eqb file_extension ".docx" then
         t <- _extract_from_docx w file_path ;; Ret (Some t)
       else Ret None)
      (fun e => Ret None).

Definition get_supported_extensions : list string := [".txt"; ".pdf"; ".docx"].

(** ** utils/transcription.py: [transcribe_audio]

    The field [librosa] covers the body of the [try] block up to
    [batch_decode(...)[0]]: loading the model (cached in the globals
    [_model] and [_processor]), loading the audio and decoding.  Its answer
    is the one of the request at hand; [transcribe_audio_loading] further
    down follows the globals. *)
Definition transcribe_audio (w : World) (file_path language : string)
  : outcome (option string) :=
  if negb (Os.exists_ w file_path) then Ret None
  else
    match librosa w with
    | None => Ret None
    | Some whisper =>
        try_except
          (audio <- Os.open_read w file_path ;;
           transcription <- whisper audio language ;;
           Ret (Some (Py.strip transcription)))
          (fun e => Ret None)
    end.

(** ** utils/llm_analysis.py *)

Definition dq : string := String (ascii_of_nat 34) "".

(** The f-string [prompt] of [analyze_meeting]. *)
Definition build_prompt (text : string) : string :=
  nl ++ "Analyze the following meeting text and provide a response in JSON format with the following keys:" ++ nl
  ++ nl
  ++ "1. " ++ dq ++ "summary" ++ dq ++ ": A comprehensive and detailed summary of the meeting (minimum 200 words)" ++ nl
  ++ "2. " ++ dq ++ "topics" ++ dq ++ ": A list of 5-8 main topics discussed in the meeting" ++ nl
  ++ "3. " ++ dq ++ "keywords" ++ dq ++ ": A list of 10-15 relevant keywords" ++ nl
  ++ nl
  ++ "Meeting text:" ++ nl
  ++ text ++ nl
  ++ nl
  ++ "Respond ONLY with the requested JSON, without any additional text." ++ nl.

(** Lines 78-81: removal of the code-fence markers. *)
Definition clean_content (content : string) : string :=
  let content :=
    if Py.startswith "```json" content then Py.drop 7 content else content in
  let content :=
    if Py.endswith "```" content then Py.drop_last 3 content else content in
  content.

(** [all(key in result for key in required_keys)]: the generator stops at
    the first key that is missing. *)
Fixpoint all_keys_in (result : pyval) (required_keys : list string) : outcome bool :=
  match required_keys with
  | [] => Ret true
  | key :: rest =>
      b <- PyVal.contains key result ;;
      if b then all_keys_in result rest else Ret false
  end.

(** Lines 88-105: structure and type validation of the decoded value. *)
Definition validate_result (result : pyval) : outcome (option pyval) :=
  let required_keys := ["summary"; "topics"; "keywords"] in
  present <- all_keys_in result required_keys ;;
  if negb present then Ret None
  else
    summary <- PyVal.getitem result "summary" ;;
    if negb (PyVal.isinstance_str summary) then Ret None
    else
      topics <- PyVal.getitem result "topics" ;;
      if negb (PyVal.isinstance_list topics) then Ret None
      else
        keywords <- PyVal.getitem result "keywords" ;;
        if negb (PyVal.isinstance_list keywords) then Ret None
        else Ret (Some result).

(** Lines 75-110: from the content of the response to the result.  The
    inner handler catches [json.JSONDecodeError] only. *)
Definition handle_response (w : World) (message_content : option string)
  : outcome (option pyval) :=
  content <- match message_content with
             | Some s => Ret (Py.strip s)
             | None => Raise (mk_exn AttributeError "'NoneType' object has no attribute 'strip'")
             end ;;
  let content := clean_content content in
  match json_loads w content with
  | Ret result => validate_result result
  | Raise e =>
      if is_class JSONDecodeError e then Ret None else Raise e
  end.

Definition analyze_meeting (w : World) (text api_key : string) : M (option pyval) :=
  if negb (Py.truthy text) || negb (Py.truthy (Py.strip text)) then retM None
  else if negb (Py.truthy api_key) then retM None
  else
    match OpenAI w with
    | None => retM None
    | Some create =>
        try_exceptM
          (let prompt := build_prompt text in
           _ <~ emit (ChatRequest api_key prompt) ;;
           message_content <~ liftM (create api_key prompt) ;;
           liftM (handle_response w message_content))
          (fun e => retM None)
    end.

Record display : Type := mk_display {
  d_summary : pyval;
  d_topics : string;
  d_keywords : string
}.

(** [f"{v}"] *)
Definition format_value (w : World) (v : pyval) : string :=
  match v with
  | PStr s => s
  | _ => str_other w v
  end.

(** [[f"- {x}" for x in v]] joined by newlines *)
Definition markdown_list (w : World) (items : list pyval) : string :=
  Py.join nl (map (fun item => "- " ++ format_value w item) items).

Definition format_analysis_for_display (w : World) (analysis : pyval)
  : outcome display :=
  if negb (PyVal.truthy analysis) then
    Ret (mk_display (PStr "Error in analysis") "Error in analysis" "Error in analysis")
  else
    topics <- PyVal.get analysis "topics" (PList []) ;;
    topics <- PyVal.iter topics ;;
    let topics_md := markdown_list w topics in
    keywords <- PyVal.get analysis "keywords" (PList []) ;;
    keywords <- PyVal.iter keywords ;;
    let keywords_md := markdown_list w keywords in
    summary <- PyVal.get analysis "summary" (PStr "Summary not available") ;;
    Ret (mk_display summary topics_md keywords_md).

(** ** utils/pdf_generator.py *)

Definition generate_pdf (w : World) (meeting_data : pyval) : outcome (option string) :=
  if negb (PyVal.truthy meeting_data) then Ret None
  else
    match SimpleDocTemplate w with
    | None => Ret None
    | Some build =>
        try_except
          (pdf_path <- build meeting_data ;; Ret (Some pdf_path))
          (fun e => Ret None)
    end.

(** ** utils/data_persistence.py *)

Definition DATASET_NAME : string := "meeting-summarizer-data".

Definition _prepare_meeting_record (w : World) (meeting_data : pyval)
  : outcome meeting_record :=
  file_name <- PyVal.get meeting_data "file_name" (PStr "unknown") ;;
  transcription <- PyVal.get meeting_data "transcription" (PStr "") ;;
  summary <- PyVal.get meeting_data "summary" (PStr "") ;;
  topics <- PyVal.get meeting_data "topics" (PList []) ;;
  topics <- json_dumps w topics ;;
  keywords <- PyVal.get meeting_data "keywords" (PList []) ;;
  keywords <- json_dumps w keywords ;;
  Ret (mk_record (uuid4 w) file_name (now_date w) transcription summary
         topics keywords (now_iso w)).

(** The event of the fetch marks the call [Dataset.from_hub(DATASET_NAME)]
    being reached; what the library then does, or fails to do, is the
    answer of [from_hub]. *)
Definition _get_or_create_dataset (hub : Hub) : M (option (list meeting_record)) :=
  try_exceptM
    (loaded <~ try_exceptM
                 (_ <~ emit (HubFetch DATASET_NAME) ;;
                  dataset <~ liftM (from_hub hub DATASET_NAME) ;;
                  retM (Some dataset))
                 (fun e => retM None) ;;
     match loaded with
     | Some dataset => retM (Some dataset)
     | None =>
         empty_dataset <~ liftM (from_dict_empty hub) ;;
         retM (Some empty_dataset)
     end)
    (fun e => retM None).

Definition save_meeting_to_dataset (w : World) (meeting_data : pyval)
  (hf_token : string) : M bool :=
  _ <~ emit (ArchiveCall meeting_data hf_token) ;;
  if negb (PyVal.truthy meeting_data) then retM false
  else
    match datasets w with
    | None => retM false
    | Some hub =>
        try_exceptM
          (_ <~ (if Py.truthy hf_token then
                   try_exceptM
                     (_ <~ emit (HubLogin hf_token) ;;
                      liftM (login hub hf_token))
                     (fun e => retM tt)
                 else retM tt) ;;
           meeting_record <~ liftM (_prepare_meeting_record w meeting_data) ;;
           dataset <~ _get_or_create_dataset hub ;;
           match dataset with
           | None => retM false
           | Some records =>
               let records := (records ++ [meeting_record])%list in
               new_dataset <~ liftM (from_list hub records) ;;
               _ <~ (if Py.truthy hf_token then
                       try_exceptM
                         (_ <~ emit (HubPush DATASET_NAME hf_token) ;;
                          liftM (push_to_hub hub new_dataset DATASET_NAME hf_token))
                         (fun e => retM tt)
                     else retM tt) ;;
               retM true
           end)
          (fun e => retM false)
    end.

(** ** app.py *)

(** What the presentation layer hands over as [file]: nothing, a path, or
    an object whose [name] (or, without one, whose [str()]) is the path. *)
Inductive upload : Type :=
| NoFile
| PathStr (path : string)
| FileObj (name : string).

Definition upload_truthy (file : upload) : bool :=
  match file with
  | NoFile => false
  | PathStr p => Py.truthy p
  | FileObj _ => true
  end.

Definition upload_path (file : upload) : string :=
  match file with
  | NoFile => ""
  | PathStr p => p
  | FileObj name => name
  end.

(** The tuple [(summary, topics, keywords, pdf_path, message)]. *)
Record result : Type := mk_result {
  r_summary : pyval;
  r_topics : string;
  r_keywords : string;
  r_pdf_path : option string;
  r_message : string
}.

Definition error_mark : string := "‚ùå".
Definition success_mark : string := "‚úÖ".

Definition failure (reason : string) : result :=
  mk_result (PStr "") "" "" None (error_mark ++ " Error: " ++ reason).

(** [if pdf_path:] on an optional string *)
Definition path_truthy (pdf_path : option string) : bool :=
  match pdf_path with
  | Some p => Py.truthy p
  | None => false
  end.

Definition save_confirmation : string :=
  nl ++ "üíæ Data saved to Hugging Face Dataset".

(** The f-string [success_msg] of line 140. *)
Definition success_msg (file_name : string) (n_chars n_topics n_keywords : nat)
  : string :=
  success_mark ++ " Meeting analyzed successfully!" ++ nl ++ nl
  ++ "üìÑ File: " ++ file_name ++ nl
  ++ "üìù Characters analyzed: " ++ Py.str_of_nat n_chars ++ nl
  ++ "üìä Topics identified: " ++ Py.str_of_nat n_topics ++ nl
  ++ "üîë Keywords: " ++ Py.str_of_nat n_keywords.

(** Lines 92-151 of [process_meeting]: the stages after the text has been
    obtained. *)
Definition process_text (w : World) (file_name text api_key hf_token : string)
  : M result :=
  if negb (Py.truthy (Py.strip text)) then
    retM (failure "No text extracted from file")
  else
    analysis <~ analyze_meeting w text api_key ;;
    match analysis with
    | None => retM (failure "Analysis failed")
    | Some analysis =>
        if negb (PyVal.truthy analysis) then retM (failure "Analysis failed")
        else
          formatted_analysis <~ liftM (format_analysis_for_display w analysis) ;;
          pdf_path <~ liftM (generate_pdf w analysis) ;;
          let pdf_path :=
            if path_truthy pdf_path then
              match pdf_path with
              | Some p => if negb (report_isfile w p) then None else pdf_path
              | None => pdf_path
              end
            else pdf_path in
          _ <~ (if Py.truthy hf_token then
                  summary <~ liftM (PyVal.get analysis "summary" (PStr "")) ;;
                  topics <~ liftM (PyVal.get analysis "topics" (PList [])) ;;
                  keywords <~ liftM (PyVal.get analysis "keywords" (PList [])) ;;
                  let meeting_data :=
                    PDict [("file_name", PStr file_name);
                           ("transcription", PStr text);
                           ("summary", summary);
                           ("topics", topics);
                           ("keywords", keywords)] in
                  _ <~ save_meeting_to_dataset w meeting_data hf_token ;;
                  retM tt
                else retM tt) ;;
          _ <~ (match pdf_path with
                | Some p => if Py.truthy p then track_temp_file p else retM tt
                | None => retM tt
                end) ;;
          topics <~ liftM (PyVal.get analysis "topics" (PList [])) ;;
          n_topics <~ liftM (PyVal.len topics) ;;
          keywords <~ liftM (PyVal.get analysis "keywords" (PList [])) ;;
          n_keywords <~ liftM (PyVal.len keywords) ;;
          let success_msg := success_msg file_name (Py.len text) n_topics n_keywords in
          let success_msg :=
            if Py.truthy hf_token then success_msg ++ save_confirmation
            else success_msg in
          retM (mk_result (d_summary formatted_analysis)
                  (d_topics formatted_analysis)
                  (d_keywords formatted_analysis)
                  (if path_truthy pdf_path then pdf_path else None)
                  success_msg)
    end.

(** The handler of the outermost [try] of [process_meeting], line 153. *)
Definition report_exception (e : exn) : M result := retM (failure (exn_msg e)).

Definition process_meeting (w : World) (file : upload) (api_key hf_token : string)
  : M result :=
  try_exceptM
    (if negb (upload_truthy file) then retM (failure "No file uploaded")
     else if negb (Py.truthy api_key) then retM (failure "OpenAI API key required")
     else
       let file_path := upload_path file in
       if negb (Os.exists_ w file_path) then
         retM (failure "File not found or invalid")
       else if negb (Os.isfile w file_path) then
         retM (failure ("Path is a directory, not a file: " ++ file_path))
       else
         let file_name := OsPath.basename file_path in
         if is_audio_file file_name then
           text <~ liftM (transcribe_audio w file_path "en") ;;
           match text with
           | None => retM (failure "Transcription failed")
           | Some text =>
               if negb (Py.truthy text) then retM (failure "Transcription failed")
               else process_text w file_name text api_key hf_token
           end
         else
           text <~ liftM (extract_text w file_path) ;;
           match text with
           | None => retM (failure "Text extraction failed")
           | Some text =>
               if negb (Py.truthy text) then retM (failure "Text extraction failed")
               else process_text w file_name text api_key hf_token
           end)
    report_exception.

(** ** A decoder for a fragment of JSON

    [json.loads] is a field of [World]; the theorems hold for whatever it
    computes.  To evaluate the pipeline on concrete responses the examples
    use [Json.loads] below.  It follows the scanner of Python's [json]
    module on the documents made of objects, arrays, strings with the
    one-letter escapes, integers, [true], [false] and [null]; a number with
    a fraction or an exponent, a [\u] escape, [NaN] and [Infinity] are
    outside the fragment and rejected.  The examples apply it to documents
    of the fragment and to a text that begins with a back quote, with which
    no JSON value begins. *)

Module Json.

Definition is_ws (c : ascii) : bool :=
  let n := nat_of_ascii c in (n =? 32) || (n =? 9) || (n =? 10) || (n =? 13).

Fixpoint skip_ws (s : string) : string :=
  match s with
  | String c s' => if is_ws c then skip_ws s' else s
  | "" => ""
  end.

Definition unescape (c : ascii) : option ascii :=
  let n := nat_of_ascii c in
  if n =? 34 then Some c            (* quote *)
  else if n =? 92 then Some c       (* backslash *)
  else if n =? 47 then Some c       (* solidus *)
  else if n =? 98 then Some (ascii_of_nat 8)
  else if n =? 102 then Some (ascii_of_nat 12)
  else if n =? 110 then Some (ascii_of_nat 10)
  else if n =? 114 then Some (ascii_of_nat 13)
  else if n =? 116 then Some (ascii_of_nat 9)
  else None.

(** The body of a string, after the opening quote: the decoded text (built
    in reverse in [acc]) and what follows the closing quote. *)
Fixpoint scan_string (s acc : string) : option (string * string) :=
  match s with
  | "" => None
  | String c s' =>
      let n := nat_of_ascii c in
      if n =? 34 then Some (Py.rev acc, s')
      else if n =? 92 then
        match s' with
        | "" => None
        | String e s'' =>
            match unescape e with
            | Some x => scan_string s'' (String x acc)
            | None => None
            end
        end
      else if n <? 32 then None
      else scan_string s' (String c acc)
  end.

Definition is_digit (c : ascii) : bool :=
  let n := nat_of_ascii c in (48 <=? n) && (n <=? 57).

Fixpoint scan_digits (s : string) (acc : Z) : Z * string :=
  match s with
  | String c s' =>
      if is_digit c
      then scan_digits s' (10 * acc + Z.of_nat (nat_of_ascii c - 48))%Z
      else (acc, s)
  | "" => (acc, "")
  end.

Definition starts_float_tail (s : string) : bool :=
  match s with
  | String c _ =>
      let n := nat_of_ascii c in (n =? 46) || (n =? 101) || (n =? 69)
  | "" => false
  end.

(** An optional minus sign, then a single zero or a digit from 1 to 9
    followed by digits. *)
Definition scan_int (s : string) : option (Z * string) :=
  let '(neg, s1) :=
    match s with
    | String c s' => if nat_of_ascii c =? 45 then (true, s') else (false, s)
    | "" => (false, s)
    end in
  match s1 with
  | String c s' =>
      if nat_of_ascii c =? 48 then
        if starts_float_tail s' then None else Some (0%Z, s')
      else if is_digit c then
        let '(z, rest) := scan_digits s1 0%Z in
        if starts_float_tail rest then None
        else Some ((if neg then - z else z)%Z, rest)
      else None
  | "" => None
  end.

(** A later pair with a key already present replaces its value. *)
Fixpoint dict_set (d : list (string * pyval)) (k : string) (v : pyval)
  : list (string * pyval) :=
  match d with
  | [] => [(k, v)]
  | (k', v') :: d' =>
      if String.eqb k' k then (k', v) :: d' else (k', v') :: dict_set d' k v
  end.

Definition head_is (n : nat) (s : string) : bool :=
  match s with
  | String c _ => nat_of_ascii c =? n
  | "" => false
  end.

(** [scan_once], with the loops of [JSONArray] and [JSONObject]; [fuel]
    bounds the nesting and the number of items. *)
Fixpoint scan_once (fuel : nat) (s : string) : option (pyval * string) :=
  match fuel with
  | O => None
  | S fuel' =>
      match s with
      | "" => None
      | String c s' =>
          let n := nat_of_ascii c in
          if n =? 34 then
            match scan_string s' "" with
            | Some (str, rest) => Some (PStr str, rest)
            | None => None
            end
          else if n =? 123 then
            let s1 := skip_ws s' in
            if head_is 125 s1 then Some (PDict [], Py.drop 1 s1)
            else scan_pairs fuel' s1 []
          else if n =? 91 then
            let s1 := skip_ws s' in
            if head_is 93 s1 then Some (PList [], Py.drop 1 s1)
            else scan_items fuel' s1 []
          else if Py.startswith "null" s then Some (PNone, Py.drop 4 s)
          else if Py.startswith "true" s then Some (PBool true, Py.drop 4 s)
          else if Py.startswith "false" s then Some (PBool false, Py.drop 5 s)
          else
            match scan_int s with
            | Some (z, rest) => Some (PInt z, rest)
            | None => None
            end
      end
  end

with scan_items (fuel : nat) (s : string) (acc : list pyval)
  : option (pyval * string) :=
  match fuel with
  | O => None
  | S fuel' =>
      match scan_once fuel' s with
      | None => None
      | Some (v, rest) =>
          let rest := skip_ws rest in
          if head_is 93 rest then Some (PList (List.rev (v :: acc)), Py.drop 1 rest)
          else if head_is 44 rest
          then scan_items fuel' (skip_ws (Py.drop 1 rest)) (v :: acc)
          else None
      end
  end

with scan_pairs (fuel : nat) (s : string) (acc : list (string * pyval))
  : option (pyval * string) :=
  match fuel with
  | O => None
  | S fuel' =>
      if head_is 34 s then
        match scan_string (Py.drop 1 s) "" with
        | None => None
        | Some (key, rest) =>
            let rest := skip_ws rest in
            if head_is 58 rest then
              match scan_once fuel' (skip_ws (Py.drop 1 rest)) with
              | None => None
              | Some (v, rest) =>
                  let acc := dict_set acc key v in
                  let rest := skip_ws rest in
                  if head_is 125 rest then Some (PDict acc, Py.drop 1 rest)
                  else if head_is 44 rest
                  then scan_pairs fuel' (skip_ws (Py.drop 1 rest)) acc
                  else None
              end
            else None
        end
      else None
  end.

Definition decode_error : exn := mk_exn JSONDecodeError "Expecting value".

Definition loads (s : string) : outcome pyval :=
  match scan_once (S (String.length s)) (skip_ws s) with
  | Some (v, rest) =>
      match skip_ws rest with
      | "" => Ret v
      | _ => Raise (mk_exn JSONDecodeError "Extra data")
      end
  | None => Raise decode_error
  end.

End Json.

(** ** Reference implementations of library calls, for the examples

    The theorems hold for every [World]; the examples need one.  The
    functions below follow CPython 3 on the inputs described with each. *)

Module Codec.

(** Universal newlines of text-mode [open]. *)
Fixpoint translate_newlines (s : string) : string :=
  match s with
  | "" => ""
  | String c s' =>
      if nat_of_ascii c =? 13 then
        match s' with
        | String d s'' =>
            if nat_of_ascii d =? 10 then String d (translate_newlines s'')
            else String (ascii_of_nat 10) (translate_newlines s')
        | "" => nl
        end
      else String c (translate_newlines s')
  end.

Definition between (lo hi : nat) (c : ascii) : bool :=
  (lo <=? nat_of_ascii c) && (nat_of_ascii c <=? hi).

(** U+FFFD *)
Definition replacement : string :=
  String (ascii_of_nat 239) (String (ascii_of_nat 191) (String (ascii_of_nat 189) "")).

(** For the first byte of a sequence of two to four bytes: the range of
    its second byte and the number of bytes after the second (table 3-7 of
    the Unicode standard). *)
Definition lead (c : ascii) : option (nat * nat * nat) :=
  let n := nat_of_ascii c in
  if (194 <=? n) && (n <=? 223) then Some (128, 191, 0)
  else if n =? 224 then Some (160, 191, 1)
  else if (225 <=? n) && (n <=? 236) then Some (128, 191, 1)
  else if n =? 237 then Some (128, 159, 1)
  else if (238 <=? n) && (n <=? 239) then Some (128, 191, 1)
  else if n =? 240 then Some (144, 191, 2)
  else if (241 <=? n) && (n <=? 243) then Some (128, 191, 2)
  else if n =? 244 then Some (128, 143, 2)
  else None.

Definition bad (replace : bool) (rest : option string) : option string :=
  if replace then option_map (append replacement) rest else None.

(** UTF-8: [None] is [UnicodeDecodeError]; with [replace] every maximal
    ill-formed part becomes U+FFFD. *)
Fixpoint utf8 (replace : bool) (s : string) : option string :=
  match s with
  | "" => Some ""
  | String a r =>
      if nat_of_ascii a <? 128 then option_map (String a) (utf8 replace r)
      else
        match lead a with
        | None => bad replace (utf8 replace r)
        | Some (lo, hi, more) =>
            match r with
            | "" => bad replace (Some "")
            | String b r1 =>
                if between lo hi b then
                  match more with
                  | 0 => option_map (fun t => String a (String b t)) (utf8 replace r1)
                  | S more' =>
                      match r1 with
                      | "" => bad replace (Some "")
                      | String c r2 =>
                          if between 128 191 c then
                            match more' with
                            | 0 =>
                                option_map (fun t => String a (String b (String c t)))
                                  (utf8 replace r2)
                            | S _ =>
                                match r2 with
                                | "" => bad replace (Some "")
                                | String d r3 =>
                                    if between 128 191 d then
                                      option_map
                                        (fun t => String a (String b (String c (String d t))))
                                        (utf8 replace r3)
                                    else bad replace (utf8 replace r2)
                                end
                            end
                          else bad replace (utf8 replace r1)
                      end
                  end
                else bad replace (utf8 replace r)
            end
        end
  end.

(** The UTF-8 form of a code point below U+10000. *)
Definition encode (cp : N) : string :=
  (if cp <? 128 then String (ascii_of_N cp) ""
   else if cp <? 2048 then
     String (ascii_of_N (192 + cp / 64)) (String (ascii_of_N (128 + cp mod 64)) "")
   else
     String (ascii_of_N (224 + cp / 4096))
       (String (ascii_of_N (128 + (cp / 64) mod 64))
          (String (ascii_of_N (128 + cp mod 64)) "")))%N.

Fixpoint latin1 (s : string) : string :=
  match s with
  | "" => ""
  | String a r => encode (N_of_ascii a) ++ latin1 r
  end.

(** Windows-1252 differs from Latin-1 on the bytes 80 to 9F, five of which
    are undefined. *)
Definition cp1252_high : list (option N) :=
  [Some 8364; None; Some 8218; Some 402; Some 8222; Some 8230; Some 8224; Some 8225;
   Some 710; Some 8240; Some 352; Some 8249; Some 338; None; Some 381; None;
   None; Some 8216; Some 8217; Some 8220; Some 8221; Some 8226; Some 8211; Some 8212;
   Some 732; Some 8482; Some 353; Some 8250; Some 339; None; Some 382; Some 376]%N.

Definition cp1252_point (a : ascii) : option N :=
  let n := nat_of_ascii a in
  if (128 <=? n) && (n <? 160) then nth (n - 128) cp1252_high None
  else Some (N_of_ascii a).

Fixpoint cp1252 (replace : bool) (s : string) : option string :=
  match s with
  | "" => Some ""
  | String a r =>
      match cp1252_point a with
      | Some cp => option_map (append (encode cp)) (cp1252 replace r)
      | None => bad replace (cp1252 replace r)
      end
  end.

(** [open(path, 'r', encoding=..., errors=...).read()] on the bytes of the
    file, for the encodings the sources name. *)
Definition decode (encoding : string) (replace : bool) (data : string)
  : outcome string :=
  let text :=
    if String.eqb encoding "utf-8" then
      match utf8 replace data with
      | Some t => Ret t
      | None => Raise (mk_exn UnicodeDecodeError "'utf-8' codec can't decode")
      end
    else if String.eqb encoding "latin-1" then Ret (latin1 data)
    else if String.eqb encoding "cp1252" then
      match cp1252 replace data with
      | Some t => Ret t
      | None => Raise (mk_exn UnicodeDecodeError "'charmap' codec can't decode")
      end
    else Raise (mk_exn OtherException ("unknown encoding: " ++ encoding)) in
  t <- text ;; Ret (translate_newlines t).

End Codec.

Module PyText.

Definition hex_digit (n : N) : ascii :=
  (if n <? 10 then ascii_of_N (48 + n) else ascii_of_N (87 + n))%N.

(** [n] in lower-case hexadecimal, on [digits] digits *)
Fixpoint hex (digits : nat) (n : N) : string :=
  match digits with
  | 0 => ""
  | S d => hex d (n / 16)%N ++ String (hex_digit (n mod 16)%N) ""
  end.

(** The code point of a well-formed UTF-8 sequence. *)
Definition code_point (x : string) : N :=
  match map N_of_ascii (Py.bytes x) with
  | [a] => a
  | [a; b] => (a - 192) * 64 + (b - 128)
  | [a; b; c] => (a - 224) * 4096 + (b - 128) * 64 + (c - 128)
  | [a; b; c; d] => (a - 240) * 262144 + (b - 128) * 4096 + (c - 128) * 64 + (d - 128)
  | _ => 65533
  end%N.

Definition str_of_Z (z : Z) : string := NilEmpty.string_of_int (Z.to_int z).

Definition backslash : string := String (ascii_of_nat 92) "".

(** One character of a JSON string, with [ensure_ascii]. *)
Definition json_char (x : string) : string :=
  let cp := code_point x in
  (if cp =? 34 then backslash ++ dq
   else if cp =? 92 then backslash ++ backslash
   else if cp =? 10 then backslash ++ "n"
   else if cp =? 13 then backslash ++ "r"
   else if cp =? 9 then backslash ++ "t"
   else if cp =? 8 then backslash ++ "b"
   else if cp =? 12 then backslash ++ "f"
   else if (32 <=? cp) && (cp <? 127) then x
   else if cp <? 65536 then backslash ++ "u" ++ hex 4 cp
   else backslash ++ "u" ++ hex 4 (55296 + (cp - 65536) / 1024)
        ++ backslash ++ "u" ++ hex 4 (56320 + (cp - 65536) mod 1024))%N.

Definition json_string (s : string) : string :=
  dq ++ String.concat "" (map json_char (PyVal.code_points s)) ++ dq.

(** [json.dumps(v)] with its default arguments.  A float is written by its
    printed form; the keys of a dictionary are taken to be distinct. *)
Fixpoint dumps (v : pyval) : string :=
  match v with
  | PNone => "null"
  | PBool true => "true"
  | PBool false => "false"
  | PInt z => str_of_Z z
  | PFloat _ text => text
  | PStr s => json_string s
  | PList items => "[" ++ Py.join ", " (map dumps items) ++ "]"
  | PDict items =>
      "{" ++ Py.join ", "
               (map (fun kv => match kv with
                               | (k, x) => json_string k ++ ": " ++ dumps x
                               end) items)
      ++ "}"
  end.

Definition contains_byte (n : nat) (s : string) : bool :=
  existsb (fun c => nat_of_ascii c =? n) (Py.bytes s).

(** One character of [repr(s)] between the quotes [quote].  Outside ASCII,
    the code points up to U+00A0 and the soft hyphen are escaped and all
    others are taken to be printable. *)
Definition repr_char (quote : N) (x : string) : string :=
  let cp := code_point x in
  (if (cp =? quote) || (cp =? 92) then backslash ++ x
   else if cp =? 10 then backslash ++ "n"
   else if cp =? 13 then backslash ++ "r"
   else if cp =? 9 then backslash ++ "t"
   else if (cp <? 32) || (cp =? 127) || ((128 <=? cp) && (cp <=? 160)) || (cp =? 173)
   then backslash ++ "x" ++ hex 2 cp
   else x)%N.

(** [repr(s)] for a string *)
Definition repr_string (s : string) : string :=
  let quote := (if contains_byte 39 s && negb (contains_byte 34 s) then 34 else 39)%N in
  String (ascii_of_N quote) ""
  ++ String.concat "" (map (repr_char quote) (PyVal.code_points s))
  ++ String (ascii_of_N quote) "".

(** [repr(v)] *)
Fixpoint repr (v : pyval) : string :=
  match v with
  | PNone => "None"
  | PBool true => "True"
  | PBool false => "False"
  | PInt z => str_of_Z z
  | PFloat _ text => text
  | PStr s => repr_string s
  | PList items => "[" ++ Py.join ", " (map repr items) ++ "]"
  | PDict items =>
      "{" ++ Py.join ", "
               (map (fun kv => match kv with
                               | (k, x) => repr_string k ++ ": " ++ repr x
                               end) items)
      ++ "}"
  end.

(** [str(v)] *)
Definition str (v : pyval) : string :=
  match v with
  | PStr s => s
  | _ => repr v
  end.

End PyText.

(** ** A concrete world for the examples *)

Module Sample.

(** Text decoding, as the codecs of CPython do it. *)
Definition decode (encoding : string) (replace : bool) (data : string)
  : outcome string :=
  Codec.decode encoding replace data.

Definition payload : string :=
  "{" ++ dq ++ "summary" ++ dq ++ ": " ++ dq ++ "Budget review" ++ dq ++ ", "
  ++ dq ++ "topics" ++ dq ++ ": [" ++ dq ++ "A" ++ dq ++ ", " ++ dq ++ "B" ++ dq ++ "], "
  ++ dq ++ "keywords" ++ dq ++ ": [" ++ dq ++ "x" ++ dq ++ ", " ++ dq ++ "y" ++ dq ++ ", "
  ++ dq ++ "z" ++ dq ++ "]}".

Definition analysis : pyval :=
  PDict [("summary", PStr "Budget review");
         ("topics", PList [PStr "A"; PStr "B"]);
         ("keywords", PList [PStr "x"; PStr "y"; PStr "z"])].

(** A name that embeds the text of the confirmation line. *)
Definition odd_name : string :=
  "/tmp/minutes" ++ save_confirmation ++ ".txt".

Definition fs (p : string) : option node :=
  if String.eqb p "/tmp/meeting.txt" then Some (Regular (Ret "Hello world"))
  else if String.eqb p "/tmp/empty.txt" then Some (Regular (Ret ""))
  else if String.eqb p "/tmp/talk.mp3" then Some (Regular (Ret "RIFF"))
  else if String.eqb p odd_name then Some (Regular (Ret "Hello world"))
  else if String.eqb p "/tmp" then Some Directory
  else None.

(** A hub on which every call fails. *)
Definition hub_down : Hub :=
  let down {A : Type} : outcome A := Raise (mk_exn OtherException "connection refused") in
  mk_hub (fun _ => down) (fun _ => down) down (fun _ => down) (fun _ _ _ => down).

(** The world of the examples: the service answers [response]; [render]
    is the report library; [hub] the dataset libraries. *)
Definition world (response : string) (render : option (pyval -> outcome string))
  (hub : option Hub) : World :=
  mk_world fs decode None None
    (Some (fun _ _ => Ret " hello from the meeting "))
    (Some (fun _ _ => Ret (Some response)))
    Json.loads
    (fun v => Ret (PyText.dumps v))
    PyText.str
    render
    (fun _ => true)
    hub
    "00000000-0000-4000-8000-000000000000" "2024-01-01" "2024-01-01T00:00:00".

Definition render_fails : option (pyval -> outcome string) :=
  Some (fun _ => Raise (mk_exn OtherException "cannot build")).

Definition render_ok : option (pyval -> outcome string) :=
  Some (fun _ => Ret "/tmp/meeting_summary_20240101_000000.pdf").

Definition fenced (opening : string) : string :=
  opening ++ nl ++ payload ++ nl ++ "```".

Definition st0 : state := mk_state [] [].

End Sample.

Definition back_quote : ascii := ascii_of_nat 96.

(** ** Predicates used in the statements *)

(** The shape [analyze_meeting] requires of a decoded response: an object
    with a string under [summary] and lists under [topics] and
    [keywords]. *)
Definition well_formed (v : pyval) : Prop :=
  exists d s ts ks,
    v = PDict d
    /\ PyVal.dict_get d "summary" = Some (PStr s)
    /\ PyVal.dict_get d "topics" = Some (PList ts)
    /\ PyVal.dict_get d "keywords" = Some (PList ks).

(** The state after the single request to the summarization service. *)
Definition after_request (st : state) (api_key text : string) : state :=
  mk_state (trace st ++ [ChatRequest api_key (build_prompt text)])%list
    (temp_files st).

(** An item rendered as a bulleted line. *)
Definition dash (item : string) : string := "- " ++ item.

Definition no_newline (s : string) : Prop := ~ In (ascii_of_nat 10) (Py.bytes s).

(** The extension the two classifiers compare: [os.path.splitext(p)[1].lower()]. *)
Definition file_extension (p : string) : string :=
  Py.lower (snd (OsPath.splitext p)).

Definition audio_formats : list string := ["mp3"; "wav"; "m4a"; "flac"; "ogg"].

Definition dot : ascii := ascii_of_nat 46.
Definition slash : ascii := ascii_of_nat 47.

(** The accumulated text of the page loop and of the paragraph loop: every
    item followed by a newline. *)
Fixpoint lines_of (texts : list string) : string :=
  match texts with
  | [] => ""
  | t :: rest => t ++ nl ++ lines_of rest
  end.

(** The events of the archive writer. *)
Definition is_archive (ev : event) : bool :=
  match ev with
  | ChatRequest _ _ => false
  | ArchiveCall _ _ | HubLogin _ | HubFetch _ | HubPush _ _ => true
  end.

(** [st] with more events at the end of its trace. *)
Definition extend (st : state) (evs : list event) : state :=
  mk_state (trace st ++ evs)%list (temp_files st).

(** A computation that returns, and whose only effect is to append archive
    events to the trace. *)
Definition archive_only {A : Type} (c : M A) : Prop :=
  forall st, exists o evs,
    c st = (o, extend st evs) /\ Forall (fun ev => is_archive ev = true) evs.

(** The report path [process_meeting] hands back: the rendered path when it
    is non-empty and names a regular file. *)
Definition checked_report (w : World) (pdf_path : option string) : option string :=
  match pdf_path with
  | Some p => if Py.truthy p && report_isfile w p then Some p else None
  | None => None
  end.

(** The dictionary [meeting_data] of lines 122-128. *)
Definition meeting_data_of (file_name text : string) (summary topics keywords : pyval)
  : pyval :=
  PDict [("file_name", PStr file_name);
         ("transcription", PStr text);
         ("summary", summary);
         ("topics", topics);
         ("keywords", keywords)].

(** How [process_meeting] obtains the text: transcription for an audio
    name, extraction otherwise (lines 78-90). *)
Definition obtain_text (w : World) (file_path : string) : outcome (option string) :=
  if is_audio_file (OsPath.basename file_path)
  then transcribe_audio w file_path "en"
  else extract_text w file_path.

Definition obtain_stage (file_path : string) : string :=
  if is_audio_file (OsPath.basename file_path)
  then "Transcription failed" else "Text extraction failed".

(** The reason of a failure that precedes the analysis stage, if there is
    one: input validation, then a text that is absent or empty. *)
Definition early_failure (w : World) (file : upload) (api_key : string)
  : option string :=
  if negb (upload_truthy file) then Some "No file uploaded"
  else if negb (Py.truthy api_key) then Some "OpenAI API key required"
  else if negb (Os.exists_ w (upload_path file)) then Some "File not found or invalid"
  else if negb (Os.isfile w (upload_path file)) then
    Some ("Path is a directory, not a file: " ++ upload_path file)
  else
    match obtain_text w (upload_path file) with
    | Ret (Some text) =>
        if Py.truthy text then None else Some (obtain_stage (upload_path file))
    | Ret None => Some (obtain_stage (upload_path file))
    | Raise e => Some (exn_msg e)
    end.

(** [w] with other dataset libraries, or none. *)
Definition with_datasets (w : World) (hub : option Hub) : World :=
  mk_world (fs w) (decode w) (PyPDF2 w) (Document w) (librosa w) (OpenAI w)
    (json_loads w) (json_dumps w) (str_other w) (SimpleDocTemplate w)
    (report_isfile w) hub (uuid4 w) (now_date w) (now_iso w).

(** No non-empty end of [A] is the beginning of an occurrence of [p]: it
    neither begins with [p] nor continues into it. *)
Fixpoint clear_of (p A : string) : bool :=
  match A with
  | "" => true
  | String _ A' =>
      negb (String.prefix p A) && negb (String.prefix A p) && clear_of p A'
  end.

(** The status message around the file name. *)
Definition success_head : string :=
  success_mark ++ " Meeting analyzed successfully!" ++ nl ++ nl ++ "üìÑ File: ".

Definition success_counts (n_chars n_topics n_keywords : nat) : string :=
  "üìù Characters analyzed: " ++ Py.str_of_nat n_chars ++ nl
  ++ "üìä Topics identified: " ++ Py.str_of_nat n_topics ++ nl
  ++ "üîë Keywords: " ++ Py.str_of_nat n_keywords.

(** A byte of the confirmation line that the rest of the message lacks. *)
Definition marker : ascii := ascii_of_nat 173.

Definition newline : ascii := ascii_of_nat 10.

(** ** A second world for the examples: other files, a speech stack and a
    PDF reader whose answers are given *)

Module Demo.

(** The word "caf\xe9" in Latin-1: four bytes, the last of which is not
    valid UTF-8. *)
Definition cafe : string := "caf" ++ String (ascii_of_nat 233) "".

(** The same word as a Python string. *)
Definition cafe_text : string :=
  "caf" ++ String (ascii_of_nat 195) (String (ascii_of_nat 169) "").

Definition fs (p : string) : option node :=
  if String.eqb p "/tmp/blank.txt" then Some (Regular (Ret ("  " ++ nl)))
  else if String.eqb p "/tmp/notes.xyz" then Some (Regular (Ret "data"))
  else if String.eqb p "/tmp/silence.wav" then Some (Regular (Ret "RIFF"))
  else if String.eqb p "/tmp/scan.pdf" then Some (Regular (Ret "%PDF"))
  else if String.eqb p "/tmp/meeting.txt" then Some (Regular (Ret "Hello world"))
  else if String.eqb p "/tmp/cafe.txt" then Some (Regular (Ret cafe))
  else None.

Definition world (transcription : string) (pages : list (outcome string))
  (hub : option Hub) : World :=
  mk_world fs Sample.decode
    (Some (fun _ => Ret pages))
    (Some (fun _ => Ret ["Agenda"; "Minutes"]))
    (Some (fun _ _ => Ret transcription))
    (Some (fun _ _ => Ret (Some Sample.payload)))
    Json.loads
    (fun v => Ret (PyText.dumps v))
    PyText.str
    Sample.render_ok
    (fun _ => true)
    hub
    "00000000-0000-4000-8000-000000000000" "2024-01-01" "2024-01-01T00:00:00".

End Demo.

(** A byte that no white-space code point begins or ends with: an ASCII
    byte that is not white space. *)
Definition solid (c : ascii) : bool :=
  (nat_of_ascii c <? 128) && negb (Py.space1 c).

Definition open_brace : ascii := ascii_of_nat 123.
Definition close_brace : ascii := ascii_of_nat 125.

(** [load_meetings_from_dataset]; as in [save_meeting_to_dataset], [None]
    and the empty string for [hf_token] take the same branch, and an event
    marks a call being reached. *)
Definition load_meetings_from_dataset (w : World) (hf_token : string)
  : M (option (list meeting_record)) :=
  match datasets w with
  | None => retM None
  | Some hub =>
      try_exceptM
        (_ <~ (if Py.truthy hf_token then
                 try_exceptM
                   (_ <~ emit (HubLogin hf_token) ;;
                    liftM (login hub hf_token))
                   (fun e => retM tt)
               else retM tt) ;;
         _ <~ emit (HubFetch DATASET_NAME) ;;
         dataset <~ liftM (from_hub hub DATASET_NAME) ;;
         let meetings := dataset in
         retM (Some meetings))
        (fun e => retM None)
  end.

(** The hub events of a complete save, in order. *)
Definition save_events (hf_token : string) : list event :=
  ((if Py.truthy hf_token then [HubLogin hf_token] else [])
   ++ [HubFetch DATASET_NAME]
   ++ (if Py.truthy hf_token then [HubPush DATASET_NAME hf_token] else []))%list.

(** The collection [_get_or_create_dataset] comes back with: the remote
    one, the empty one when the remote cannot be fetched, none when the
    empty one cannot be made either. *)
Definition obtained (hub : Hub) : option (list meeting_record) :=
  match from_hub hub DATASET_NAME with
  | Ret dataset => Some dataset
  | Raise _ =>
      match from_dict_empty hub with
      | Ret empty_dataset => Some empty_dataset
      | Raise _ => None
      end
  end.

(** ** Removal of temporary files

    The files on disk while the application runs.  A path is taken as it
    is written: two different strings name two different entries. *)
Definition disk : Type := string -> option node.

Module Disk.

Definition lookup (d : disk) (p : string) : option node :=
  if Py.truthy p then d p else None.

(** [os.path.exists] *)
Definition exists_ (d : disk) (p : string) : bool :=
  match lookup d p with Some _ => true | None => false end.

(** [os.remove]: a regular file is unlinked when the operating system
    permits it ([permitted]); anything else raises an [OSError] and leaves
    the disk as it was. *)
Definition remove (permitted : string -> bool) (p : string) (d : disk)
  : outcome unit * disk :=
  match lookup d p with
  | None => (Raise (mk_exn FileNotFoundError p), d)
  | Some Directory => (Raise (mk_exn IsADirectoryError p), d)
  | Some (Regular _) =>
      if permitted p
      then (Ret tt, fun q => if String.eqb q p then None else d q)
      else (Raise (mk_exn OtherException p), d)
  end.

End Disk.

(** [utils/pdf_generator.py]: [cleanup_temp_pdf] *)
Definition cleanup_temp_pdf (permitted : string -> bool) (pdf_path : string)
  (d : disk) : outcome unit * disk :=
  match
    (if Disk.exists_ d pdf_path
     then Disk.remove permitted pdf_path d
     else (Ret tt, d))
  with
  | (Ret u, d') => (Ret u, d')
  | (Raise e, d') => (Ret tt, d')
  end.

(** [app.py]: the loop of [cleanup_temp_files] over [_temp_files] *)
Fixpoint remove_each (permitted : string -> bool) (files : list string)
  (d : disk) : outcome unit * disk :=
  match files with
  | [] => (Ret tt, d)
  | file_path :: rest =>
      match
        (if Disk.exists_ d file_path
         then match Disk.remove permitted file_path d with
              | (Ret u, d') => (Ret u, d')
              | (Raise e, d') => (Ret tt, d')
              end
         else (Ret tt, d))
      with
      | (Ret _, d') => remove_each permitted rest d'
      | (Raise e, d') => (Raise e, d')
      end
  end.

(** [app.py]: [cleanup_temp_files]; the list is cleared after the loop. *)
Definition cleanup_temp_files (permitted : string -> bool) (st : state)
  (d : disk) : outcome unit * (state * disk) :=
  match remove_each permitted (temp_files st) d with
  | (Ret _, d') => (Ret tt, (mk_state (trace st) [], d'))
  | (Raise e, d') => (Raise e, (st, d'))
  end.

(** What [os.remove] deletes: a regular file, under a non-empty path, that
    the operating system lets go. *)
Definition removable (permitted : string -> bool) (d : disk) (p : string) : bool :=
  Py.truthy p && permitted p
  && match d p with Some (Regular _) => true | _ => false end.

Module DemoDisk.

Definition report : string := "/tmp/meeting_summary_20240101_000000.pdf".

Definition files : disk :=
  fun p => if String.eqb p report then Some (Regular (Ret "%PDF")) else Sample.fs p.

Definition permitted (p : string) : bool := true.

End DemoDisk.

(** The row [_prepare_meeting_record] builds from the data [process_meeting]
    hands to the archive writer. *)
Definition archived_record (w : World) (file_name text s : string)
  (ts ks : list pyval) : outcome meeting_record :=
  topics <- json_dumps w (PList ts) ;;
  keywords <- json_dumps w (PList ks) ;;
  Ret (mk_record (uuid4 w) (PStr file_name) (now_date w) (PStr text) (PStr s)
         topics keywords (now_iso w)).

(** ** utils/pdf_generator.py: the body of [generate_pdf]

    Lines 55 to 166, from the temporary name to [doc.build]: what the field
    [SimpleDocTemplate] of a [World] stands for, written out over the calls
    to reportlab, to the temporary directory and to the clock. *)

(** What goes into the story: [Paragraph(text, style)], with the name of
    the style, and [Spacer(width, height)]. *)
Inductive flowable : Type :=
| Para (text : pyval) (style : string)
| Spacer (width height : nat).

Record Reportlab : Type := mk_reportlab {
  (** [tempfile.gettempdir()] *)
  gettempdir : outcome string;
  (** [datetime.now().strftime("%Y%m%d_%H%M%S")] *)
  timestamp : string;
  (** [SimpleDocTemplate(pdf_path, ...)] *)
  new_document : string -> outcome unit;
  getSampleStyleSheet : outcome unit;
  (** [ParagraphStyle(name, parent=styles[...], ...)] *)
  ParagraphStyle : string -> outcome unit;
  (** [datetime.now().strftime("%m/%d/%Y %H:%M")] *)
  current_date : string;
  (** what the constructor of [Paragraph] does with its text, which it
      parses as markup, under a style *)
  markup : pyval -> string -> outcome unit;
  (** [doc.build(story)] for the document at a path *)
  doc_build : string -> list flowable -> outcome unit
}.

(** [os.path.join(a, b)] *)
Definition os_path_join (a b : string) : string :=
  if Py.startswith "/" b then b
  else if negb (Py.truthy a) || Py.endswith "/" a then a ++ b
  else a ++ "/" ++ b.

(** [range(0, stop, step)] for a positive [step] *)
Definition py_range (stop step : nat) : list nat :=
  map (fun k => k * step) (seq 0 ((stop + (step - 1)) / step)).

(** [l[i:j]] for [0 <= i] *)
Definition slice {A : Type} (l : list A) (i j : nat) : list A :=
  firstn (j - i) (skipn i l).

(** The items of a [str.join]: each must be a [str]. *)
Fixpoint str_items (items : list pyval) : outcome (list string) :=
  match items with
  | [] => Ret []
  | PStr s :: rest => strs <- str_items rest ;; Ret (s :: strs)
  | _ :: _ => Raise (mk_exn TypeError "sequence item: expected str instance")
  end.

(** [sep.join(items)] *)
Definition str_join (sep : string) (items : list pyval) : outcome string :=
  strs <- str_items items ;; Ret (Py.join sep strs).

(** The loop [for i in range(0, len(keywords), 4)] over the items of a
    sequence *)
Fixpoint keyword_rows (keywords : list pyval) (indices : list nat)
  (keyword_lines : list string) : outcome (list string) :=
  match indices with
  | [] => Ret keyword_lines
  | i :: rest =>
      let line_keywords := slice keywords i (i + 4) in
      line <- str_join " • " line_keywords ;;
      keyword_rows keywords rest (keyword_lines ++ [line])
  end.

(** Lines 144 to 147.  A list is sliced and its items joined; a string is
    sliced and joined character by character, which is the same on the list
    of its characters; a dictionary has a length but cannot be sliced (a
    [TypeError] up to Python 3.11, a [KeyError] since, caught alike by
    [generate_pdf]); any other value has no length. *)
Definition keyword_lines (keywords : pyval) : outcome (list string) :=
  n <- PyVal.len keywords ;;
  match keywords with
  | PList items => keyword_rows items (py_range n 4) []
  | PStr s => keyword_rows (map PStr (PyVal.code_points s)) (py_range n 4) []
  | _ =>
      match py_range n 4 with
      | [] => Ret []
      | _ :: _ => Raise (mk_exn TypeError "unhashable type: 'slice'")
      end
  end.

Section ReportBody.

Variable rl : Reportlab.
Variable w : World.

Definition Paragraph (text : pyval) (style : string) : outcome flowable :=
  _ <- markup rl text style ;; Ret (Para text style).

(** [for x in xs: story.append(Paragraph(f"• {x}", list_style))] *)
Fixpoint bullet_paragraphs (texts : list string) (story : list flowable)
  : outcome (list flowable) :=
  match texts with
  | [] => Ret story
  | t :: rest =>
      p <- Paragraph (PStr ("• " ++ t)) "CustomList" ;;
      bullet_paragraphs rest (story ++ [p])%list
  end.

(** Lines 131 to 136 *)
Definition topics_section (meeting_data : pyval) (story : list flowable)
  : outcome (list flowable) :=
  topics <- PyVal.get meeting_data "topics" (PList []) ;;
  if PyVal.truthy topics then
    items <- PyVal.iter topics ;;
    bullet_paragraphs (map (format_value w) items) story
  else
    p <- Paragraph (PStr "Topics not available") "CustomNormal" ;;
    Ret (story ++ [p])%list.

(** Lines 141 to 152 *)
Definition keywords_section (meeting_data : pyval) (story : list flowable)
  : outcome (list flowable) :=
  keywords <- PyVal.get meeting_data "keywords" (PList []) ;;
  if PyVal.truthy keywords then
    keyword_lines <- keyword_lines keywords ;;
    bullet_paragraphs keyword_lines story
  else
    p <- Paragraph (PStr "Keywords not available") "CustomNormal" ;;
    Ret (story ++ [p])%list.

Definition footer_text : string :=
  "<i>Automatically generated on " ++ current_date rl ++ " by Meeting Summarizer</i>".

Definition report_body (meeting_data : pyval) : outcome string :=
  temp_dir <- gettempdir rl ;;
  let pdf_filename := "meeting_summary_" ++ timestamp rl ++ ".pdf" in
  let pdf_path := os_path_join temp_dir pdf_filename in
  _ <- new_document rl pdf_path ;;
  _ <- getSampleStyleSheet rl ;;
  _ <- ParagraphStyle rl "CustomTitle" ;;
  _ <- ParagraphStyle rl "CustomSection" ;;
  _ <- ParagraphStyle rl "CustomNormal" ;;
  _ <- ParagraphStyle rl "CustomList" ;;
  let story := [] in
  p <- Paragraph (PStr "Meeting Summary") "CustomTitle" ;;
  let story := (story ++ [p; Spacer 1 12])%list in
  p <- Paragraph (PStr ("<b>Analysis date:</b> " ++ current_date rl)) "CustomNormal" ;;
  let story := (story ++ [p; Spacer 1 20])%list in
  p <- Paragraph (PStr "Summary") "CustomSection" ;;
  let story := (story ++ [p])%list in
  summary_text <- PyVal.get meeting_data "summary" (PStr "Summary not available") ;;
  p <- Paragraph summary_text "CustomNormal" ;;
  let story := (story ++ [p; Spacer 1 20])%list in
  p <- Paragraph (PStr "Main Topics") "CustomSection" ;;
  let story := (story ++ [p])%list in
  story <- topics_section meeting_data story ;;
  let story := (story ++ [Spacer 1 20])%list in
  p <- Paragraph (PStr "Keywords") "CustomSection" ;;
  let story := (story ++ [p])%list in
  story <- keywords_section meeting_data story ;;
  let story := (story ++ [Spacer 1 30])%list in
  _ <- ParagraphStyle rl "Footer" ;;
  p <- Paragraph (PStr footer_text) "Footer" ;;
  let story := (story ++ [p])%list in
  _ <- doc_build rl pdf_path story ;;
  Ret pdf_path.

End ReportBody.

(** A world whose report library is reportlab as [rl] describes it. *)
Definition with_reportlab (w : World) (rl : Reportlab) : World :=
  mk_world (fs w) (decode w) (PyPDF2 w) (Document w) (librosa w) (OpenAI w)
    (json_loads w) (json_dumps w) (str_other w) (Some (report_body rl w))
    (report_isfile w) (datasets w) (uuid4 w) (now_date w) (now_iso w).

Module DemoReport.

(** A small reportlab: a text is accepted as markup when it is a string in
    which every [<] opens or closes one of the tags [b], [i] and [u], and
    the tags are closed in the reverse of the order they were opened in. *)
Fixpoint balanced (s : string) (opened : list ascii) : bool :=
  match s with
  | "" => match opened with [] => true | _ :: _ => false end
  | String c r =>
      if nat_of_ascii c =? 60 then
        match r with
        | String x (String y r1) =>
            if nat_of_ascii x =? 47 then
              match r1 with
              | String z r2 =>
                  match opened with
                  | o :: rest =>
                      if Ascii.eqb y o && (nat_of_ascii z =? 62) then balanced r2 rest
                      else false
                  | [] => false
                  end
              | "" => false
              end
            else if existsb (Ascii.eqb x) ["b"; "i"; "u"]%char && (nat_of_ascii y =? 62)
            then balanced r1 (x :: opened)
            else false
        | _ => false
        end
      else balanced r opened
  end.

Definition markup (text : pyval) (style : string) : outcome unit :=
  match text with
  | PStr s =>
      if balanced s [] then Ret tt
      else Raise (mk_exn OtherException "paragraph text has invalid markup")
  | _ => Raise (mk_exn AttributeError "object has no attribute 'split'")
  end.

Definition built (pdf_path : string) (story : list flowable) : outcome unit := Ret tt.

Definition rl : Reportlab :=
  mk_reportlab (Ret "/tmp") "20240101_000000" (fun _ => Ret tt) (Ret tt)
    (fun _ => Ret tt) "01/01/2024 00:00" markup built.

Definition meeting (keywords : list pyval) : pyval :=
  PDict [("summary", PStr "Budget review");
         ("topics", PList [PStr "A"; PStr "B"]);
         ("keywords", PList keywords)].

Definition five : list string := ["budget"; "hiring"; "roadmap"; "launch"; "risks"].

Definition world : World :=
  with_reportlab (Sample.world Sample.payload None None) rl.

(** An answer of the service with a number among the keywords. *)
Definition numbered : string :=
  "{" ++ dq ++ "summary" ++ dq ++ ": " ++ dq ++ "Budget review" ++ dq ++ ", "
  ++ dq ++ "topics" ++ dq ++ ": [" ++ dq ++ "A" ++ dq ++ "], "
  ++ dq ++ "keywords" ++ dq ++ ": [" ++ dq ++ "budget" ++ dq ++ ", 2024]}".

End DemoReport.

(** ** utils/transcription.py: [load_whisper_model]

    [torch] and [transformers], when they could be imported; a model and a
    processor are whatever the libraries hand out. *)
Record Transformers (Model Processor : Type) : Type := mk_transformers {
  processor_from_pretrained : string -> outcome Processor;
  model_from_pretrained : string -> outcome Model;
  (** [model.eval()] *)
  eval_mode : Model -> outcome unit;
  cuda_is_available : bool;
  (** [model.to(device)] *)
  to_device : Model -> string -> outcome Model
}.

Arguments mk_transformers {Model Processor}.
Arguments processor_from_pretrained {Model Processor}.
Arguments model_from_pretrained {Model Processor}.
Arguments eval_mode {Model Processor}.
Arguments cuda_is_available {Model Processor}.
Arguments to_device {Model Processor}.

Inductive whisper_call : Type :=
| FetchProcessor (name : string)
| FetchModel (name : string)
| MoveTo (device : string).

(** The globals [_model] and [_processor], and the calls made to the
    libraries so far, oldest first. *)
Record whisper_state (Model Processor : Type) : Type := mk_whisper {
  _model : option Model;
  _processor : option Processor;
  calls : list whisper_call
}.

Arguments mk_whisper {Model Processor}.
Arguments _model {Model Processor}.
Arguments _processor {Model Processor}.
Arguments calls {Model Processor}.

(** The [try] block re-raises what it catches, so an exception leaves the
    function with the globals as they are at that point. *)
Definition load_whisper_model {Model Processor : Type}
  (lib : option (Transformers Model Processor)) (st : whisper_state Model Processor)
  : outcome (Model * Processor) * whisper_state Model Processor :=
  match _model st, _processor st with
  | Some model, Some processor => (Ret (model, processor), st)
  | _, _ =>
      match lib with
      | None =>
          (Raise (mk_exn AttributeError
                    "'NoneType' object has no attribute 'from_pretrained'"), st)
      | Some t =>
          let st := mk_whisper (_model st) (_processor st)
                      (calls st ++ [FetchProcessor "openai/whisper-tiny"]) in
          match processor_from_pretrained t "openai/whisper-tiny" with
          | Raise e => (Raise e, st)
          | Ret processor =>
              let st := mk_whisper (_model st) (Some processor)
                          (calls st ++ [FetchModel "openai/whisper-tiny"]) in
              match model_from_pretrained t "openai/whisper-tiny" with
              | Raise e => (Raise e, st)
              | Ret model =>
                  let st := mk_whisper (Some model) (_processor st) (calls st) in
                  match eval_mode t model with
                  | Raise e => (Raise e, st)
                  | Ret _ =>
                      let device := if cuda_is_available t then "cuda" else "cpu" in
                      let st := mk_whisper (_model st) (_processor st)
                                  (calls st ++ [MoveTo device]) in
                      match to_device t model device with
                      | Raise e => (Raise e, st)
                      | Ret moved =>
                          let st := mk_whisper (Some moved) (_processor st) (calls st) in
                          (Ret (moved, processor), st)
                      end
                  end
              end
          end
      end
  end.

(** ** utils/transcription.py: [transcribe_audio] with the model cache

    The speech stack when its imports succeeded (one [try] block imports
    torch, transformers and librosa, so they are present or absent
    together): the libraries of [load_whisper_model], and [decode_audio]
    for the steps from [librosa.load] to [batch_decode(...)[0]] on the bytes
    of the file. *)
Record Speech (Model Processor : Type) : Type := mk_speech {
  transformers : Transformers Model Processor;
  decode_audio : Model -> Processor -> string -> string -> outcome string
}.

Arguments mk_speech {Model Processor}.
Arguments transformers {Model Processor}.
Arguments decode_audio {Model Processor}.

(** [transcribe_audio], lines 69 to 111, with the globals of the module. *)
Definition transcribe_audio_loading {Model Processor : Type} (w : World)
  (speech : option (Speech Model Processor)) (file_path language : string)
  (st : whisper_state Model Processor)
  : outcome (option string) * whisper_state Model Processor :=
  if negb (Os.exists_ w file_path) then (Ret None, st)
  else
    match speech with
    | None => (Ret None, st)
    | Some sp =>
        match load_whisper_model (Some (transformers sp)) st with
        | (Raise e, st') => (Ret None, st')
        | (Ret (model, processor), st') =>
            (try_except
               (audio <- Os.open_read w file_path ;;
                transcription <- decode_audio sp model processor audio language ;;
                Ret (Some (Py.strip transcription)))
               (fun e => Ret None),
             st')
        end
    end.

(** What the speech stack answers during one request that starts with the
    globals as in [st]: the field [librosa] of a [World]. *)
Definition speech_oracle {Model Processor : Type} (sp : Speech Model Processor)
  (st : whisper_state Model Processor) (audio language : string) : outcome string :=
  match load_whisper_model (Some (transformers sp)) st with
  | (Ret (model, processor), _) => decode_audio sp model processor audio language
  | (Raise e, _) => Raise e
  end.

(** [w] with another speech stack, or none. *)
Definition with_librosa (w : World)
  (whisper : option (string -> string -> outcome string)) : World :=
  mk_world (fs w) (decode w) (PyPDF2 w) (Document w) whisper (OpenAI w)
    (json_loads w) (json_dumps w) (str_other w) (SimpleDocTemplate w)
    (report_isfile w) (datasets w) (uuid4 w) (now_date w) (now_iso w).

Module DemoWhisper.

Definition cold : whisper_state string string := mk_whisper None None [].

Definition lib (gpu_ok : bool) : Transformers string string :=
  mk_transformers (fun name => Ret ("processor:" ++ name))
    (fun name => Ret ("model:" ++ name))
    (fun _ => Ret tt)
    true
    (fun model device =>
       if gpu_ok then Ret (model ++ "@" ++ device)
       else Raise (mk_exn OtherException "CUDA out of memory")).

End DemoWhisper.

(** The number of newlines in a string. *)
Definition line_breaks (s : string) : nat :=
  count_occ Ascii.ascii_dec (Py.bytes s) (ascii_of_nat 10).

(** The calls to the hub. *)
Definition is_hub (ev : event) : bool :=
  match ev with
  | HubLogin _ | HubFetch _ | HubPush _ _ => true
  | ChatRequest _ _ | ArchiveCall _ _ => false
  end.

Example code_points_utf8 :
  PyVal.code_points "a‚b" = ["a"; "‚"; "b"].
Proof. reflexivity. Qed.

Example is_audio_file_upper : is_audio_file "/tmp/Talk.v2.MP3" = true.
Proof. reflexivity. Qed.

Example is_audio_file_hidden : is_audio_file "/tmp/.mp3" = false.
Proof. reflexivity. Qed.

Example is_audio_file_dir_dot : is_audio_file "/tmp/a.mp3/notes" = false.
Proof. reflexivity. Qed.

Example strip_nbsp :
  Py.strip (String (ascii_of_nat 194) (String (ascii_of_nat 160) " a b ")) = "a b".
Proof. reflexivity. Qed.

Example loads_payload : Json.loads Sample.payload = Ret Sample.analysis.
Proof. vm_compute. reflexivity. Qed.

(** A text file holding [Hello world], analysed into two topics and three
    keywords: 11 characters, 2 topics and 3 keywords are reported, and the
    report is tracked for cleanup. *)
Example hello_world_run :
  process_meeting (Sample.world (Sample.fenced "```json") Sample.render_ok None)
    (PathStr "/tmp/meeting.txt") "sk-test" "" Sample.st0
  = (Ret (mk_result (PStr "Budget review")
            (Py.join nl ["- A"; "- B"]) (Py.join nl ["- x"; "- y"; "- z"])
            (Some "/tmp/meeting_summary_20240101_000000.pdf")
            (success_msg "meeting.txt" 11 2 3)),
     mk_state [ChatRequest "sk-test" (build_prompt "Hello world")]
       ["/tmp/meeting_summary_20240101_000000.pdf"]).
Proof. vm_compute. reflexivity. Qed.

Example hello_archive_run :
  process_meeting (Sample.world (Sample.fenced "```json") Sample.render_ok (Some Sample.hub_down))
    (PathStr "/tmp/meeting.txt") "sk-test" "hf_test" Sample.st0
  = (Ret (mk_result (PStr "Budget review")
            (Py.join nl ["- A"; "- B"]) (Py.join nl ["- x"; "- y"; "- z"])
            (Some "/tmp/meeting_summary_20240101_000000.pdf")
            (success_msg "meeting.txt" 11 2 3 ++ save_confirmation)),
     mk_state
       [ChatRequest "sk-test" (build_prompt "Hello world");
        ArchiveCall
          (meeting_data_of "meeting.txt" "Hello world" (PStr "Budget review")
             (PList [PStr "A"; PStr "B"]) (PList [PStr "x"; PStr "y"; PStr "z"]))
          "hf_test";
        HubLogin "hf_test";
        HubFetch DATASET_NAME]
       ["/tmp/meeting_summary_20240101_000000.pdf"]).
Proof. vm_compute. reflexivity. Qed.

Example numbered_keyword_run :
  process_meeting
    (with_reportlab (Sample.world DemoReport.numbered None None) DemoReport.rl)
    (PathStr "/tmp/meeting.txt") "sk-test" "" Sample.st0
  = (Ret (mk_result (PStr "Budget review")
            (Py.join nl ["- A"]) (Py.join nl ["- budget"; "- 2024"])
            None
            (success_msg "meeting.txt" 11 1 2)),
     mk_state [ChatRequest "sk-test" (build_prompt "Hello world")] []).
Proof. vm_compute. reflexivity. Qed.

(** * Facts about the built-ins *)

Section StringFacts.

Lemma append_assoc (a b c : string) : (a ++ b) ++ c = a ++ (b ++ c).
Proof. induction a as [|x a IH]; simpl; [reflexivity | now rewrite IH]. Qed.

Lemma append_nil_r (a : string) : a ++ "" = a.
Proof. induction a as [|x a IH]; simpl; [reflexivity | now rewrite IH]. Qed.

Lemma length_append (a b : string) :
  String.length (a ++ b) = String.length a + String.length b.
Proof. induction a as [|x a IH]; simpl; [reflexivity | now rewrite IH]. Qed.

Lemma drop_append (a b : string) : Py.drop (String.length a) (a ++ b) = b.
Proof. induction a as [|x a IH]; simpl; [now destruct b | exact IH]. Qed.

Lemma take_append (a b : string) : Py.take (String.length a) (a ++ b) = a.
Proof. induction a as [|x a IH]; simpl; [now destruct b | now rewrite IH]. Qed.

Lemma prefix_append (p s : string) : String.prefix p (p ++ s) = true.
Proof.
  induction p as [|x p IH]; simpl.
  - now destruct s.
  - destruct (ascii_dec x x) as [_|N]; [exact IH | now elim N].
Qed.

Lemma prefix_nil (s : string) : String.prefix "" s = true.
Proof. now destruct s. Qed.

Lemma prefix_cons (a b : ascii) (p s : string) :
  String.prefix (String a p) (String b s) = Ascii.eqb a b && String.prefix p s.
Proof.
  simpl. destruct (ascii_dec a b) as [E|N].
  - subst. now rewrite Ascii.eqb_refl.
  - apply Ascii.eqb_neq in N. now rewrite N.
Qed.

Lemma rev_onto_append (s acc : string) : Py.rev_onto s acc = Py.rev s ++ acc.
Proof.
  unfold Py.rev. revert acc.
  induction s as [|x s IH]; intros acc; simpl; [reflexivity|].
  rewrite IH, (IH (String x "")), append_assoc. reflexivity.
Qed.

Lemma rev_cons (x : ascii) (s : string) : Py.rev (String x s) = Py.rev s ++ String x "".
Proof. unfold Py.rev at 1. simpl. apply rev_onto_append. Qed.

Lemma rev_append (a b : string) : Py.rev (a ++ b) = Py.rev b ++ Py.rev a.
Proof.
  induction a as [|x a IH]; simpl.
  - now rewrite append_nil_r.
  - now rewrite !rev_cons, IH, append_assoc.
Qed.

Lemma rev_involutive (s : string) : Py.rev (Py.rev s) = s.
Proof.
  induction s as [|x s IH]; [reflexivity|].
  now rewrite rev_cons, rev_append, IH.
Qed.

Lemma rev_empty (s : string) : Py.rev s = "" -> s = "".
Proof. intros H. rewrite <- (rev_involutive s), H. reflexivity. Qed.

Lemma endswith_append (a p : string) : Py.endswith p (a ++ p) = true.
Proof.
  unfold Py.endswith. rewrite length_append.
  replace (String.length a + String.length p - String.length p)
    with (String.length a) by lia.
  rewrite drop_append, String.eqb_refl.
  rewrite andb_true_r. apply Nat.leb_le. lia.
Qed.

Lemma drop_last_append (a p : string) :
  Py.drop_last (String.length p) (a ++ p) = a.
Proof.
  unfold Py.drop_last. rewrite length_append.
  replace (String.length a + String.length p - String.length p)
    with (String.length a) by lia.
  apply take_append.
Qed.

End StringFacts.

(** ** [strip] removes everything exactly from the white-space strings *)

Section StripFacts.

Variable p1 : ascii -> bool.
Variable p2 : ascii -> ascii -> bool.
Variable p3 : ascii -> ascii -> ascii -> bool.

(** The patterns of different lengths exclude each other. *)
Hypothesis p2_excl : forall a b, p2 a b = true -> p1 a = false.
Hypothesis p3_excl : forall a b c, p3 a b c = true -> p1 a = false /\ p2 a b = false.

Lemma strip_front_tiled (s : string) : Py.tiled p1 p2 p3 s -> Py.strip_front p1 p2 p3 s = "".
Proof.
  induction 1 as [|a s Ha _ IH|a b s Hab _ IH|a b c s Habc _ IH]; simpl.
  - reflexivity.
  - now rewrite Ha.
  - now rewrite (p2_excl _ _ Hab), Hab.
  - destruct (p3_excl _ _ _ Habc) as [E1 E2]. now rewrite E1, E2, Habc.
Qed.

End StripFacts.

Section StripFacts2.

Variable p1 : ascii -> bool.
Variable p2 : ascii -> ascii -> bool.
Variable p3 : ascii -> ascii -> ascii -> bool.

Lemma strip_front_spec_aux (n : nat) :
  forall s, String.length s <= n ->
    (Py.strip_front p1 p2 p3 s = "" -> Py.tiled p1 p2 p3 s) /\ Py.strip_front p1 p2 p3 (Py.strip_front p1 p2 p3 s) = Py.strip_front p1 p2 p3 s.
Proof.
  induction n as [|n IH]; intros s Hlen.
  - destruct s; [|simpl in Hlen; lia]. simpl. split; [constructor | reflexivity].
  - destruct s as [|a r1]; [simpl; split; [constructor | reflexivity]|].
    simpl in Hlen.
    assert (H1 : String.length r1 <= n) by lia.
    cbn [Py.strip_front].
    destruct (p1 a) eqn:Ea.
    { destruct (IH r1 H1) as [T I]. split; [|exact I].
      intros E. apply Py.tiled_1; auto. }
    destruct r1 as [|b r2].
    { split; [discriminate|]. cbn [Py.strip_front]. now rewrite Ea. }
    simpl in H1.
    assert (H2 : String.length r2 <= n) by lia.
    destruct (p2 a b) eqn:Eab.
    { destruct (IH r2 H2) as [T I]. split; [|exact I].
      intros E. apply Py.tiled_2; auto. }
    destruct r2 as [|c r3].
    { split; [discriminate|]. cbn [Py.strip_front]. now rewrite Ea, Eab. }
    simpl in H2.
    assert (H3 : String.length r3 <= n) by lia.
    destruct (p3 a b c) eqn:Eabc.
    { destruct (IH r3 H3) as [T I]. split; [|exact I].
      intros E. apply Py.tiled_3; auto. }
    split; [discriminate|]. cbn [Py.strip_front]. now rewrite Ea, Eab, Eabc.
Qed.

Lemma strip_front_empty_tiled (s : string) : Py.strip_front p1 p2 p3 s = "" -> Py.tiled p1 p2 p3 s.
Proof. apply (strip_front_spec_aux (String.length s)). lia. Qed.

Lemma strip_front_idempotent (s : string) : Py.strip_front p1 p2 p3 (Py.strip_front p1 p2 p3 s) = Py.strip_front p1 p2 p3 s.
Proof. apply (strip_front_spec_aux (String.length s)). lia. Qed.

Lemma tiled_append (x y : string) : Py.tiled p1 p2 p3 x -> Py.tiled p1 p2 p3 y -> Py.tiled p1 p2 p3 (x ++ y).
Proof.
  induction 1; intros Hy; simpl; auto.
  - apply Py.tiled_1; auto.
  - apply Py.tiled_2; auto.
  - apply Py.tiled_3; auto.
Qed.

Lemma tiled_rev (u : string) :
  Py.tiled p1 (fun a b => p2 b a) (fun a b c => p3 c b a) u -> Py.tiled p1 p2 p3 (Py.rev u).
Proof.
  induction 1 as [|a s Ha _ IH|a b s Hab _ IH|a b c s Habc _ IH].
  - constructor.
  - rewrite rev_cons. apply tiled_append; [exact IH|].
    apply Py.tiled_1; [exact Ha | constructor].
  - rewrite !rev_cons, append_assoc. apply tiled_append; [exact IH|].
    simpl. apply Py.tiled_2; [exact Hab | constructor].
  - rewrite !rev_cons, !append_assoc. apply tiled_append; [exact IH|].
    simpl. apply Py.tiled_3; [exact Habc | constructor].
Qed.

End StripFacts2.

Lemma space2_excl (a b : ascii) : Py.space2 a b = true -> Py.space1 a = false.
Proof.
  unfold Py.space2, Py.space1. intros H.
  apply andb_true_iff in H. destruct H as [H _].
  apply Nat.eqb_eq in H. rewrite H. reflexivity.
Qed.

Lemma space3_excl (a b c : ascii) :
  Py.space3 a b c = true -> Py.space1 a = false /\ Py.space2 a b = false.
Proof.
  unfold Py.space3, Py.space2, Py.space1. intros H.
  destruct (nat_of_ascii a =? 225) eqn:E1.
  { apply Nat.eqb_eq in E1. rewrite E1. split; reflexivity. }
  destruct (nat_of_ascii a =? 226) eqn:E2.
  { apply Nat.eqb_eq in E2. rewrite E2. split; reflexivity. }
  destruct (nat_of_ascii a =? 227) eqn:E3.
  { apply Nat.eqb_eq in E3. rewrite E3. split; reflexivity. }
  simpl in H. discriminate.
Qed.

Lemma lstrip_all_space (s : string) : Py.all_space s -> Py.lstrip s = "".
Proof.
  apply strip_front_tiled; [exact space2_excl | exact space3_excl].
Qed.

Lemma strip_all_space (s : string) : Py.all_space s -> Py.strip s = "".
Proof.
  intros H. unfold Py.strip. rewrite (lstrip_all_space s H). reflexivity.
Qed.

Lemma strip_empty_all_space (s : string) : Py.strip s = "" -> Py.all_space s.
Proof.
  unfold Py.strip, Py.rstrip. intros H.
  apply rev_empty in H.
  apply strip_front_empty_tiled in H.
  apply tiled_rev in H. rewrite rev_involutive in H.
  fold Py.all_space in H.
  apply lstrip_all_space in H.
  unfold Py.lstrip in H. rewrite strip_front_idempotent in H.
  apply strip_front_empty_tiled. exact H.
Qed.

Lemma strip_empty_iff (s : string) : Py.strip s = "" <-> Py.all_space s.
Proof. split; [apply strip_empty_all_space | apply strip_all_space]. Qed.

(** ** More on [strip]: white space around a body that begins and ends with
    a back quote *)

Lemma space2_excl_rev (a b : ascii) : Py.space2 b a = true -> Py.space1 a = false.
Proof.
  cbv beta zeta delta [Py.space2 Py.space1]. intros H.
  destruct (Nat.eqb_spec (nat_of_ascii b) 194); [|discriminate H].
  destruct (Nat.eqb_spec (nat_of_ascii a) 133) as [E|_].
  { rewrite E. reflexivity. }
  destruct (Nat.eqb_spec (nat_of_ascii a) 160) as [E|_].
  { rewrite E. reflexivity. }
  discriminate H.
Qed.

Lemma high_not_space1 (a : ascii) : 128 <= nat_of_ascii a -> Py.space1 a = false.
Proof.
  cbv beta zeta delta [Py.space1]. intros H.
  destruct (Nat.leb_spec (nat_of_ascii a) 13); [lia|].
  destruct (Nat.leb_spec (nat_of_ascii a) 32); [lia|].
  now rewrite !andb_false_r.
Qed.

Lemma space3_excl_rev (a b c : ascii) :
  Py.space3 c b a = true -> Py.space1 a = false /\ Py.space2 b a = false.
Proof.
  cbv beta zeta delta [Py.space3 Py.space2]. intros H.
  assert (Hb : (nat_of_ascii b =? 194) = false).
  { destruct (Nat.eqb_spec (nat_of_ascii b) 194) as [E|_]; [|reflexivity].
    rewrite E in H. simpl in H. rewrite !andb_false_r in H. discriminate H. }
  rewrite Hb. split; [|reflexivity].
  apply high_not_space1.
  destruct (Nat.eqb_spec (nat_of_ascii a) 128) as [E|_]; [lia|].
  destruct (Nat.eqb_spec (nat_of_ascii a) 159) as [E|_]; [lia|].
  destruct (Nat.eqb_spec (nat_of_ascii a) 168) as [E|_]; [lia|].
  destruct (Nat.eqb_spec (nat_of_ascii a) 169) as [E|_]; [lia|].
  destruct (Nat.eqb_spec (nat_of_ascii a) 175) as [E|_]; [lia|].
  destruct (Nat.leb_spec 128 (nat_of_ascii a)) as [L|_]; [exact L|].
  rewrite !andb_false_r in H. discriminate H.
Qed.

Section StripAround.

Variable p1 : ascii -> bool.
Variable p2 : ascii -> ascii -> bool.
Variable p3 : ascii -> ascii -> ascii -> bool.
Hypothesis p2_excl : forall a b, p2 a b = true -> p1 a = false.
Hypothesis p3_excl : forall a b c, p3 a b c = true -> p1 a = false /\ p2 a b = false.

Lemma strip_front_tiled_append (x y : string) :
  Py.tiled p1 p2 p3 x ->
  Py.strip_front p1 p2 p3 (x ++ y) = Py.strip_front p1 p2 p3 y.
Proof.
  induction 1 as [|a s Ha _ IH|a b s Hab _ IH|a b c s Habc _ IH]; simpl.
  - reflexivity.
  - now rewrite Ha.
  - now rewrite (p2_excl _ _ Hab), Hab.
  - destruct (p3_excl _ _ _ Habc) as [E1 E2]. now rewrite E1, E2, Habc.
Qed.

Lemma strip_front_fixed (a : ascii) (r : string) :
  p1 a = false -> (forall b, p2 a b = false) -> (forall b c, p3 a b c = false) ->
  Py.strip_front p1 p2 p3 (String a r) = String a r.
Proof.
  intros H1 H2 H3. simpl. rewrite H1.
  destruct r as [|b r]; [reflexivity|]. rewrite H2.
  destruct r as [|c r]; [reflexivity|]. now rewrite H3.
Qed.

End StripAround.

Lemma back_quote_last2 (b : ascii) : Py.space2 b back_quote = false.
Proof. unfold Py.space2. apply andb_false_r. Qed.

Lemma back_quote_last3 (b c : ascii) : Py.space3 c b back_quote = false.
Proof.
  unfold Py.space3.
  change (nat_of_ascii back_quote) with 96. cbn [Nat.eqb Nat.leb orb].
  now rewrite !andb_false_r.
Qed.

Lemma all_space_rev (s : string) :
  Py.all_space s ->
  Py.tiled Py.space1 (fun a b => Py.space2 b a) (fun a b c => Py.space3 c b a)
    (Py.rev s).
Proof.
  intros H.
  apply (tiled_rev Py.space1 (fun a b => Py.space2 b a) (fun a b c => Py.space3 c b a)).
  exact H.
Qed.

Lemma strip_around (lead mid trail : string) :
  Py.all_space lead -> Py.all_space trail ->
  Py.strip (lead ++ String back_quote (mid ++ String back_quote "") ++ trail)
  = String back_quote (mid ++ String back_quote "").
Proof.
  intros Hl Ht. unfold Py.strip, Py.lstrip.
  rewrite (strip_front_tiled_append _ _ _ space2_excl space3_excl _ _ Hl).
  cbn [append].
  rewrite strip_front_fixed; [| reflexivity | reflexivity | reflexivity].
  unfold Py.rstrip.
  change (String back_quote ((mid ++ String back_quote "") ++ trail))
    with (String back_quote (mid ++ String back_quote "") ++ trail).
  rewrite rev_append.
  rewrite (strip_front_tiled_append _ _ _ space2_excl_rev space3_excl_rev _ _
             (all_space_rev _ Ht)).
  rewrite rev_cons, rev_append. cbn [Py.rev Py.rev_onto append].
  rewrite strip_front_fixed;
    [| reflexivity | exact back_quote_last2 | exact back_quote_last3].
  change (String back_quote (Py.rev mid ++ String back_quote ""))
    with (String back_quote "" ++ (Py.rev mid ++ String back_quote "")).
  rewrite rev_append, rev_append, rev_involutive.
  cbn [Py.rev Py.rev_onto append]. reflexivity.
Qed.

Lemma clean_content_json_fence (payload : string) :
  clean_content ("```json" ++ payload ++ "```") = payload.
Proof.
  unfold clean_content, Py.startswith.
  rewrite prefix_append.
  change 7 with (String.length "```json"). rewrite drop_append.
  rewrite endswith_append.
  change 3 with (String.length "```"). apply drop_last_append.
Qed.

(** * utils/llm_analysis.py *)

Lemma truthy_true (s : string) : Py.truthy s = true <-> s <> "".
Proof. destruct s; simpl; split; intros H; congruence. Qed.

Lemma truthy_false (s : string) : Py.truthy s = false <-> s = "".
Proof. destruct s; simpl; split; intros H; congruence. Qed.

Section Validation.

Lemma validate_result_well_formed (v : pyval) :
  well_formed v -> validate_result v = Ret (Some v).
Proof.
  intros (d & s & ts & ks & -> & Hs & Ht & Hk).
  unfold validate_result. simpl. rewrite Hs, Ht, Hk. reflexivity.
Qed.

Lemma validate_result_some (v r : pyval) :
  validate_result v = Ret (Some r) -> r = v /\ well_formed v.
Proof.
  unfold validate_result.
  destruct v as [| b | z | zero t | s | l | d]; simpl; try discriminate.
  - (* a string: membership is a substring test, indexing raises *)
    destruct (Py.contains "summary" s); simpl; [|discriminate].
    destruct (Py.contains "topics" s); simpl; [|discriminate].
    destruct (Py.contains "keywords" s); simpl; discriminate.
  - (* a list *)
    destruct (existsb (PyVal.is_str_eq "summary") l); simpl; [|discriminate].
    destruct (existsb (PyVal.is_str_eq "topics") l); simpl; [|discriminate].
    destruct (existsb (PyVal.is_str_eq "keywords") l); simpl; discriminate.
  - (* an object *)
    destruct (PyVal.dict_get d "summary") as [x|] eqn:Hs; simpl; [|discriminate].
    destruct (PyVal.dict_get d "topics") as [y|] eqn:Ht; simpl; [|discriminate].
    destruct (PyVal.dict_get d "keywords") as [z|] eqn:Hk; simpl; [|discriminate].
    destruct x; simpl; try discriminate.
    destruct y; simpl; try discriminate.
    destruct z; simpl; try discriminate.
    intros H. injection H as <-. split; [reflexivity|].
    unfold well_formed. eauto 10.
Qed.

Lemma handle_response_some (w : World) (content : string) (r : pyval) :
  handle_response w (Some content) = Ret (Some r) ->
  json_loads w (clean_content (Py.strip content)) = Ret r /\ well_formed r.
Proof.
  unfold handle_response. cbn [bind].
  destruct (json_loads w (clean_content (Py.strip content))) as [v|e].
  - intros H. destruct (validate_result_some _ _ H) as [-> Hw].
    split; [reflexivity | exact Hw].
  - destruct (is_class JSONDecodeError e); discriminate.
Qed.

Lemma handle_response_well_formed (w : World) (content : string) (v : pyval) :
  json_loads w (clean_content (Py.strip content)) = Ret v ->
  well_formed v ->
  handle_response w (Some content) = Ret (Some v).
Proof.
  intros Hd Hv. unfold handle_response. cbn [bind]. rewrite Hd.
  apply validate_result_well_formed. exact Hv.
Qed.

End Validation.

Section Analyze.

Variable w : World.
Variables text api_key : string.
Variable st : state.

(** What [analyze_meeting] does once the pre-flight checks have passed: one
    request, and every exception of the [try] block turned into [None]. *)
Lemma analyze_meeting_checked create :
  Py.truthy (Py.strip text) = true ->
  Py.truthy api_key = true ->
  OpenAI w = Some create ->
  analyze_meeting w text api_key st =
    (Ret (match (c <- create api_key (build_prompt text) ;; handle_response w c) with
          | Ret r => r
          | Raise _ => None
          end),
     after_request st api_key text).
Proof.
  intros Hs Hk Ho. unfold analyze_meeting.
  assert (Ht : Py.truthy text = true).
  { destruct text; [discriminate Hs | reflexivity]. }
  rewrite Ht, Hs, Hk, Ho. simpl.
  unfold try_exceptM, bindM, emit, liftM, retM, after_request. simpl.
  destruct (create api_key (build_prompt text)) as [c|e]; simpl; [|reflexivity].
  destruct (handle_response w c); reflexivity.
Qed.

Lemma analyze_meeting_unchecked :
  (Py.truthy (Py.strip text) = false \/ Py.truthy api_key = false \/ OpenAI w = None) ->
  analyze_meeting w text api_key st = (Ret None, st).
Proof.
  intros H. unfold analyze_meeting.
  destruct (Py.truthy text) eqn:Ht; [|reflexivity].
  destruct (Py.truthy (Py.strip text)) eqn:Hs; [|reflexivity].
  destruct (Py.truthy api_key) eqn:Hk; [|reflexivity].
  destruct (OpenAI w) eqn:Ho; [|reflexivity].
  destruct H as [H|[H|H]]; discriminate.
Qed.

(** [analyze_meeting] never raises; a result comes with a request, passed
    checks and a well-formed value. *)
Lemma analyze_meeting_total :
  exists r st', analyze_meeting w text api_key st = (Ret r, st')
    /\ (st' = st \/ st' = after_request st api_key text)
    /\ (forall v, r = Some v ->
          well_formed v
          /\ st' = after_request st api_key text
          /\ Py.truthy (Py.strip text) = true
          /\ Py.truthy api_key = true).
Proof.
  destruct (Py.truthy (Py.strip text)) eqn:Hs.
  2:{ exists None, st. rewrite analyze_meeting_unchecked by auto.
      repeat split; auto; discriminate. }
  destruct (Py.truthy api_key) eqn:Hk.
  2:{ exists None, st. rewrite analyze_meeting_unchecked by auto.
      repeat split; auto; discriminate. }
  destruct (OpenAI w) as [create|] eqn:Ho.
  2:{ exists None, st. rewrite analyze_meeting_unchecked by auto.
      repeat split; auto; discriminate. }
  rewrite (analyze_meeting_checked create Hs Hk Ho).
  do 2 eexists. split; [reflexivity|]. split; [now right|].
  intros v Hv.
  destruct (create api_key (build_prompt text)) as [c|e]; simpl in Hv; [|discriminate].
  destruct c as [content|]; [|simpl in Hv; discriminate].
  destruct (handle_response w (Some content)) as [r|e] eqn:Hr; [|discriminate].
  subst r. destruct (handle_response_some _ _ _ Hr) as [_ Hw]. tauto.
Qed.

End Analyze.

Lemma not_all_space_truthy (s : string) :
  ~ Py.all_space s -> Py.truthy (Py.strip s) = true.
Proof.
  intros H. apply truthy_true. intros E. apply H, strip_empty_iff, E.
Qed.

Lemma not_well_formed_none (w : World) (text api_key : string) (st : state)
  (create : string -> string -> outcome (option string)) (content : string) (v : pyval) :
  OpenAI w = Some create ->
  create api_key (build_prompt text) = Ret (Some content) ->
  json_loads w (clean_content (Py.strip content)) = Ret v ->
  ~ well_formed v ->
  forall r st', analyze_meeting w text api_key st = (Ret r, st') -> r = None.
Proof.
  intros Ho Hc Hd Hn r st' Hrun.
  destruct r as [x|]; [exfalso|reflexivity].
  destruct (analyze_meeting_total w text api_key st) as (r0 & st0 & E & _ & Hsome).
  rewrite E in Hrun. injection Hrun as -> ->.
  destruct (Hsome x eq_refl) as (_ & _ & Hs & Hk).
  rewrite (analyze_meeting_checked w text api_key st create Hs Hk Ho) in E.
  rewrite Hc in E. cbn [bind] in E.
  destruct (handle_response w (Some content)) as [r|e] eqn:Hr; [|discriminate E].
  injection E as ->.
  destruct (handle_response_some _ _ _ Hr) as [Hd' Hw].
  rewrite Hd in Hd'. injection Hd' as ->. exact (Hn Hw).
Qed.

(** C3: with an empty or white-space-only text, an empty key, or no API
    client library, [analyze_meeting] returns [None] and leaves the state as
    it was, so no request was issued; and whenever a run does change the
    state, all the pre-flight checks had passed and the change is the one
    request. *)
Theorem analyze_meeting_preflight (w : World) (text api_key : string) (st : state) :
  ((text = "" \/ Py.all_space text \/ api_key = "" \/ OpenAI w = None) ->
   analyze_meeting w text api_key st = (Ret None, st))
  /\ (forall r st',
        analyze_meeting w text api_key st = (r, st') ->
        st' <> st ->
        text <> "" /\ ~ Py.all_space text /\ api_key <> "" /\ OpenAI w <> None
        /\ trace st' = (trace st ++ [ChatRequest api_key (build_prompt text)])%list).
Proof.
  split.
  - intros H. apply analyze_meeting_unchecked.
    destruct H as [H|[H|[H|H]]].
    + subst text. left. reflexivity.
    + left. apply truthy_false, strip_all_space, H.
    + right; left. apply truthy_false, H.
    + right; right. exact H.
  - intros r st' Hrun Hneq.
    destruct (Py.truthy (Py.strip text)) eqn:Hs.
    2:{ rewrite analyze_meeting_unchecked in Hrun by auto.
        injection Hrun as _ E. now elim Hneq. }
    destruct (Py.truthy api_key) eqn:Hk.
    2:{ rewrite analyze_meeting_unchecked in Hrun by auto.
        injection Hrun as _ E. now elim Hneq. }
    destruct (OpenAI w) as [create|] eqn:Ho.
    2:{ rewrite analyze_meeting_unchecked in Hrun by auto.
        injection Hrun as _ E. now elim Hneq. }
    rewrite (analyze_meeting_checked w text api_key st create Hs Hk Ho) in Hrun.
    injection Hrun as _ E. subst st'.
    repeat split.
    + intros ->. discriminate Hs.
    + intros Ha. apply strip_all_space in Ha. rewrite Ha in Hs. discriminate Hs.
    + intros ->. discriminate Hk.
    + discriminate.
Qed.

Lemma analyze_meeting_preflight_witness :
  analyze_meeting (Sample.world Sample.payload Sample.render_ok None)
    (nl ++ "  ") "sk-test" Sample.st0 = (Ret None, Sample.st0).
Proof.
  apply (proj1 (analyze_meeting_preflight _ (nl ++ "  ") "sk-test" Sample.st0)).
  right; left. unfold Py.all_space. simpl.
  repeat (apply Py.tiled_1; [reflexivity|]). apply Py.tiled_nil.
Defined.

(** C2: whatever string the service answers, [analyze_meeting] returns
    [None] when the cleaned content does not decode, when the decoded value
    is not an object, when one of [summary], [topics], [keywords] is missing,
    when [summary] is not a string, or when [topics] or [keywords] is not a
    list; a value is returned only if it is the decoded object and has the
    three keys with these types. *)
Theorem analyze_meeting_validates (w : World) (text api_key : string) (st : state)
  (create : string -> string -> outcome (option string)) (content : string) :
  OpenAI w = Some create ->
  create api_key (build_prompt text) = Ret (Some content) ->
  exists r,
    fst (analyze_meeting w text api_key st) = Ret r
    /\ (forall v, r = Some v ->
          json_loads w (clean_content (Py.strip content)) = Ret v /\ well_formed v)
    /\ (forall e, json_loads w (clean_content (Py.strip content)) = Raise e -> r = None)
    /\ (forall v, json_loads w (clean_content (Py.strip content)) = Ret v ->
          (forall d, v <> PDict d) -> r = None)
    /\ (forall d, json_loads w (clean_content (Py.strip content)) = Ret (PDict d) ->
          (PyVal.dict_get d "summary" = None \/ PyVal.dict_get d "topics" = None
           \/ PyVal.dict_get d "keywords" = None) -> r = None)
    /\ (forall d x, json_loads w (clean_content (Py.strip content)) = Ret (PDict d) ->
          PyVal.dict_get d "summary" = Some x -> PyVal.isinstance_str x = false ->
          r = None)
    /\ (forall d x, json_loads w (clean_content (Py.strip content)) = Ret (PDict d) ->
          PyVal.dict_get d "topics" = Some x -> PyVal.isinstance_list x = false ->
          r = None)
    /\ (forall d x, json_loads w (clean_content (Py.strip content)) = Ret (PDict d) ->
          PyVal.dict_get d "keywords" = Some x -> PyVal.isinstance_list x = false ->
          r = None).
Proof.
  intros Ho Hc.
  destruct (analyze_meeting_total w text api_key st) as (r & st' & E & _ & Hsome).
  exists r. rewrite E. split; [reflexivity|].
  assert (Hbad : forall v,
             json_loads w (clean_content (Py.strip content)) = Ret v ->
             ~ well_formed v -> r = None).
  { intros v Hd Hn.
    exact (not_well_formed_none w text api_key st create content v Ho Hc Hd Hn r st' E). }
  split.
  { intros v ->. destruct (Hsome v eq_refl) as (_ & _ & Hs & Hk).
    rewrite (analyze_meeting_checked w text api_key st create Hs Hk Ho) in E.
    rewrite Hc in E. cbn [bind] in E.
    destruct (handle_response w (Some content)) as [r|e] eqn:Hr; [|discriminate E].
    injection E as -> _. exact (handle_response_some _ _ _ Hr). }
  split.
  { intros e Hd. destruct r as [v|]; [exfalso|reflexivity].
    destruct (Hsome v eq_refl) as (_ & _ & Hs & Hk).
    rewrite (analyze_meeting_checked w text api_key st create Hs Hk Ho) in E.
    rewrite Hc in E. cbn [bind] in E.
    destruct (handle_response w (Some content)) as [r|e'] eqn:Hr; [|discriminate E].
    injection E as -> _. destruct (handle_response_some _ _ _ Hr) as [Hd' _].
    rewrite Hd in Hd'. discriminate Hd'. }
  split.
  { intros v Hd Hnd. apply (Hbad v Hd).
    intros (d & _ & _ & _ & -> & _). exact (Hnd d eq_refl). }
  split.
  { intros d Hd Hmiss. apply (Hbad _ Hd).
    intros (d' & s & ts & ks & Ed & Hs & Ht & Hk). injection Ed as <-.
    destruct Hmiss as [H|[H|H]]; congruence. }
  split.
  { intros d x Hd Hx Hty. apply (Hbad _ Hd).
    intros (d' & s & ts & ks & Ed & Hs & Ht & Hk). injection Ed as <-.
    rewrite Hx in Hs. injection Hs as ->. discriminate Hty. }
  split.
  { intros d x Hd Hx Hty. apply (Hbad _ Hd).
    intros (d' & s & ts & ks & Ed & Hs & Ht & Hk). injection Ed as <-.
    rewrite Hx in Ht. injection Ht as ->. discriminate Hty. }
  { intros d x Hd Hx Hty. apply (Hbad _ Hd).
    intros (d' & s & ts & ks & Ed & Hs & Ht & Hk). injection Ed as <-.
    rewrite Hx in Hk. injection Hk as ->. discriminate Hty. }
Qed.

Lemma fence_shape (payload : string) :
  "```json" ++ payload ++ "```"
  = String back_quote (("``json" ++ payload ++ "``") ++ String back_quote "").
Proof.
  change back_quote with "`"%char. cbn [append].
  rewrite append_assoc. reflexivity.
Qed.

(** C7 (amended): a response made of a well-formed JSON document between a
    leading [```json] marker and a trailing [```] marker, with any white
    space around, is decoded and returned. *)
Theorem analyze_meeting_json_fence (w : World) (text api_key : string) (st : state)
  (create : string -> string -> outcome (option string))
  (lead payload trail : string) (v : pyval) :
  ~ Py.all_space text ->
  api_key <> "" ->
  OpenAI w = Some create ->
  Py.all_space lead ->
  Py.all_space trail ->
  create api_key (build_prompt text)
    = Ret (Some (lead ++ ("```json" ++ payload ++ "```") ++ trail)) ->
  json_loads w payload = Ret v ->
  well_formed v ->
  analyze_meeting w text api_key st = (Ret (Some v), after_request st api_key text).
Proof.
  intros Ht Hk Ho Hl Hr Hc Hd Hv.
  rewrite (analyze_meeting_checked w text api_key st create
             (not_all_space_truthy _ Ht) (proj2 (truthy_true _) Hk) Ho).
  rewrite Hc. cbn [bind].
  rewrite (handle_response_well_formed w _ v); [reflexivity | | exact Hv].
  rewrite fence_shape, strip_around by assumption.
  rewrite <- fence_shape, clean_content_json_fence. exact Hd.
Qed.

Lemma sample_analysis_well_formed : well_formed Sample.analysis.
Proof.
  exists [("summary", PStr "Budget review");
          ("topics", PList [PStr "A"; PStr "B"]);
          ("keywords", PList [PStr "x"; PStr "y"; PStr "z"])],
    "Budget review", [PStr "A"; PStr "B"], [PStr "x"; PStr "y"; PStr "z"].
  repeat split.
Defined.

Lemma hello_not_all_space : ~ Py.all_space "Hello world".
Proof.
  intros H. apply strip_all_space in H. vm_compute in H. discriminate H.
Defined.

Lemma analyze_meeting_json_fence_witness :
  analyze_meeting
    (Sample.world (" " ++ Sample.fenced "```json" ++ nl) Sample.render_ok None)
    "Hello world" "sk-test" Sample.st0
  = (Ret (Some Sample.analysis), after_request Sample.st0 "sk-test" "Hello world").
Proof.
  apply (analyze_meeting_json_fence
           (Sample.world (" " ++ Sample.fenced "```json" ++ nl) Sample.render_ok None)
           "Hello world" "sk-test" Sample.st0
           (fun _ _ => Ret (Some (" " ++ Sample.fenced "```json" ++ nl)))
           " " (nl ++ Sample.payload ++ nl) nl Sample.analysis).
  - exact hello_not_all_space.
  - discriminate.
  - reflexivity.
  - apply Py.tiled_1; [reflexivity | apply Py.tiled_nil].
  - apply Py.tiled_1; [reflexivity | apply Py.tiled_nil].
  - vm_compute. reflexivity.
  - vm_compute. reflexivity.
  - exact sample_analysis_well_formed.
Defined.

(** C7, the claim as stated: a bare [```] marker (no language tag) is a
    code-fence marker too, yet the well-formed document it wraps is not
    returned; the leading marker stays in the content and decoding fails. *)
Lemma bare_fence_counterexample :
  Json.loads (nl ++ Sample.payload ++ nl) = Ret Sample.analysis
  /\ well_formed Sample.analysis
  /\ analyze_meeting
       (Sample.world ("```" ++ (nl ++ Sample.payload ++ nl) ++ "```")
          Sample.render_ok None)
       "Hello world" "sk-test" Sample.st0
     = (Ret None, after_request Sample.st0 "sk-test" "Hello world").
Proof.
  split; [vm_compute; reflexivity|].
  split; [exact sample_analysis_well_formed|].
  vm_compute. reflexivity.
Qed.

Lemma analyze_meeting_validates_witness :
  fst (analyze_meeting
         (Sample.world ("{" ++ dq ++ "summary" ++ dq ++ ": 1, "
                        ++ dq ++ "topics" ++ dq ++ ": [], "
                        ++ dq ++ "keywords" ++ dq ++ ": []}")
            Sample.render_ok None)
         "Hello world" "sk-test" Sample.st0)
  = Ret None.
Proof.
  destruct (analyze_meeting_validates
              (Sample.world ("{" ++ dq ++ "summary" ++ dq ++ ": 1, "
                             ++ dq ++ "topics" ++ dq ++ ": [], "
                             ++ dq ++ "keywords" ++ dq ++ ": []}")
                 Sample.render_ok None)
              "Hello world" "sk-test" Sample.st0 _ _ eq_refl eq_refl)
    as (r & E & _ & _ & _ & _ & Hsummary & _).
  rewrite E. f_equal.
  apply (Hsummary [("summary", PInt 1); ("topics", PList []); ("keywords", PList [])]
           (PInt 1)).
  - vm_compute. reflexivity.
  - reflexivity.
  - reflexivity.
Defined.

(** * [format_analysis_for_display] *)

Lemma split_on_absent (c : ascii) (x : string) :
  ~ In c (Py.bytes x) -> Py.split_on c x = [x].
Proof.
  induction x as [|a x IH]; simpl; intros H; [reflexivity|].
  destruct (Ascii.eqb_spec a c) as [E|N]; [elim H; now left|].
  rewrite IH by (intros Hin; apply H; now right). reflexivity.
Qed.

Lemma split_on_append (c : ascii) (x y : string) :
  ~ In c (Py.bytes x) ->
  Py.split_on c (x ++ String c y) = x :: Py.split_on c y.
Proof.
  induction x as [|a x IH]; simpl; intros H.
  - now rewrite Ascii.eqb_refl.
  - destruct (Ascii.eqb_spec a c) as [E|N]; [elim H; now left|].
    rewrite IH by (intros Hin; apply H; now right). reflexivity.
Qed.

Lemma dash_no_newline (x : string) : no_newline x -> no_newline (dash x).
Proof.
  unfold no_newline, dash. simpl. intros H [E|[E|Hin]]; try discriminate.
  exact (H Hin).
Qed.

Lemma split_join_lines (items : list string) :
  items <> [] ->
  Forall no_newline items ->
  Py.split_on (ascii_of_nat 10) (Py.join nl items) = items.
Proof.
  induction items as [|x rest IH]; intros Hne Hall; [now elim Hne|].
  inversion Hall as [|? ? Hx Hrest]; subst.
  destruct rest as [|y rest'].
  - simpl. apply split_on_absent. exact Hx.
  - change (Py.join nl (x :: y :: rest'))
      with (x ++ String (ascii_of_nat 10) (Py.join nl (y :: rest'))).
    rewrite split_on_append by exact Hx.
    rewrite IH; [reflexivity | discriminate | exact Hrest].
Qed.

Lemma markdown_list_strings (w : World) (items : list string) :
  markdown_list w (map PStr items) = Py.join nl (map dash items).
Proof. unfold markdown_list. rewrite map_map. reflexivity. Qed.

Lemma split_on_length (c : ascii) (s : string) :
  List.length (Py.split_on c s) = S (count_occ Ascii.ascii_dec (Py.bytes s) c).
Proof.
  induction s as [|a s IH]; [reflexivity|].
  cbn [Py.split_on Py.bytes count_occ].
  destruct (Ascii.eqb_spec a c) as [->|N].
  - destruct (Ascii.ascii_dec c c) as [_|N]; [|now elim N].
    cbn [List.length]. now rewrite IH.
  - destruct (Ascii.ascii_dec a c) as [E|_]; [now elim N|].
    rewrite <- IH. destruct (Py.split_on c s); [discriminate IH | reflexivity].
Qed.

Lemma line_breaks_append (x y : string) :
  line_breaks (x ++ y) = line_breaks x + line_breaks y.
Proof.
  unfold line_breaks. induction x as [|a x IH]; [reflexivity|].
  cbn [append Py.bytes count_occ].
  destruct (Ascii.ascii_dec a (ascii_of_nat 10)); rewrite IH; reflexivity.
Qed.

Lemma line_breaks_dash (x : string) : line_breaks (dash x) = line_breaks x.
Proof. reflexivity. Qed.

Lemma line_breaks_join (items : list string) :
  items <> [] ->
  S (line_breaks (Py.join nl items))
  = List.length items + list_sum (map line_breaks items).
Proof.
  induction items as [|x rest IH]; intros Hne; [now elim Hne|].
  destruct rest as [|y rest'].
  - unfold list_sum. cbn [Py.join List.length map fold_right]. lia.
  - change (Py.join nl (x :: y :: rest')) with (x ++ nl ++ Py.join nl (y :: rest')).
    rewrite !line_breaks_append.
    change (line_breaks nl) with 1.
    specialize (IH ltac:(discriminate)).
    unfold list_sum in *. cbn [List.length map fold_right] in *. lia.
Qed.

(** C8: on the failure signal the three display fields are the same fixed
    placeholder; on a valid result the summary is returned as it is and the
    topics and the keywords are each the bulleted items, in the order of the
    sequence, joined by newlines.  When no item contains a newline this is
    one line per item: splitting the field at the newlines gives back
    exactly the bulleted items.  In general the field has one line per item
    and one more for every newline inside an item. *)
Theorem format_analysis_for_display_spec (w : World) :
  format_analysis_for_display w PNone
  = Ret (mk_display (PStr "Error in analysis") "Error in analysis" "Error in analysis")
  /\ (forall d summary topics keywords,
        PyVal.dict_get d "summary" = Some (PStr summary) ->
        PyVal.dict_get d "topics" = Some (PList (map PStr topics)) ->
        PyVal.dict_get d "keywords" = Some (PList (map PStr keywords)) ->
        format_analysis_for_display w (PDict d)
        = Ret (mk_display (PStr summary)
                 (Py.join nl (map dash topics))
                 (Py.join nl (map dash keywords))))
  /\ (forall items,
        items <> [] -> Forall no_newline items ->
        Py.split_on (ascii_of_nat 10) (Py.join nl (map dash items)) = map dash items)
  /\ (forall items,
        items <> [] ->
        List.length (Py.split_on (ascii_of_nat 10) (Py.join nl (map dash items)))
        = List.length items + list_sum (map line_breaks items))
  /\ Py.join nl (map dash []) = "".
Proof.
  split; [reflexivity|]. split; [|split; [|split; [|reflexivity]]].
  - intros d summary topics keywords Hs Ht Hk.
    unfold format_analysis_for_display.
    assert (Htr : PyVal.truthy (PDict d) = true).
    { destruct d; [discriminate Hs | reflexivity]. }
    rewrite Htr. cbn [negb PyVal.get]. rewrite Hs, Ht, Hk. cbn [bind PyVal.iter].
    rewrite !markdown_list_strings. reflexivity.
  - intros items Hne Hall. apply split_join_lines.
    + destruct items; [now elim Hne | discriminate].
    + clear Hne. induction Hall; constructor; auto using dash_no_newline.
  - intros items Hne. rewrite split_on_length.
    fold (line_breaks (Py.join nl (map dash items))).
    rewrite line_breaks_join by (destruct items; [now elim Hne | discriminate]).
    rewrite length_map, map_map.
    rewrite (map_ext (fun x => line_breaks (dash x)) line_breaks line_breaks_dash).
    reflexivity.
Qed.

Lemma format_analysis_for_display_witness :
  format_analysis_for_display
    (Sample.world Sample.payload Sample.render_ok None) Sample.analysis
  = Ret (mk_display (PStr "Budget review")
           (Py.join nl (map dash ["A"; "B"]))
           (Py.join nl (map dash ["x"; "y"; "z"]))).
Proof.
  apply (proj1 (proj2 (format_analysis_for_display_spec
                         (Sample.world Sample.payload Sample.render_ok None)))
           [("summary", PStr "Budget review");
            ("topics", PList [PStr "A"; PStr "B"]);
            ("keywords", PList [PStr "x"; PStr "y"; PStr "z"])]
           "Budget review" ["A"; "B"] ["x"; "y"; "z"]);
    reflexivity.
Defined.

(** C8, the claim as stated: a topic that contains a newline is one item of
    a result [analyze_meeting] accepts, yet it is rendered as two
    dash-prefixed lines, and the display is the one of the two topics [a]
    and [b]. *)
Lemma embedded_newline_counterexample :
  well_formed
    (PDict [("summary", PStr "Budget review");
            ("topics", PList [PStr ("a" ++ nl ++ "- b")]);
            ("keywords", PList [PStr "x"])])
  /\ format_analysis_for_display
       (Sample.world Sample.payload Sample.render_ok None)
       (PDict [("summary", PStr "Budget review");
               ("topics", PList [PStr ("a" ++ nl ++ "- b")]);
               ("keywords", PList [PStr "x"])])
     = Ret (mk_display (PStr "Budget review") ("- a" ++ nl ++ "- b") "- x")
  /\ Py.split_on (ascii_of_nat 10) ("- a" ++ nl ++ "- b") = ["- a"; "- b"]
  /\ format_analysis_for_display
       (Sample.world Sample.payload Sample.render_ok None)
       (PDict [("summary", PStr "Budget review");
               ("topics", PList [PStr "a"; PStr "b"]);
               ("keywords", PList [PStr "x"])])
     = Ret (mk_display (PStr "Budget review") ("- a" ++ nl ++ "- b") "- x").
Proof.
  split.
  { exists [("summary", PStr "Budget review");
            ("topics", PList [PStr ("a" ++ nl ++ "- b")]);
            ("keywords", PList [PStr "x"])],
      "Budget review", [PStr ("a" ++ nl ++ "- b")], [PStr "x"].
    repeat split. }
  repeat split.
Qed.

(** * [os.path.splitext] and [is_audio_file] *)

Section Rfind.

Variable c : ascii.

Lemma rfind_from_absent (s : string) (i last : Z) :
  ~ In c (Py.bytes s) -> OsPath.rfind_from c s i last = last.
Proof.
  revert i last. induction s as [|a s IH]; intros i last H; simpl; [reflexivity|].
  destruct (Ascii.eqb_spec a c) as [E|N]; [elim H; now left|].
  apply IH. intros Hin. apply H. now right.
Qed.

Lemma rfind_from_append (x y : string) (i last : Z) :
  OsPath.rfind_from c (x ++ y) i last
  = OsPath.rfind_from c y (i + Z.of_nat (String.length x))%Z
      (OsPath.rfind_from c x i last).
Proof.
  revert i last. induction x as [|a x IH]; intros i last.
  - simpl. now rewrite Z.add_0_r.
  - cbn [append OsPath.rfind_from String.length]. rewrite IH.
    f_equal. lia.
Qed.

Lemma rfind_from_bounds (s : string) (i last : Z) :
  (last < i)%Z ->
  (last <= OsPath.rfind_from c s i last < i + Z.of_nat (String.length s))%Z
  \/ (String.length s = 0 /\ OsPath.rfind_from c s i last = last).
Proof.
  revert i last. induction s as [|a s IH]; intros i last H.
  - right. split; reflexivity.
  - left. cbn [OsPath.rfind_from String.length].
    destruct (Ascii.eqb a c).
    + destruct (IH (i + 1)%Z i) as [B|[_ E]]; lia.
    + destruct (IH (i + 1)%Z last) as [B|[_ E]]; lia.
Qed.

Lemma rfind_range (s : string) :
  (-1 <= OsPath.rfind c s < Z.of_nat (String.length s))%Z.
Proof.
  unfold OsPath.rfind.
  destruct (rfind_from_bounds s 0 (-1)) as [B|[E1 E2]]; lia.
Qed.

Lemma rfind_append_absent (x y : string) :
  ~ In c (Py.bytes y) -> OsPath.rfind c (x ++ y) = OsPath.rfind c x.
Proof.
  intros H. unfold OsPath.rfind. rewrite rfind_from_append.
  apply rfind_from_absent. exact H.
Qed.

Lemma rfind_append_at (x y : string) :
  ~ In c (Py.bytes y) ->
  OsPath.rfind c (x ++ String c y) = Z.of_nat (String.length x).
Proof.
  intros H. unfold OsPath.rfind. rewrite rfind_from_append.
  cbn [OsPath.rfind_from]. rewrite Ascii.eqb_refl.
  rewrite rfind_from_absent by exact H. lia.
Qed.

End Rfind.

Lemma substring_at (x : string) (a : ascii) (y : string) :
  substring (String.length x) 1 (x ++ String a y) = String a "".
Proof.
  induction x as [|b x IH]; simpl; [now destruct y | exact IH].
Qed.

Lemma skip_leading_dots_found (p : string) (k n i : nat) :
  i <= k < i + n ->
  String.eqb (substring k 1 p) "." = false ->
  OsPath.skip_leading_dots p i n = true.
Proof.
  revert i. induction n as [|n IH]; intros i Hk Hc; [lia|].
  simpl. destruct (String.eqb (substring i 1 p) ".") eqn:E; [|reflexivity].
  simpl. apply IH; [|exact Hc].
  destruct (Nat.eq_dec i k) as [->|N]; [congruence | lia].
Qed.

Lemma lower_append (x y : string) : Py.lower (x ++ y) = Py.lower x ++ Py.lower y.
Proof. induction x as [|a x IH]; simpl; [reflexivity | now rewrite IH]. Qed.

Lemma bytes_append (x y : string) : Py.bytes (x ++ y) = (Py.bytes x ++ Py.bytes y)%list.
Proof. induction x as [|a x IH]; simpl; [reflexivity | now rewrite IH]. Qed.

(** A name whose last component has a character other than the dot before
    its last dot splits at that dot. *)
Lemma splitext_split (pre : string) (c : ascii) (post e : string) :
  c <> dot -> c <> slash ->
  ~ In slash (Py.bytes post) ->
  ~ In dot (Py.bytes e) -> ~ In slash (Py.bytes e) ->
  OsPath.splitext ((pre ++ String c post) ++ String dot e)
  = (pre ++ String c post, String dot e).
Proof.
  intros Hcd Hcs Hpost Hed Hes.
  set (stem := pre ++ String c post).
  unfold OsPath.splitext.
  change "."%char with dot. change "/"%char with slash.
  rewrite (rfind_append_at dot stem e Hed).
  assert (Hsep : OsPath.rfind slash (stem ++ String dot e) = OsPath.rfind slash pre).
  { rewrite rfind_append_absent.
    - unfold stem. apply rfind_append_absent.
      simpl. intros [E|Hin]; [now apply Hcs | now apply Hpost].
    - simpl. intros [E|Hin]; [discriminate E | now apply Hes]. }
  rewrite Hsep.
  pose proof (rfind_range slash pre) as Hr.
  assert (Hlen : String.length stem = String.length pre + S (String.length post)).
  { unfold stem. now rewrite length_append. }
  assert (Hlt : (OsPath.rfind slash pre <? Z.of_nat (String.length stem))%Z = true).
  { apply Z.ltb_lt. lia. }
  rewrite Hlt. cbn [andb].
  rewrite (skip_leading_dots_found _ (String.length pre)).
  - rewrite Nat2Z.id, take_append, drop_append. reflexivity.
  - lia.
  - unfold stem. rewrite append_assoc. cbn [append]. rewrite substring_at.
    apply String.eqb_neq. intros E. injection E as E. now apply Hcd.
Qed.

(** A name whose last component has no dot has no extension. *)
Lemma splitext_no_dot (dir name : string) :
  (dir = "" \/ exists d, dir = d ++ String slash "") ->
  ~ In dot (Py.bytes name) ->
  ~ In slash (Py.bytes name) ->
  OsPath.splitext (dir ++ name) = (dir ++ name, "").
Proof.
  intros Hdir Hd Hs. unfold OsPath.splitext.
  change "."%char with dot. change "/"%char with slash.
  rewrite (rfind_append_absent dot dir name Hd).
  assert (Hle : (OsPath.rfind dot dir <= OsPath.rfind slash (dir ++ name))%Z).
  { destruct Hdir as [->|[d ->]].
    - simpl. pose proof (rfind_range slash name). unfold OsPath.rfind at 1. simpl. lia.
    - rewrite append_assoc. cbn [append].
      rewrite (rfind_append_at slash d name Hs).
      pose proof (rfind_range dot (d ++ String slash "")) as Hr.
      rewrite length_append in Hr. simpl in Hr. lia. }
  destruct (Z.ltb_spec (OsPath.rfind slash (dir ++ name)) (OsPath.rfind dot dir)); [lia|].
  reflexivity.
Qed.

Lemma str_in_In (x : string) (l : list string) : str_in x l = true <-> In x l.
Proof.
  unfold str_in. rewrite existsb_exists. split.
  - intros (y & Hy & E). apply String.eqb_eq in E. now subst.
  - intros H. exists x. split; [exact H | apply String.eqb_refl].
Qed.

Lemma is_audio_file_extension (name : string) :
  is_audio_file name = str_in (file_extension name) get_supported_audio_extensions.
Proof.
  unfold is_audio_file, file_extension. destruct name; reflexivity.
Qed.

(** C4: [is_audio_file] holds exactly when the extension, lower-cased, is
    one of mp3, wav, m4a, flac, ogg; it fails on a name with no extension.
    The extension is the one of [os.path.splitext]: for a name whose last
    component has a character other than the dot before its last dot, what
    follows that dot; for a last component without a dot, none. *)
Theorem is_audio_file_iff (name : string) :
  (is_audio_file name = true <->
   exists e, In e audio_formats /\ file_extension name = "." ++ e)
  /\ (file_extension name = "" -> is_audio_file name = false)
  /\ (forall pre c post e,
        name = (pre ++ String c post) ++ String dot e ->
        c <> dot -> c <> slash -> ~ In slash (Py.bytes post) ->
        ~ In dot (Py.bytes e) -> ~ In slash (Py.bytes e) ->
        (is_audio_file name = true <-> In (Py.lower e) audio_formats))
  /\ (forall dir base,
        name = dir ++ base ->
        (dir = "" \/ exists d, dir = d ++ String slash "") ->
        ~ In dot (Py.bytes base) -> ~ In slash (Py.bytes base) ->
        is_audio_file name = false).
Proof.
  assert (Hiff : forall x,
             In x get_supported_audio_extensions <->
             exists e, In e audio_formats /\ x = "." ++ e).
  { intros x. unfold get_supported_audio_extensions, audio_formats. simpl. split.
    - intros [<-|[<-|[<-|[<-|[<-|[]]]]]];
        [exists "mp3" | exists "wav" | exists "m4a" | exists "flac" | exists "ogg"];
        (split; [simpl; auto 10 | reflexivity]).
    - intros (e & [<-|[<-|[<-|[<-|[<-|[]]]]]] & ->); simpl; auto 10. }
  rewrite is_audio_file_extension.
  split; [|split; [|split]].
  - rewrite str_in_In. apply Hiff.
  - intros ->. reflexivity.
  - intros pre c post e -> Hcd Hcs Hpost Hed Hes.
    unfold file_extension.
    rewrite (splitext_split pre c post e Hcd Hcs Hpost Hed Hes). cbn [snd].
    rewrite str_in_In, Hiff. split.
    + intros (x & Hx & E). cbn [Py.lower] in E.
      change (Py.lower_char dot) with "."%char in E.
      injection E as E. now rewrite E.
    + intros H. exists (Py.lower e). split; [exact H | reflexivity].
  - intros dir base -> Hdir Hd Hs.
    unfold file_extension. rewrite (splitext_no_dot dir base Hdir Hd Hs).
    reflexivity.
Qed.

Lemma is_audio_file_iff_witness :
  is_audio_file "/tmp/Talk.v2.MP3" = true <-> In (Py.lower "MP3") audio_formats.
Proof.
  apply (proj1 (proj2 (proj2 (is_audio_file_iff "/tmp/Talk.v2.MP3")))
           "/tmp/" "T"%char "alk.v2" "MP3").
  - reflexivity.
  - discriminate.
  - discriminate.
  - simpl. intros H. repeat (destruct H as [H|H]; [discriminate H|]). exact H.
  - simpl. intros H. repeat (destruct H as [H|H]; [discriminate H|]). exact H.
  - simpl. intros H. repeat (destruct H as [H|H]; [discriminate H|]). exact H.
Defined.

(** * utils/text_extraction.py *)

(** C5: [extract_text] always returns (it never raises); an extension other
    than .txt, .pdf, .docx gives [None]; and an exception raised by the
    decoder of the file's format is turned into [None]. *)
Theorem extract_text_never_raises (w : World) (file_path : string) :
  (exists r, extract_text w file_path = Ret r)
  /\ (file_extension file_path <> ".txt" ->
      file_extension file_path <> ".pdf" ->
      file_extension file_path <> ".docx" ->
      extract_text w file_path = Ret None)
  /\ (forall e,
        (file_extension file_path = ".txt" /\ _extract_from_txt w file_path = Raise e)
        \/ (file_extension file_path = ".pdf" /\ _extract_from_pdf w file_path = Raise e)
        \/ (file_extension file_path = ".docx" /\ _extract_from_docx w file_path = Raise e) ->
        extract_text w file_path = Ret None).
Proof.
  unfold extract_text. fold (file_extension file_path).
  destruct (Os.exists_ w file_path); cbn [negb].
  2:{ split; [now exists None|]. split; reflexivity. }
  split; [|split].
  - destruct (String.eqb (file_extension file_path) ".txt").
    { destruct (_extract_from_txt w file_path); cbn; eauto. }
    destruct (String.eqb (file_extension file_path) ".pdf").
    { destruct (_extract_from_pdf w file_path); cbn; eauto. }
    destruct (String.eqb (file_extension file_path) ".docx").
    { destruct (_extract_from_docx w file_path); cbn; eauto. }
    cbn. eauto.
  - intros H1 H2 H3.
    apply String.eqb_neq in H1, H2, H3. rewrite H1, H2, H3. reflexivity.
  - intros e [[E R]|[[E R]|[E R]]]; rewrite E, R; reflexivity.
Qed.

Lemma extract_text_never_raises_witness :
  extract_text (Sample.world Sample.payload Sample.render_ok None) "/tmp/talk.mp3"
  = Ret None.
Proof.
  apply (proj1 (proj2 (extract_text_never_raises
                         (Sample.world Sample.payload Sample.render_ok None)
                         "/tmp/talk.mp3")));
    discriminate.
Defined.

Lemma pdf_pages_loop_lines (texts : list string) (text : string) :
  pdf_pages_loop (map Ret texts) text = Ret (text ++ lines_of texts).
Proof.
  revert text. induction texts as [|t rest IH]; intros text; simpl.
  - now rewrite append_nil_r.
  - rewrite IH, !append_assoc. reflexivity.
Qed.

Lemma docx_paragraphs_loop_lines (paragraphs : list string) (text : string) :
  docx_paragraphs_loop paragraphs text = text ++ lines_of paragraphs.
Proof.
  revert text. induction paragraphs as [|t rest IH]; intros text; simpl.
  - now rewrite append_nil_r.
  - rewrite IH, !append_assoc. reflexivity.
Qed.

(** C6 (amended): for an existing file in a supported format whose decoder
    succeeds, [extract_text] returns the decoder's text as it is.  For .txt
    this is the decoded content of the file; for .pdf and .docx the page or
    paragraph texts, each followed by a newline, stripped: it is empty
    exactly when that text is white space only. *)
Theorem extract_text_returns_decoded (w : World) (file_path : string) :
  Os.exists_ w file_path = true ->
  (forall t,
     (file_extension file_path = ".txt" /\ _extract_from_txt w file_path = Ret t)
     \/ (file_extension file_path = ".pdf" /\ _extract_from_pdf w file_path = Ret t)
     \/ (file_extension file_path = ".docx" /\ _extract_from_docx w file_path = Ret t) ->
     extract_text w file_path = Ret (Some t))
  /\ (forall data t,
        Os.open_read w file_path = Ret data ->
        decode w "utf-8" false data = Ret t ->
        _extract_from_txt w file_path = Ret t)
  /\ (forall PdfReader data texts,
        PyPDF2 w = Some PdfReader ->
        Os.open_read w file_path = Ret data ->
        PdfReader data = Ret (map Ret texts) ->
        _extract_from_pdf w file_path = Ret (Py.strip (lines_of texts))
        /\ (Py.strip (lines_of texts) = "" <-> Py.all_space (lines_of texts)))
  /\ (forall Doc data paragraphs,
        Document w = Some Doc ->
        Os.open_read w file_path = Ret data ->
        Doc data = Ret paragraphs ->
        _extract_from_docx w file_path = Ret (Py.strip (lines_of paragraphs))
        /\ (Py.strip (lines_of paragraphs) = "" <-> Py.all_space (lines_of paragraphs))).
Proof.
  intros Hex. split; [|split; [|split]].
  - intros t H. unfold extract_text. fold (file_extension file_path).
    rewrite Hex. cbn [negb].
    destruct H as [[E R]|[[E R]|[E R]]]; rewrite E, R; reflexivity.
  - intros data t Ho Hd. unfold _extract_from_txt, try_encodings, read_text.
    rewrite Ho. cbn [bind]. rewrite Hd. reflexivity.
  - intros PdfReader data texts Hp Ho Hr. split; [|apply strip_empty_iff].
    unfold _extract_from_pdf. rewrite Hp, Ho. cbn [bind]. rewrite Hr. cbn [bind].
    rewrite pdf_pages_loop_lines. reflexivity.
  - intros Doc data paragraphs Hp Ho Hr. split; [|apply strip_empty_iff].
    unfold _extract_from_docx. rewrite Hp, Ho. cbn [bind]. rewrite Hr. cbn [bind].
    rewrite docx_paragraphs_loop_lines. reflexivity.
Qed.

Lemma extract_text_returns_decoded_witness :
  extract_text (Sample.world Sample.payload Sample.render_ok None) "/tmp/meeting.txt"
  = Ret (Some "Hello world").
Proof.
  apply (proj1 (extract_text_returns_decoded
                  (Sample.world Sample.payload Sample.render_ok None)
                  "/tmp/meeting.txt" eq_refl)).
  left. split; reflexivity.
Defined.

(** C6, the claim as stated: the empty file [/tmp/empty.txt] exists, has a
    supported extension and is decoded without error, and the text returned
    is the empty string. *)
Lemma empty_file_counterexample :
  Os.exists_ (Sample.world Sample.payload Sample.render_ok None) "/tmp/empty.txt" = true
  /\ file_extension "/tmp/empty.txt" = ".txt"
  /\ _extract_from_txt (Sample.world Sample.payload Sample.render_ok None)
       "/tmp/empty.txt" = Ret ""
  /\ extract_text (Sample.world Sample.payload Sample.render_ok None)
       "/tmp/empty.txt" = Ret (Some "").
Proof. repeat split. Qed.

(** * Effects of the archive writer *)

Section ArchiveOnly.

Lemma extend_nil (st : state) : extend st [] = st.
Proof. destruct st. unfold extend. simpl. now rewrite app_nil_r. Qed.

Lemma extend_extend (st : state) (e1 e2 : list event) :
  extend (extend st e1) e2 = extend st (e1 ++ e2).
Proof. unfold extend. simpl. now rewrite app_assoc. Qed.

Lemma archive_only_ret {A : Type} (a : A) : archive_only (retM a).
Proof.
  intros st. exists (Ret a), []. rewrite extend_nil. split; [reflexivity | constructor].
Qed.

Lemma archive_only_lift {A : Type} (c : outcome A) : archive_only (liftM c).
Proof.
  intros st. exists c, []. rewrite extend_nil. split; [reflexivity | constructor].
Qed.

Lemma archive_only_emit (ev : event) : is_archive ev = true -> archive_only (emit ev).
Proof.
  intros H st. exists (Ret tt), [ev]. split; [reflexivity | repeat constructor; exact H].
Qed.

Lemma archive_only_bind {A B : Type} (c : M A) (k : A -> M B) :
  archive_only c -> (forall a, archive_only (k a)) -> archive_only (bindM c k).
Proof.
  intros Hc Hk st. unfold bindM.
  destruct (Hc st) as (o & e1 & E & F1). rewrite E.
  destruct o as [a|e].
  - destruct (Hk a (extend st e1)) as (o2 & e2 & E2 & F2).
    exists o2, (e1 ++ e2)%list. rewrite E2, extend_extend.
    split; [reflexivity | apply Forall_app; auto].
  - exists (Raise e), e1. auto.
Qed.

Lemma archive_only_try {A : Type} (c : M A) (h : exn -> M A) :
  archive_only c -> (forall e, archive_only (h e)) -> archive_only (try_exceptM c h).
Proof.
  intros Hc Hh st. unfold try_exceptM.
  destruct (Hc st) as (o & e1 & E & F1). rewrite E.
  destruct o as [a|e].
  - exists (Ret a), e1. auto.
  - destruct (Hh e (extend st e1)) as (o2 & e2 & E2 & F2).
    exists o2, (e1 ++ e2)%list. rewrite E2, extend_extend.
    split; [reflexivity | apply Forall_app; auto].
Qed.

Lemma archive_only_if {A : Type} (b : bool) (c1 c2 : M A) :
  archive_only c1 -> archive_only c2 -> archive_only (if b then c1 else c2).
Proof. destruct b; auto. Qed.

End ArchiveOnly.

Create HintDb archive.
#[local] Hint Resolve archive_only_ret archive_only_lift archive_only_emit
  archive_only_bind archive_only_try archive_only_if : archive.

Lemma get_or_create_archive_only (hub : Hub) : archive_only (_get_or_create_dataset hub).
Proof.
  unfold _get_or_create_dataset.
  apply archive_only_try; [|auto with archive].
  apply archive_only_bind.
  - apply archive_only_try; [|auto with archive].
    apply archive_only_bind; [apply archive_only_emit; reflexivity|].
    intros _. auto with archive.
  - intros [dataset|]; auto with archive.
Qed.

Lemma save_body_archive_only (w : World) (hub : Hub) (meeting_data : pyval)
  (hf_token : string) :
  archive_only
    (try_exceptM
       (_ <~ (if Py.truthy hf_token then
                try_exceptM
                  (_ <~ emit (HubLogin hf_token) ;;
                   liftM (login hub hf_token))
                  (fun e => retM tt)
              else retM tt) ;;
        meeting_record <~ liftM (_prepare_meeting_record w meeting_data) ;;
        dataset <~ _get_or_create_dataset hub ;;
        match dataset with
        | None => retM false
        | Some records =>
            let records := (records ++ [meeting_record])%list in
            new_dataset <~ liftM (from_list hub records) ;;
            _ <~ (if Py.truthy hf_token then
                    try_exceptM
                      (_ <~ emit (HubPush DATASET_NAME hf_token) ;;
                       liftM (push_to_hub hub new_dataset DATASET_NAME hf_token))
                      (fun e => retM tt)
                  else retM tt) ;;
            retM true
        end)
       (fun e => retM false)).
Proof.
  apply archive_only_try; [|auto with archive].
  apply archive_only_bind.
  { apply archive_only_if; [|auto with archive].
    apply archive_only_try; [|auto with archive].
    apply archive_only_bind; [apply archive_only_emit; reflexivity|].
    intros _. auto with archive. }
  intros _. apply archive_only_bind; [auto with archive|].
  intros meeting_record. apply archive_only_bind; [apply get_or_create_archive_only|].
  intros [records|]; [|auto with archive].
  cbv zeta. apply archive_only_bind; [auto with archive|].
  intros new_dataset. apply archive_only_bind; [|auto with archive].
  apply archive_only_if; [|auto with archive].
  apply archive_only_try; [|auto with archive].
  apply archive_only_bind; [apply archive_only_emit; reflexivity|].
  intros _. auto with archive.
Qed.

(** [save_meeting_to_dataset] never raises: it returns a boolean, having
    recorded its call and possibly further hub events. *)
Lemma save_meeting_to_dataset_total (w : World) (meeting_data : pyval)
  (hf_token : string) (st : state) :
  exists b evs,
    save_meeting_to_dataset w meeting_data hf_token st
    = (Ret b, extend st (ArchiveCall meeting_data hf_token :: evs))
    /\ Forall (fun ev => is_archive ev = true) evs.
Proof.
  unfold save_meeting_to_dataset, bindM at 1, emit at 1.
  fold (extend st [ArchiveCall meeting_data hf_token]).
  destruct (PyVal.truthy meeting_data); cbn [negb].
  2:{ exists false, []. split; [reflexivity | constructor]. }
  destruct (datasets w) as [hub|].
  2:{ exists false, []. split; [reflexivity | constructor]. }
  destruct (save_body_archive_only w hub meeting_data hf_token
              (extend st [ArchiveCall meeting_data hf_token])) as (o & evs & E & F).
  rewrite extend_extend in E. cbn [app] in E.
  destruct o as [b|e].
  - exists b, evs. split; [exact E | exact F].
  - exfalso. revert E. unfold try_exceptM.
    match goal with |- context [match ?c with _ => _ end] => destruct c as [[x|e'] st'] end;
      unfold retM; discriminate.
Qed.

(** * app.py: the stages of [process_meeting] *)

Lemma generate_pdf_total (w : World) (meeting_data : pyval) :
  exists pdf_path, generate_pdf w meeting_data = Ret pdf_path.
Proof.
  unfold generate_pdf.
  destruct (PyVal.truthy meeting_data); cbn [negb]; [|eauto].
  destruct (SimpleDocTemplate w) as [build|]; [|eauto].
  destruct (build meeting_data); cbn; eauto.
Qed.

Lemma transcribe_audio_total (w : World) (file_path language : string) :
  exists r, transcribe_audio w file_path language = Ret r.
Proof.
  unfold transcribe_audio.
  destruct (Os.exists_ w file_path); cbn [negb]; [|eauto].
  destruct (librosa w) as [whisper|]; [|eauto].
  destruct (Os.open_read w file_path) as [audio|e]; cbn; [|eauto].
  destruct (whisper audio language); cbn; eauto.
Qed.

Lemma extract_text_total (w : World) (file_path : string) :
  exists r, extract_text w file_path = Ret r.
Proof.
  unfold extract_text.
  destruct (Os.exists_ w file_path); cbn [negb]; [|eauto].
  match goal with |- context [try_except ?c _] => destruct c; cbn; eauto end.
Qed.

Lemma try_exceptM_ret {A : Type} (c : M A) (h : exn -> M A) (st st' : state) (a : A) :
  c st = (Ret a, st') -> try_exceptM c h st = (Ret a, st').
Proof. intros E. unfold try_exceptM. now rewrite E. Qed.

Section ProcessText.

Variable w : World.
Variables file_name text api_key hf_token : string.
Variable st : state.

Lemma process_text_blank :
  Py.truthy (Py.strip text) = false ->
  process_text w file_name text api_key hf_token st
  = (Ret (failure "No text extracted from file"), st).
Proof. intros H. unfold process_text. rewrite H. reflexivity. Qed.

Lemma process_text_no_analysis (st1 : state) :
  Py.truthy (Py.strip text) = true ->
  analyze_meeting w text api_key st = (Ret None, st1) ->
  process_text w file_name text api_key hf_token st
  = (Ret (failure "Analysis failed"), st1).
Proof.
  intros H Ha. unfold process_text. rewrite H. cbn [negb].
  unfold bindM at 1. rewrite Ha. reflexivity.
Qed.

(** The success path: display strings, report path and message, with the
    archive writer called exactly when a token is given. *)
Lemma process_text_success d s ts ks (st1 : state) (pdf : option string) :
  Py.truthy (Py.strip text) = true ->
  analyze_meeting w text api_key st = (Ret (Some (PDict d)), st1) ->
  PyVal.dict_get d "summary" = Some (PStr s) ->
  PyVal.dict_get d "topics" = Some (PList ts) ->
  PyVal.dict_get d "keywords" = Some (PList ks) ->
  generate_pdf w (PDict d) = Ret pdf ->
  exists evs,
    process_text w file_name text api_key hf_token st
    = (Ret (mk_result (PStr s) (markdown_list w ts) (markdown_list w ks)
              (checked_report w pdf)
              (if Py.truthy hf_token
               then success_msg file_name (Py.len text) (List.length ts) (List.length ks)
                    ++ save_confirmation
               else success_msg file_name (Py.len text) (List.length ts) (List.length ks))),
       mk_state (trace st1 ++ evs)
         (temp_files st1 ++ match checked_report w pdf with
                            | Some p => [p]
                            | None => []
                            end))
    /\ (if Py.truthy hf_token
        then exists evs',
            evs = ArchiveCall
                    (meeting_data_of file_name text (PStr s) (PList ts) (PList ks))
                    hf_token :: evs'
            /\ Forall (fun ev => is_archive ev = true) evs'
        else evs = []).
Proof.
  intros Hstrip Ha Hs Ht Hk Hpdf.
  assert (Htr : PyVal.truthy (PDict d) = true).
  { destruct d; [discriminate Hs | reflexivity]. }
  assert (Hfmt : format_analysis_for_display w (PDict d)
                 = Ret (mk_display (PStr s) (markdown_list w ts) (markdown_list w ks))).
  { unfold format_analysis_for_display. rewrite Htr.
    cbn [negb PyVal.get]. rewrite Hs, Ht, Hk. reflexivity. }
  unfold process_text. rewrite Hstrip. cbn [negb].
  unfold bindM at 1. rewrite Ha. rewrite Htr. cbn [negb].
  unfold bindM at 1, liftM at 1. rewrite Hfmt.
  unfold bindM at 1, liftM at 1. rewrite Hpdf.
  cbn [d_summary d_topics d_keywords PyVal.get]. rewrite Hs, Ht, Hk.
  destruct (Py.truthy hf_token) eqn:Htok.
  - destruct (save_meeting_to_dataset_total w
                (meeting_data_of file_name text (PStr s) (PList ts) (PList ks))
                hf_token st1) as (b & evs' & Esave & F).
    exists (ArchiveCall (meeting_data_of file_name text (PStr s) (PList ts) (PList ks))
              hf_token :: evs').
    split; [|exists evs'; split; [reflexivity | exact F]].
    unfold bindM, liftM, retM. fold (meeting_data_of file_name text (PStr s) (PList ts) (PList ks)).
    rewrite Esave.
    destruct pdf as [p|]; cbn [path_truthy checked_report].
    + destruct (Py.truthy p) eqn:Hp; cbn [andb].
      * destruct (report_isfile w p); cbn [negb path_truthy].
        -- rewrite Hp. reflexivity.
        -- unfold extend. cbn. now rewrite app_nil_r.
      * cbn [path_truthy]. rewrite Hp. unfold extend. cbn. now rewrite app_nil_r.
    + unfold extend. cbn. now rewrite app_nil_r.
  - exists []. split; [|reflexivity].
    unfold bindM, liftM, retM. rewrite !app_nil_r.
    destruct pdf as [p|]; cbn [path_truthy checked_report].
    + destruct (Py.truthy p) eqn:Hp; cbn [andb].
      * destruct (report_isfile w p); cbn [negb path_truthy].
        -- rewrite Hp. reflexivity.
        -- destruct st1. cbn. now rewrite app_nil_r.
      * cbn [path_truthy]. rewrite Hp. destruct st1. cbn. now rewrite app_nil_r.
    + destruct st1. cbn. now rewrite app_nil_r.
Qed.

End ProcessText.

Section ProcessMeeting.

Variable w : World.
Variable file : upload.
Variable api_key : string.

Lemma process_meeting_early (reason : string) :
  early_failure w file api_key = Some reason ->
  forall hf_token st,
    process_meeting w file api_key hf_token st = (Ret (failure reason), st).
Proof.
  intros H hf_token st. revert H.
  unfold early_failure, process_meeting, obtain_text, obtain_stage, try_exceptM.
  destruct (upload_truthy file); cbn [negb].
  2:{ intros H. injection H as <-. reflexivity. }
  destruct (Py.truthy api_key); cbn [negb].
  2:{ intros H. injection H as <-. reflexivity. }
  destruct (Os.exists_ w (upload_path file)); cbn [negb].
  2:{ intros H. injection H as <-. reflexivity. }
  destruct (Os.isfile w (upload_path file)); cbn [negb].
  2:{ intros H. injection H as <-. reflexivity. }
  destruct (is_audio_file (OsPath.basename (upload_path file))).
  - unfold bindM, liftM.
    destruct (transcribe_audio w (upload_path file) "en") as [[text|]|e].
    + destruct (Py.truthy text); cbn [negb]; [discriminate|].
      intros H. injection H as <-. reflexivity.
    + intros H. injection H as <-. reflexivity.
    + intros H. injection H as <-. reflexivity.
  - unfold bindM, liftM.
    destruct (extract_text w (upload_path file)) as [[text|]|e].
    + destruct (Py.truthy text); cbn [negb]; [discriminate|].
      intros H. injection H as <-. reflexivity.
    + intros H. injection H as <-. reflexivity.
    + intros H. injection H as <-. reflexivity.
Qed.

Lemma process_meeting_late :
  early_failure w file api_key = None ->
  exists text,
    obtain_text w (upload_path file) = Ret (Some text)
    /\ Py.truthy text = true
    /\ Py.truthy api_key = true
    /\ forall hf_token st,
        process_meeting w file api_key hf_token st
        = try_exceptM
            (process_text w (OsPath.basename (upload_path file)) text api_key hf_token)
            report_exception st.
Proof.
  unfold early_failure, process_meeting, obtain_text, obtain_stage.
  destruct (upload_truthy file); cbn [negb]; [|discriminate].
  destruct (Py.truthy api_key); cbn [negb]; [|discriminate].
  destruct (Os.exists_ w (upload_path file)); cbn [negb]; [|discriminate].
  destruct (Os.isfile w (upload_path file)); cbn [negb]; [|discriminate].
  destruct (is_audio_file (OsPath.basename (upload_path file))).
  - destruct (transcribe_audio w (upload_path file) "en") as [[text|]|e];
      try discriminate.
    destruct (Py.truthy text) eqn:Ht; [|discriminate].
    intros _. exists text. split; [reflexivity|]. split; [exact Ht|].
    split; [reflexivity|]. intros hf_token st. unfold try_exceptM, bindM, liftM. rewrite Ht. reflexivity.
  - destruct (extract_text w (upload_path file)) as [[text|]|e];
      try discriminate.
    destruct (Py.truthy text) eqn:Ht; [|discriminate].
    intros _. exists text. split; [reflexivity|]. split; [exact Ht|].
    split; [reflexivity|]. intros hf_token st. unfold try_exceptM, bindM, liftM. rewrite Ht. reflexivity.
Qed.

End ProcessMeeting.

(** A text that was obtained comes from a regular file that exists. *)
Lemma open_read_isfile (w : World) (p data : string) :
  Os.open_read w p = Ret data -> Os.exists_ w p = true /\ Os.isfile w p = true.
Proof.
  unfold Os.open_read, Os.exists_, Os.isfile.
  destruct (Os.lookup w p) as [[|d]|]; try discriminate. auto.
Qed.

Lemma extract_from_txt_opens (w : World) (p t : string) :
  _extract_from_txt w p = Ret t -> exists data, Os.open_read w p = Ret data.
Proof.
  unfold _extract_from_txt, try_encodings, read_text.
  destruct (Os.open_read w p) as [data|e]; [eauto|].
  cbn [bind]. destruct (is_class UnicodeDecodeError e); cbn [bind]; discriminate.
Qed.

Lemma extract_from_pdf_opens (w : World) (p t : string) :
  _extract_from_pdf w p = Ret t -> exists data, Os.open_read w p = Ret data.
Proof.
  unfold _extract_from_pdf. destruct (PyPDF2 w); [|discriminate].
  destruct (Os.open_read w p) as [data|e]; [eauto | discriminate].
Qed.

Lemma extract_from_docx_opens (w : World) (p t : string) :
  _extract_from_docx w p = Ret t -> exists data, Os.open_read w p = Ret data.
Proof.
  unfold _extract_from_docx. destruct (Document w); [|discriminate].
  destruct (Os.open_read w p) as [data|e]; [eauto | discriminate].
Qed.

Lemma obtain_text_isfile (w : World) (p text : string) :
  obtain_text w p = Ret (Some text) ->
  Os.exists_ w p = true /\ Os.isfile w p = true.
Proof.
  unfold obtain_text.
  destruct (is_audio_file (OsPath.basename p)).
  - unfold transcribe_audio.
    destruct (Os.exists_ w p); cbn [negb]; [|discriminate].
    destruct (librosa w) as [whisper|]; [|discriminate].
    destruct (Os.open_read w p) as [audio|e] eqn:Ho; [|discriminate].
    intros _. split; [reflexivity | exact (proj2 (open_read_isfile _ _ _ Ho))].
  - unfold extract_text.
    destruct (Os.exists_ w p); cbn [negb]; [|discriminate].
    intros H. split; [reflexivity|].
    destruct (String.eqb (Py.lower (snd (OsPath.splitext p))) ".txt").
    { destruct (_extract_from_txt w p) as [t|e] eqn:E; [|discriminate H].
      destruct (extract_from_txt_opens _ _ _ E) as [data Ho].
      exact (proj2 (open_read_isfile _ _ _ Ho)). }
    destruct (String.eqb (Py.lower (snd (OsPath.splitext p))) ".pdf").
    { destruct (_extract_from_pdf w p) as [t|e] eqn:E; [|discriminate H].
      destruct (extract_from_pdf_opens _ _ _ E) as [data Ho].
      exact (proj2 (open_read_isfile _ _ _ Ho)). }
    destruct (String.eqb (Py.lower (snd (OsPath.splitext p))) ".docx").
    { destruct (_extract_from_docx w p) as [t|e] eqn:E; [|discriminate H].
      destruct (extract_from_docx_opens _ _ _ E) as [data Ho].
      exact (proj2 (open_read_isfile _ _ _ Ho)). }
    discriminate H.
Qed.

Lemma exists_upload_truthy (w : World) (file : upload) :
  Os.exists_ w (upload_path file) = true -> upload_truthy file = true.
Proof.
  unfold Os.exists_, Os.lookup.
  destruct file as [|p|name]; simpl; [discriminate | | reflexivity].
  destruct (Py.truthy p); [reflexivity | discriminate].
Qed.

(** Once the text is there, a non-empty key is all that is left to check
    before [process_text]. *)
Lemma early_failure_none (w : World) (file : upload) (api_key text : string) :
  obtain_text w (upload_path file) = Ret (Some text) ->
  Py.truthy text = true ->
  Py.truthy api_key = true ->
  early_failure w file api_key = None.
Proof.
  intros Ho Ht Hk. unfold early_failure.
  destruct (obtain_text_isfile _ _ _ Ho) as [Hex Hfile].
  rewrite (exists_upload_truthy _ _ Hex), Hk, Hex, Hfile, Ho, Ht. reflexivity.
Qed.

(** The three ways a request that reached the analysis stage can end. *)
Lemma process_meeting_shape (w : World) (file : upload) (api_key : string) (st : state) :
  early_failure w file api_key = None ->
  exists text,
    obtain_text w (upload_path file) = Ret (Some text)
    /\ ((Py.truthy (Py.strip text) = false
         /\ forall hf_token,
             process_meeting w file api_key hf_token st
             = (Ret (failure "No text extracted from file"), st))
        \/ (exists st1,
               analyze_meeting w text api_key st = (Ret None, st1)
               /\ (st1 = st \/ st1 = after_request st api_key text)
               /\ forall hf_token,
                   process_meeting w file api_key hf_token st
                   = (Ret (failure "Analysis failed"), st1))
        \/ (exists d s ts ks pdf,
               analyze_meeting w text api_key st
               = (Ret (Some (PDict d)), after_request st api_key text)
               /\ PyVal.dict_get d "summary" = Some (PStr s)
               /\ PyVal.dict_get d "topics" = Some (PList ts)
               /\ PyVal.dict_get d "keywords" = Some (PList ks)
               /\ generate_pdf w (PDict d) = Ret pdf
               /\ forall hf_token,
                   exists evs,
                     process_meeting w file api_key hf_token st
                     = (Ret (mk_result (PStr s) (markdown_list w ts) (markdown_list w ks)
                               (checked_report w pdf)
                               (if Py.truthy hf_token
                                then success_msg (OsPath.basename (upload_path file))
                                       (Py.len text) (List.length ts) (List.length ks)
                                     ++ save_confirmation
                                else success_msg (OsPath.basename (upload_path file))
                                       (Py.len text) (List.length ts) (List.length ks))),
                        mk_state (trace (after_request st api_key text) ++ evs)
                          (temp_files st ++ match checked_report w pdf with
                                            | Some p => [p]
                                            | None => []
                                            end))
                     /\ (if Py.truthy hf_token
                         then exists evs',
                             evs = ArchiveCall
                                     (meeting_data_of (OsPath.basename (upload_path file))
                                        text (PStr s) (PList ts) (PList ks))
                                     hf_token :: evs'
                             /\ Forall (fun ev => is_archive ev = true) evs'
                         else evs = []))).
Proof.
  intros He.
  destruct (process_meeting_late w file api_key He) as (text & Ho & Ht & Hk & Hrun).
  exists text. split; [exact Ho|].
  destruct (Py.truthy (Py.strip text)) eqn:Hs.
  2:{ left. split; [reflexivity|]. intros hf_token. rewrite Hrun.
      apply try_exceptM_ret. apply process_text_blank. exact Hs. }
  right.
  destruct (analyze_meeting_total w text api_key st) as (r & st1 & Ea & Hst & Hsome).
  destruct r as [a|].
  2:{ left. exists st1. split; [exact Ea|]. split; [exact Hst|].
      intros hf_token. rewrite Hrun. apply try_exceptM_ret.
      apply process_text_no_analysis; assumption. }
  right.
  destruct (Hsome a eq_refl) as ((d & s & ts & ks & -> & Hgs & Hgt & Hgk) & -> & _ & _).
  destruct (generate_pdf_total w (PDict d)) as [pdf Hpdf].
  exists d, s, ts, ks, pdf.
  repeat (split; [assumption|]).
  intros hf_token.
  destruct (process_text_success w (OsPath.basename (upload_path file)) text api_key
              hf_token st d s ts ks _ pdf Hs Ea Hgs Hgt Hgk Hpdf) as (evs & Erun & Hevs).
  exists evs. split; [|exact Hevs].
  rewrite Hrun. apply try_exceptM_ret. exact Erun.
Qed.

(** * The text of the status message *)

Section Contains.

Variable p : string.

Lemma prefix_refl (s : string) : String.prefix s s = true.
Proof. rewrite <- (append_nil_r s) at 2. apply prefix_append. Qed.

Lemma contains_prefix (s : string) : String.prefix p s = true -> Py.contains p s = true.
Proof. intros H. destruct s; simpl in *; rewrite H; reflexivity. Qed.

Lemma contains_cons (a : ascii) (s : string) :
  Py.contains p s = true -> Py.contains p (String a s) = true.
Proof. intros H. cbn [Py.contains]. rewrite H. apply orb_true_r. Qed.

Lemma contains_append_left (x s : string) :
  Py.contains p s = true -> Py.contains p (x ++ s) = true.
Proof.
  intros H. induction x as [|a x IH]; [exact H|].
  cbn [append]. apply contains_cons, IH.
Qed.

Lemma contains_append_self (x : string) : Py.contains p (x ++ p) = true.
Proof. apply contains_append_left, contains_prefix, prefix_refl. Qed.

Lemma contains_drop (n : nat) (s : string) :
  Py.contains p (Py.drop n s) = true -> Py.contains p s = true.
Proof.
  revert s. induction n as [|n IH]; intros s H; [exact H|].
  destruct s as [|a s]; [exact H|].
  apply contains_cons, IH, H.
Qed.

Lemma prefix_bytes (s : string) :
  String.prefix p s = true -> incl (Py.bytes p) (Py.bytes s).
Proof.
  revert s. induction p as [|a q IH]; intros s H c Hc; [destruct Hc|].
  destruct s as [|b s]; [discriminate H|].
  rewrite prefix_cons in H. apply andb_true_iff in H. destruct H as [E H].
  apply Ascii.eqb_eq in E. subst b.
  destruct Hc as [<-|Hc]; [now left | right; exact (IH s H c Hc)].
Qed.

Lemma contains_bytes (s : string) :
  Py.contains p s = true -> incl (Py.bytes p) (Py.bytes s).
Proof.
  induction s as [|a s IH]; cbn [Py.contains]; intros H.
  - rewrite orb_false_r in H. exact (prefix_bytes _ H).
  - apply orb_true_iff in H. destruct H as [H|H].
    + exact (prefix_bytes _ H).
    + intros c Hc. right. exact (IH H c Hc).
Qed.

End Contains.

Lemma prefix_append_split (p x y : string) :
  String.prefix p (x ++ y) = true ->
  String.prefix p x = true \/ exists q, p = x ++ q /\ String.prefix q y = true.
Proof.
  revert x. induction p as [|a p IH]; intros x H.
  - left. apply prefix_nil.
  - destruct x as [|b x].
    + right. exists (String a p). split; [reflexivity | exact H].
    + cbn [append] in H. rewrite prefix_cons in H.
      apply andb_true_iff in H. destruct H as [E H].
      apply Ascii.eqb_eq in E. subst b.
      destruct (IH x H) as [Hp|(q & -> & Hq)].
      * left. rewrite prefix_cons, Ascii.eqb_refl. exact Hp.
      * right. exists q. split; [reflexivity | exact Hq].
Qed.

(** Skipping a fixed beginning [A], no end of which begins an occurrence. *)
Lemma contains_skip_left (p A s : string) :
  clear_of p A = true ->
  Py.contains p (A ++ s) = true -> Py.contains p s = true.
Proof.
  induction A as [|a A IH]; intros Hc H; [exact H|].
  cbn [clear_of] in Hc.
  apply andb_true_iff in Hc. destruct Hc as [Hc HA].
  apply andb_true_iff in Hc. destruct Hc as [H1 H2].
  apply negb_true_iff in H1, H2.
  cbn [append Py.contains] in H. apply orb_true_iff in H.
  destruct H as [H|H]; [exfalso | exact (IH HA H)].
  change (String a (A ++ s)) with (String a A ++ s) in H.
  destruct (prefix_append_split _ _ _ H) as [Hp|(q & -> & _)].
  - congruence.
  - rewrite prefix_append in H2. discriminate H2.
Qed.

(** Dropping an end [R] that begins with the first byte [c] of the needle,
    a byte that occurs nowhere else in it, and lacks one of its bytes. *)
Lemma contains_skip_right (c : ascii) (t F R : string) (m : ascii) :
  ~ In c (Py.bytes t) ->
  In m (Py.bytes (String c t)) ->
  ~ In m (Py.bytes (String c R)) ->
  Py.contains (String c t) (F ++ String c R) = true ->
  Py.contains (String c t) F = true.
Proof.
  intros Hc Hm HR. induction F as [|a F IH]; intros H.
  - exfalso. apply HR. exact (contains_bytes _ _ H m Hm).
  - cbn [append Py.contains] in H. apply orb_true_iff in H.
    destruct H as [H|H]; [|apply contains_cons, IH, H].
    change (String a (F ++ String c R)) with (String a F ++ String c R) in H.
    destruct (prefix_append_split _ _ _ H) as [Hp|(q & E & Hq)].
    + apply contains_prefix, Hp.
    + destruct q as [|c' q].
      * rewrite append_nil_r in E. rewrite E. apply contains_prefix, prefix_refl.
      * exfalso. rewrite prefix_cons in Hq.
        apply andb_true_iff in Hq. destruct Hq as [Ec _].
        apply Ascii.eqb_eq in Ec. subst c'.
        cbn [append] in E. injection E as _ E.
        apply Hc. rewrite E, bytes_append. apply in_or_app. right. now left.
Qed.

Lemma uint_digits (d : Decimal.uint) (c : ascii) :
  In c (Py.bytes (NilEmpty.string_of_uint d)) ->
  48 <= nat_of_ascii c <= 57.
Proof.
  induction d as [|d IH|d IH|d IH|d IH|d IH|d IH|d IH|d IH|d IH|d IH]; simpl;
    try (intros [<-|H]; [vm_compute; lia | exact (IH H)]).
  intros [].
Qed.

Lemma str_of_nat_digits (n : nat) (c : ascii) :
  In c (Py.bytes (Py.str_of_nat n)) -> 48 <= nat_of_ascii c <= 57.
Proof. apply uint_digits. Qed.

Lemma success_msg_split (file_name : string) (n_chars n_topics n_keywords : nat) :
  success_msg file_name n_chars n_topics n_keywords
  = success_head ++ file_name
    ++ String newline (success_counts n_chars n_topics n_keywords).
Proof. reflexivity. Qed.

Lemma not_in_bytes (c : ascii) (s : string) :
  forallb (fun b => negb (Ascii.eqb b c)) (Py.bytes s) = true -> ~ In c (Py.bytes s).
Proof.
  intros H Hin. rewrite forallb_forall in H. specialize (H c Hin).
  rewrite Ascii.eqb_refl in H. discriminate H.
Qed.

Lemma marker_not_digit (n : nat) : ~ In marker (Py.bytes (Py.str_of_nat n)).
Proof.
  intros H. apply str_of_nat_digits in H. vm_compute in H. lia.
Qed.

Lemma marker_not_in_counts (n_chars n_topics n_keywords : nat) :
  ~ In marker (Py.bytes (String newline (success_counts n_chars n_topics n_keywords))).
Proof.
  unfold success_counts. cbn [Py.bytes]. intros [H|H]; [discriminate H|].
  repeat (rewrite bytes_append in H; apply in_app_or in H; destruct H as [H|H]);
    try (exact (marker_not_digit _ H));
    revert H; apply not_in_bytes; vm_compute; reflexivity.
Qed.

(** The confirmation line can only be found in a success message without
    it if the file name shown in the message contains it. *)
Lemma success_msg_contains (file_name : string) (n_chars n_topics n_keywords : nat) :
  Py.contains save_confirmation (success_msg file_name n_chars n_topics n_keywords) = true ->
  Py.contains save_confirmation file_name = true.
Proof.
  rewrite success_msg_split. intros H.
  apply contains_skip_left in H; [|vm_compute; reflexivity].
  change save_confirmation
    with (String newline (Py.drop 1 save_confirmation)) in H |- *.
  apply (contains_skip_right newline _ file_name
           (success_counts n_chars n_topics n_keywords) marker).
  - apply not_in_bytes. vm_compute. reflexivity.
  - vm_compute. intuition.
  - apply marker_not_in_counts.
  - exact H.
Qed.

Lemma obtain_text_total (w : World) (p : string) : exists r, obtain_text w p = Ret r.
Proof.
  unfold obtain_text. destruct (is_audio_file (OsPath.basename p)).
  - apply transcribe_audio_total.
  - apply extract_text_total.
Qed.

Lemma early_failure_contains (w : World) (file : upload) (api_key reason : string) :
  early_failure w file api_key = Some reason ->
  Py.contains save_confirmation (r_message (failure reason)) = true ->
  Py.contains save_confirmation (upload_path file) = true.
Proof.
  unfold early_failure, obtain_stage.
  destruct (upload_truthy file); cbn [negb].
  2:{ intros E H. injection E as <-. vm_compute in H. discriminate H. }
  destruct (Py.truthy api_key); cbn [negb].
  2:{ intros E H. injection E as <-. vm_compute in H. discriminate H. }
  destruct (Os.exists_ w (upload_path file)); cbn [negb].
  2:{ intros E H. injection E as <-. vm_compute in H. discriminate H. }
  destruct (Os.isfile w (upload_path file)); cbn [negb].
  2:{ intros E H. injection E as <-.
      cbn [r_message failure] in H.
      change (error_mark ++ " Error: " ++ "Path is a directory, not a file: "
              ++ upload_path file)
        with ((error_mark ++ " Error: " ++ "Path is a directory, not a file: ")
              ++ upload_path file) in H.
      apply contains_skip_left in H; [exact H | vm_compute; reflexivity]. }
  destruct (obtain_text_total w (upload_path file)) as [r Er]. rewrite Er.
  assert (Hstage : forall x,
             Some (if is_audio_file (OsPath.basename (upload_path file))
                   then "Transcription failed" else "Text extraction failed") = Some x ->
             Py.contains save_confirmation (r_message (failure x)) = true -> False).
  { intros x E H. injection E as <-.
    destruct (is_audio_file (OsPath.basename (upload_path file)));
      vm_compute in H; discriminate H. }
  destruct r as [text|].
  - destruct (Py.truthy text); [discriminate|].
    intros E H. elim (Hstage _ E H).
  - intros E H. elim (Hstage _ E H).
Qed.

(** * The claims about [process_meeting] *)

Lemma format_well_formed (w : World) d s ts ks :
  PyVal.dict_get d "summary" = Some (PStr s) ->
  PyVal.dict_get d "topics" = Some (PList ts) ->
  PyVal.dict_get d "keywords" = Some (PList ks) ->
  format_analysis_for_display w (PDict d)
  = Ret (mk_display (PStr s) (markdown_list w ts) (markdown_list w ks)).
Proof.
  intros Hs Ht Hk. unfold format_analysis_for_display.
  assert (Htr : PyVal.truthy (PDict d) = true).
  { destruct d; [discriminate Hs | reflexivity]. }
  rewrite Htr. cbn [negb PyVal.get]. rewrite Hs, Ht, Hk. reflexivity.
Qed.

Lemma success_msg_prefix (file_name : string) (n_chars n_topics n_keywords : nat)
  (hf_token : string) :
  Py.startswith success_mark
    (if Py.truthy hf_token
     then success_msg file_name n_chars n_topics n_keywords ++ save_confirmation
     else success_msg file_name n_chars n_topics n_keywords) = true.
Proof.
  unfold Py.startswith, success_msg.
  destruct (Py.truthy hf_token); [rewrite append_assoc|]; apply prefix_append.
Qed.

Lemma failure_not_success (reason : string) :
  Py.startswith success_mark (r_message (failure reason)) = false.
Proof. reflexivity. Qed.

Lemma strip_truthy_text (text : string) :
  Py.truthy (Py.strip text) = true -> Py.truthy text = true.
Proof. destruct text; [discriminate | reflexivity]. Qed.

(** C1: when the text was obtained and analysed and only the rendering of
    the report fails, [process_meeting] returns the three display strings of
    the analysis, no report path, and a message that begins with the success
    mark; nothing is added to the list of temporary files. *)
Theorem render_failure_is_not_fatal (w : World) (file : upload)
  (api_key hf_token text : string) (analysis : pyval) (st st1 : state) :
  obtain_text w (upload_path file) = Ret (Some text) ->
  analyze_meeting w text api_key st = (Ret (Some analysis), st1) ->
  generate_pdf w analysis = Ret None ->
  exists formatted message st',
    format_analysis_for_display w analysis = Ret formatted
    /\ process_meeting w file api_key hf_token st
       = (Ret (mk_result (d_summary formatted) (d_topics formatted)
                 (d_keywords formatted) None message), st')
    /\ Py.startswith success_mark message = true
    /\ temp_files st' = temp_files st.
Proof.
  intros Ho Ha Hp.
  destruct (analyze_meeting_total w text api_key st) as (r & st2 & E & _ & Hsome).
  rewrite E in Ha. injection Ha as -> ->.
  destruct (Hsome analysis eq_refl) as (_ & -> & Hs & Hk).
  pose proof (early_failure_none w file api_key text Ho (strip_truthy_text _ Hs) Hk) as He.
  destruct (process_meeting_shape w file api_key st He) as (text' & Ho' & Hshape).
  rewrite Ho in Ho'. injection Ho' as <-.
  destruct Hshape as [[Hb _]|[(st2 & Ea & _)|(d & s & ts & ks & pdf & Ea & Hgs & Hgt & Hgk & Hpdf & Hrun)]].
  - rewrite Hs in Hb. discriminate Hb.
  - rewrite E in Ea. discriminate Ea.
  - rewrite E in Ea. injection Ea as ->.
    rewrite Hp in Hpdf. injection Hpdf as <-.
    destruct (Hrun hf_token) as (evs & Erun & _).
    eexists _, _, _. split; [exact (format_well_formed w d s ts ks Hgs Hgt Hgk)|].
    split; [exact Erun|]. split; [apply success_msg_prefix|].
    cbn [temp_files checked_report]. apply app_nil_r.
Qed.

Lemma render_failure_is_not_fatal_witness :
  exists formatted message st',
    format_analysis_for_display
      (Sample.world (Sample.fenced "```json") Sample.render_fails None)
      Sample.analysis = Ret formatted
    /\ process_meeting
         (Sample.world (Sample.fenced "```json") Sample.render_fails None)
         (PathStr "/tmp/meeting.txt") "sk-test" "" Sample.st0
       = (Ret (mk_result (d_summary formatted) (d_topics formatted)
                 (d_keywords formatted) None message), st')
    /\ Py.startswith success_mark message = true
    /\ temp_files st' = temp_files Sample.st0.
Proof.
  apply (render_failure_is_not_fatal
           (Sample.world (Sample.fenced "```json") Sample.render_fails None)
           (PathStr "/tmp/meeting.txt") "sk-test" "" "Hello world" Sample.analysis
           Sample.st0 (after_request Sample.st0 "sk-test" "Hello world")).
  - reflexivity.
  - vm_compute. reflexivity.
  - reflexivity.
Defined.

(** C9 (amended): with an empty archival credential [process_meeting]
    returns without entering the archive writer, and the confirmation line
    is not appended to the status message: the message contains that line
    only if the path of the uploaded file, which the message may quote,
    contains it.  The same request with a credential yields the same display
    strings, report path and temporary files, the same message up to the
    appended confirmation line, and the same trace followed by archive
    events only. *)
Theorem process_meeting_without_token (w : World) (file : upload)
  (api_key : string) (st : state) :
  exists r0 st0,
    process_meeting w file api_key "" st = (Ret r0, st0)
    /\ (exists evs, trace st0 = (trace st ++ evs)%list
                    /\ Forall (fun ev => is_archive ev = false) evs)
    /\ (Py.contains save_confirmation (r_message r0) = true ->
        Py.contains save_confirmation (upload_path file) = true)
    /\ (forall hf_token,
          Py.truthy hf_token = true ->
          exists r1 st1,
            process_meeting w file api_key hf_token st = (Ret r1, st1)
            /\ r_summary r1 = r_summary r0
            /\ r_topics r1 = r_topics r0
            /\ r_keywords r1 = r_keywords r0
            /\ r_pdf_path r1 = r_pdf_path r0
            /\ (r_message r1 = r_message r0
                \/ r_message r1 = r_message r0 ++ save_confirmation)
            /\ temp_files st1 = temp_files st0
            /\ exists evs1, trace st1 = (trace st0 ++ evs1)%list
                            /\ Forall (fun ev => is_archive ev = true) evs1).
Proof.
  assert (Hsame : forall r' st',
             (forall hf_token, process_meeting w file api_key hf_token st = (Ret r', st')) ->
             forall hf_token, Py.truthy hf_token = true ->
               exists r1 st1,
                 process_meeting w file api_key hf_token st = (Ret r1, st1)
                 /\ r_summary r1 = r_summary r'
                 /\ r_topics r1 = r_topics r'
                 /\ r_keywords r1 = r_keywords r'
                 /\ r_pdf_path r1 = r_pdf_path r'
                 /\ (r_message r1 = r_message r'
                     \/ r_message r1 = r_message r' ++ save_confirmation)
                 /\ temp_files st1 = temp_files st'
                 /\ exists evs1, trace st1 = (trace st' ++ evs1)%list
                                 /\ Forall (fun ev => is_archive ev = true) evs1).
  { intros r' st' H hf_token _. exists r', st'.
    split; [apply H|]. repeat (split; [reflexivity|]). split; [now left|].
    split; [reflexivity|]. exists []. split; [now rewrite app_nil_r | constructor]. }
  destruct (early_failure w file api_key) as [reason|] eqn:He.
  { pose proof (process_meeting_early w file api_key reason He) as Hrun.
    exists (failure reason), st. split; [apply Hrun|].
    split; [exists []; split; [now rewrite app_nil_r | constructor]|].
    split; [exact (early_failure_contains w file api_key reason He)|].
    apply Hsame. intros hf_token. apply Hrun. }
  destruct (process_meeting_shape w file api_key st He) as (text & Ho & Hshape).
  destruct Hshape as [[Hb Hrun]|[(st1 & Ea & Hst & Hrun)|(d & s & ts & ks & pdf & Ea & Hgs & Hgt & Hgk & Hpdf & Hrun)]].
  - exists (failure "No text extracted from file"), st. split; [apply Hrun|].
    split; [exists []; split; [now rewrite app_nil_r | constructor]|].
    split; [intros H; vm_compute in H; discriminate H|].
    apply Hsame. exact Hrun.
  - exists (failure "Analysis failed"), st1. split; [apply Hrun|].
    split.
    { destruct Hst as [->| ->].
      - exists []. split; [now rewrite app_nil_r | constructor].
      - eexists. split; [reflexivity | repeat constructor]. }
    split; [intros H; vm_compute in H; discriminate H|].
    apply Hsame. exact Hrun.
  - destruct (Hrun "") as (evs0 & Erun0 & Hevs0). cbn [Py.truthy] in Erun0, Hevs0.
    subst evs0.
    eexists _, _. split; [exact Erun0|].
    split.
    { eexists. split; [unfold after_request; cbn [trace]; rewrite app_nil_r; reflexivity|].
      repeat constructor. }
    split.
    { cbn [r_message]. intros H. apply success_msg_contains in H.
      exact (contains_drop _ _ _ H). }
    intros hf_token Htok.
    destruct (Hrun hf_token) as (evs1 & Erun1 & Hevs1). rewrite Htok in Erun1, Hevs1.
    destruct Hevs1 as (evs' & -> & Farch).
    eexists _, _. split; [exact Erun1|].
    repeat (split; [reflexivity|]). split; [now right|].
    split; [reflexivity|].
    eexists. split; [cbn [trace]; rewrite <- app_assoc; reflexivity|].
    constructor; [reflexivity | exact Farch].
Qed.

(** C9, the claim as stated: without a credential the message still
    contains the confirmation line when the uploaded file is named after
    it. *)
Lemma named_after_confirmation_counterexample :
  exists r st',
    process_meeting (Sample.world (Sample.fenced "```json") Sample.render_ok None)
      (PathStr Sample.odd_name) "sk-test" "" Sample.st0 = (Ret r, st')
    /\ Py.contains save_confirmation (r_message r) = true.
Proof.
  eexists _, _. split; [vm_compute; reflexivity|]. vm_compute. reflexivity.
Qed.

(** C10: with a credential, every run that reaches the success path appends
    the confirmation line to the message, after one call of the archive
    writer; the result is the same whatever dataset libraries the world has,
    in particular with none, where every call of the archive writer returns
    [False]. *)
Theorem save_confirmation_regardless (w : World) (file : upload)
  (api_key hf_token : string) (st st' : state) (r : result) :
  Py.truthy hf_token = true ->
  process_meeting w file api_key hf_token st = (Ret r, st') ->
  Py.startswith success_mark (r_message r) = true ->
  (exists base, r_message r = base ++ save_confirmation)
  /\ Py.contains save_confirmation (r_message r) = true
  /\ (exists meeting_data, In (ArchiveCall meeting_data hf_token) (trace st'))
  /\ (forall hub, exists st'',
        process_meeting (with_datasets w hub) file api_key hf_token st = (Ret r, st''))
  /\ (forall meeting_data st1, exists st2,
        save_meeting_to_dataset (with_datasets w None) meeting_data hf_token st1
        = (Ret false, st2)).
Proof.
  intros Htok Hrun Hok.
  assert (Hnot : forall reason st2,
             process_meeting w file api_key hf_token st = (Ret (failure reason), st2) ->
             False).
  { intros reason st2 E. rewrite E in Hrun. injection Hrun as <- _.
    rewrite failure_not_success in Hok. discriminate Hok. }
  destruct (early_failure w file api_key) as [reason|] eqn:He.
  { elim (Hnot _ _ (process_meeting_early w file api_key reason He hf_token st)). }
  destruct (process_meeting_shape w file api_key st He) as (text & Ho & Hshape).
  destruct Hshape as [[_ Hf]|[(st1 & _ & _ & Hf)|(d & s & ts & ks & pdf & Ea & Hgs & Hgt & Hgk & Hpdf & Hsucc)]];
    try (elim (Hnot _ _ (Hf hf_token))).
  destruct (Hsucc hf_token) as (evs & Erun & Hevs). rewrite Htok in Erun, Hevs.
  destruct Hevs as (evs' & -> & _).
  remember (success_msg (OsPath.basename (upload_path file)) (Py.len text)
              (List.length ts) (List.length ks)) as base eqn:Hbase.
  rewrite Erun in Hrun. injection Hrun as <- <-.
  split; [exists base; reflexivity|].
  split; [apply contains_append_self|].
  split.
  { eexists. cbn [trace]. apply in_or_app. right. left. reflexivity. }
  subst base.
  split.
  - intros hub.
    destruct (process_meeting_shape (with_datasets w hub) file api_key st He)
      as (text' & Ho' & Hshape').
    change (obtain_text w (upload_path file) = Ret (Some text')) in Ho'.
    rewrite Ho in Ho'. injection Ho' as <-.
    destruct (analyze_meeting_total w text api_key st) as (r0 & st0 & E0 & _ & Hsome).
    rewrite Ea in E0. injection E0 as <- <-.
    destruct (Hsome _ eq_refl) as (_ & _ & Hs & _).
    destruct Hshape' as [[Hb _]|[(st1 & Ea' & _)|(d' & s' & ts' & ks' & pdf' & Ea' & Hgs' & Hgt' & Hgk' & Hpdf' & Hsucc')]].
    + rewrite Hs in Hb. discriminate Hb.
    + change (analyze_meeting w text api_key st = (Ret None, st1)) in Ea'.
      rewrite Ea in Ea'. discriminate Ea'.
    + change (analyze_meeting w text api_key st
              = (Ret (Some (PDict d')), after_request st api_key text)) in Ea'.
      rewrite Ea in Ea'. injection Ea' as <-.
      rewrite Hgs in Hgs'. injection Hgs' as <-.
      rewrite Hgt in Hgt'. injection Hgt' as <-.
      rewrite Hgk in Hgk'. injection Hgk' as <-.
      change (generate_pdf w (PDict d) = Ret pdf') in Hpdf'.
      rewrite Hpdf in Hpdf'. injection Hpdf' as <-.
      destruct (Hsucc' hf_token) as (evs2 & Erun2 & _). rewrite Htok in Erun2.
      eexists. exact Erun2.
  - intros meeting_data st1.
    unfold save_meeting_to_dataset, bindM, emit.
    destruct (PyVal.truthy meeting_data); cbn [negb]; eexists; reflexivity.
Qed.

Lemma save_confirmation_regardless_witness :
  Py.contains save_confirmation
    (success_msg "talk.mp3" 22 2 3 ++ save_confirmation) = true
  /\ fst (save_meeting_to_dataset
            (Sample.world (Sample.fenced "```json") Sample.render_ok (Some Sample.hub_down))
            (meeting_data_of "talk.mp3" "hello from the meeting"
               (PStr "Budget review") (PList [PStr "A"; PStr "B"])
               (PList [PStr "x"; PStr "y"; PStr "z"]))
            "hf_token"
            (after_request Sample.st0 "sk-test" "hello from the meeting"))
     = Ret false.
Proof.
  split; [|vm_compute; reflexivity].
  refine (proj1 (proj2 (save_confirmation_regardless
            (Sample.world (Sample.fenced "```json") Sample.render_ok (Some Sample.hub_down))
            (PathStr "/tmp/talk.mp3") "sk-test" "hf_token" Sample.st0 _
            (mk_result (PStr "Budget review") _ _ _
               (success_msg "talk.mp3" 22 2 3 ++ save_confirmation))
            eq_refl _ _))).
  - vm_compute. reflexivity.
  - vm_compute. reflexivity.
Defined.

(** * Further facts: [strip] is idempotent *)

Section StripShape.

Variable p1 : ascii -> bool.
Variable p2 : ascii -> ascii -> bool.
Variable p3 : ascii -> ascii -> ascii -> bool.

(** What [strip_front] returns is an end of its argument. *)
Lemma strip_front_suffix_aux (n : nat) :
  forall s, String.length s <= n ->
    exists z, s = z ++ Py.strip_front p1 p2 p3 s.
Proof.
  induction n as [|n IH]; intros s Hlen.
  - destruct s; [|simpl in Hlen; lia]. now exists "".
  - destruct s as [|a r1]; [now exists ""|].
    simpl in Hlen. cbn [Py.strip_front].
    destruct (p1 a).
    { destruct (IH r1 ltac:(lia)) as [z Hz]. exists (String a z).
      cbn [append]. now rewrite <- Hz. }
    destruct r1 as [|b r2]; [now exists ""|].
    simpl in Hlen.
    destruct (p2 a b).
    { destruct (IH r2 ltac:(lia)) as [z Hz]. exists (String a (String b z)).
      cbn [append]. now rewrite <- Hz. }
    destruct r2 as [|c r3]; [now exists ""|].
    simpl in Hlen.
    destruct (p3 a b c); [|now exists ""].
    destruct (IH r3 ltac:(lia)) as [z Hz].
    exists (String a (String b (String c z))).
    cbn [append]. now rewrite <- Hz.
Qed.

Lemma strip_front_suffix (s : string) :
  exists z, s = z ++ Py.strip_front p1 p2 p3 s.
Proof. apply (strip_front_suffix_aux (String.length s)). lia. Qed.

Lemma strip_front_length (s : string) :
  String.length (Py.strip_front p1 p2 p3 s) <= String.length s.
Proof.
  destruct (strip_front_suffix s) as [z Hz].
  rewrite Hz at 2. rewrite length_append. lia.
Qed.

(** A beginning of a string that [strip_front] leaves alone is left alone
    too. *)
Lemma strip_front_fixed_prefix (u v : string) :
  Py.strip_front p1 p2 p3 (u ++ v) = u ++ v ->
  Py.strip_front p1 p2 p3 u = u.
Proof.
  intros H.
  destruct u as [|a u1]; [reflexivity|].
  cbn [append Py.strip_front] in H. cbn [Py.strip_front].
  destruct (p1 a).
  { exfalso. pose proof (strip_front_length (u1 ++ v)) as L.
    rewrite H in L. simpl in L. lia. }
  destruct u1 as [|b u2]; [reflexivity|].
  cbn [append] in H.
  destruct (p2 a b).
  { exfalso. pose proof (strip_front_length (u2 ++ v)) as L.
    rewrite H in L. simpl in L. lia. }
  destruct u2 as [|c u3]; [reflexivity|].
  cbn [append] in H.
  destruct (p3 a b c); [|reflexivity].
  exfalso. pose proof (strip_front_length (u3 ++ v)) as L.
  rewrite H in L. simpl in L. lia.
Qed.

End StripShape.

Lemma rstrip_prefix (t : string) : exists v, t = Py.rstrip t ++ v.
Proof.
  unfold Py.rstrip.
  destruct (strip_front_suffix Py.space1 (fun a b => Py.space2 b a)
              (fun a b c => Py.space3 c b a) (Py.rev t)) as [z Hz].
  exists (Py.rev z).
  rewrite <- rev_append, <- Hz. symmetry. apply rev_involutive.
Qed.

Lemma rstrip_idempotent (t : string) : Py.rstrip (Py.rstrip t) = Py.rstrip t.
Proof.
  unfold Py.rstrip. rewrite rev_involutive, strip_front_idempotent. reflexivity.
Qed.

Lemma strip_idempotent (s : string) : Py.strip (Py.strip s) = Py.strip s.
Proof.
  unfold Py.strip.
  assert (H : Py.lstrip (Py.rstrip (Py.lstrip s)) = Py.rstrip (Py.lstrip s)).
  { destruct (rstrip_prefix (Py.lstrip s)) as [v Hv].
    unfold Py.lstrip at 1.
    apply (strip_front_fixed_prefix _ _ _ _ v).
    rewrite <- Hv. unfold Py.lstrip. apply strip_front_idempotent. }
  rewrite H. apply rstrip_idempotent.
Qed.

(** * Further facts: the extension of a path is the extension of its name *)

Lemma last_occurrence (c : ascii) (s : string) :
  ~ In c (Py.bytes s)
  \/ exists x y, s = x ++ String c y /\ ~ In c (Py.bytes y).
Proof.
  induction s as [|a s IH]; [left; intros []|].
  destruct IH as [Hn|(x & y & -> & Hy)].
  - destruct (ascii_dec a c) as [->|N].
    + right. exists "", s. split; [reflexivity | exact Hn].
    + left. simpl. intros [E|Hin]; [now apply N | now apply Hn].
  - right. exists (String a x), y. split; [reflexivity | exact Hy].
Qed.

Lemma rfind_absent (c : ascii) (s : string) :
  ~ In c (Py.bytes s) -> OsPath.rfind c s = (-1)%Z.
Proof. intros H. unfold OsPath.rfind. now apply rfind_from_absent. Qed.

Lemma substring_shift (pre y : string) (i m : nat) :
  substring (String.length pre + i) m (pre ++ y) = substring i m y.
Proof. induction pre as [|a pre IH]; simpl; [reflexivity | exact IH]. Qed.

Lemma skip_leading_dots_shift (pre y : string) (i n : nat) :
  OsPath.skip_leading_dots (pre ++ y) (String.length pre + i) n
  = OsPath.skip_leading_dots y i n.
Proof.
  revert i. induction n as [|n IH]; intros i; [reflexivity|].
  cbn [OsPath.skip_leading_dots]. rewrite substring_shift.
  replace (S (String.length pre + i)) with (String.length pre + S i) by lia.
  rewrite IH. reflexivity.
Qed.

Lemma drop_add (pre y : string) (i : nat) :
  Py.drop (String.length pre + i) (pre ++ y) = Py.drop i y.
Proof. induction pre as [|a pre IH]; simpl; [reflexivity | exact IH]. Qed.

Lemma basename_split (x y : string) :
  ~ In slash (Py.bytes y) -> OsPath.basename (x ++ String slash y) = y.
Proof.
  intros Hy. unfold OsPath.basename. change "/"%char with slash.
  rewrite (rfind_append_at slash x y Hy).
  replace (Z.to_nat (Z.of_nat (String.length x) + 1)) with (String.length x + 1) by lia.
  change (x ++ String slash y) with (x ++ (String slash "" ++ y)).
  rewrite <- append_assoc.
  replace (String.length x + 1) with (String.length (x ++ String slash "") + 0)
    by (rewrite length_append; simpl; lia).
  apply drop_add.
Qed.

Lemma splitext_basename (p : string) :
  snd (OsPath.splitext (OsPath.basename p)) = snd (OsPath.splitext p).
Proof.
  destruct (last_occurrence slash p) as [Hn|(x & y & -> & Hy)].
  { unfold OsPath.basename. change "/"%char with slash.
    rewrite (rfind_absent slash p Hn). reflexivity. }
  rewrite (basename_split x y Hy).
  destruct (last_occurrence dot y) as [Hd|(u & e & -> & He)].
  { pose proof (splitext_no_dot "" y (or_introl eq_refl) Hd Hy) as E0.
    cbn [append] in E0. rewrite E0.
    change (x ++ String slash y) with (x ++ (String slash "" ++ y)).
    rewrite <- append_assoc.
    rewrite (splitext_no_dot (x ++ String slash "") y); [reflexivity | | exact Hd | exact Hy].
    right. now exists x. }
  assert (Hu : ~ In slash (Py.bytes u) /\ ~ In slash (Py.bytes e)).
  { rewrite bytes_append in Hy. cbn [Py.bytes] in Hy. split; intros H; apply Hy.
    - apply in_or_app. now left.
    - apply in_or_app. right. now right. }
  destruct Hu as [Hus Hes].
  set (pre := x ++ String slash "").
  assert (Ep : x ++ String slash (u ++ String dot e) = (pre ++ u) ++ String dot e).
  { unfold pre. rewrite !append_assoc. reflexivity. }
  assert (Hpre : String.length pre = S (String.length x)).
  { unfold pre. rewrite length_append. simpl. lia. }
  assert (Hsy : OsPath.rfind slash (u ++ String dot e) = (-1)%Z).
  { apply rfind_absent. rewrite bytes_append. cbn [Py.bytes].
    intros H. apply in_app_or in H.
    destruct H as [H|[H|H]]; [now apply Hus | discriminate H | now apply Hes]. }
  assert (Hsp : OsPath.rfind slash ((pre ++ u) ++ String dot e)
                = Z.of_nat (String.length x)).
  { rewrite <- Ep. apply rfind_append_at.
    rewrite bytes_append. cbn [Py.bytes].
    intros H. apply in_app_or in H.
    destruct H as [H|[H|H]]; [now apply Hus | discriminate H | now apply Hes]. }
  rewrite Ep.
  unfold OsPath.splitext. change "."%char with dot. change "/"%char with slash.
  rewrite (rfind_append_at dot u e He), Hsy.
  rewrite (rfind_append_at dot (pre ++ u) e He), Hsp.
  rewrite length_append, Hpre.
  replace (Z.to_nat (Z.of_nat (String.length x) + 1)) with (String.length pre + 0) by lia.
  replace (Z.to_nat (Z.of_nat (S (String.length x) + String.length u)
                     - (Z.of_nat (String.length x) + 1)))
    with (String.length u) by lia.
  replace (Z.to_nat (-1 + 1)) with 0 by reflexivity.
  replace (Z.to_nat (Z.of_nat (String.length u) - (-1 + 1))) with (String.length u) by lia.
  rewrite (append_assoc pre u (String dot e)), skip_leading_dots_shift.
  replace (Z.of_nat (String.length x) <? Z.of_nat (S (String.length x) + String.length u))%Z
    with true by (symmetry; apply Z.ltb_lt; lia).
  replace (-1 <? Z.of_nat (String.length u))%Z
    with true by (symmetry; apply Z.ltb_lt; lia).
  cbn [andb].
  destruct (OsPath.skip_leading_dots (u ++ String dot e) 0 (String.length u));
    [|reflexivity].
  cbn [snd]. rewrite !Nat2Z.id.
  replace (S (String.length x) + String.length u)
    with (String.length pre + String.length u) by lia.
  rewrite drop_add. reflexivity.
Qed.

Lemma file_extension_basename (p : string) :
  file_extension (OsPath.basename p) = file_extension p.
Proof. unfold file_extension. now rewrite splitext_basename. Qed.

Lemma is_audio_file_basename (p : string) :
  is_audio_file (OsPath.basename p) = is_audio_file p.
Proof. now rewrite !is_audio_file_extension, file_extension_basename. Qed.

(** * Further facts about [process_meeting] *)

Lemma append_cancel_l (a x y : string) : a ++ x = a ++ y -> x = y.
Proof.
  induction a as [|c a IH]; simpl; intros H; [exact H|].
  injection H as H. exact (IH H).
Qed.

Lemma failure_message_inj (r1 r2 : string) :
  r_message (failure r1) = r_message (failure r2) -> r1 = r2.
Proof.
  unfold failure. cbn [r_message]. intros H.
  apply append_cancel_l in H. apply append_cancel_l in H. exact H.
Qed.

Lemma failure_prefix (reason : string) :
  Py.startswith error_mark (r_message (failure reason)) = true.
Proof. unfold failure. cbn [r_message]. apply prefix_append. Qed.

(** The reasons of the failures that precede the analysis. *)
Lemma early_failure_reasons (w : World) (file : upload) (api_key reason : string) :
  early_failure w file api_key = Some reason ->
  In reason ["No file uploaded"; "OpenAI API key required";
             "File not found or invalid";
             "Path is a directory, not a file: " ++ upload_path file;
             "Transcription failed"; "Text extraction failed"].
Proof.
  unfold early_failure, obtain_stage.
  destruct (upload_truthy file); cbn [negb].
  2:{ intros E. injection E as <-. simpl. auto. }
  destruct (Py.truthy api_key); cbn [negb].
  2:{ intros E. injection E as <-. simpl. auto. }
  destruct (Os.exists_ w (upload_path file)); cbn [negb].
  2:{ intros E. injection E as <-. simpl. auto. }
  destruct (Os.isfile w (upload_path file)); cbn [negb].
  2:{ intros E. injection E as <-. simpl. auto. }
  destruct (obtain_text_total w (upload_path file)) as [r Er]. rewrite Er.
  assert (Hstage : In (if is_audio_file (OsPath.basename (upload_path file))
                       then "Transcription failed" else "Text extraction failed")
                     ["No file uploaded"; "OpenAI API key required";
                      "File not found or invalid";
                      "Path is a directory, not a file: " ++ upload_path file;
                      "Transcription failed"; "Text extraction failed"]).
  { destruct (is_audio_file (OsPath.basename (upload_path file))); simpl; auto 10. }
  destruct r as [text|].
  - destruct (Py.truthy text); [discriminate|].
    intros E. injection E as <-. exact Hstage.
  - intros E. injection E as <-. exact Hstage.
Qed.

(** X1: [process_meeting] always returns its tuple, in one of two shapes.
    Either the message begins with the error mark, the three display fields
    are empty and there is no report path; then [_temp_files] is as it was,
    the archive writer was not entered and at most one request went to the
    summarization service.  Or the message begins with the success mark and
    the summary is a string.  (What the speech stack loads and caches while
    it transcribes is not part of the state considered here.) *)
Theorem process_meeting_outcomes (w : World) (file : upload)
  (api_key hf_token : string) (st : state) :
  exists r st',
    process_meeting w file api_key hf_token st = (Ret r, st')
    /\ ((Py.startswith error_mark (r_message r) = true
         /\ r_summary r = PStr "" /\ r_topics r = "" /\ r_keywords r = ""
         /\ r_pdf_path r = None
         /\ temp_files st' = temp_files st
         /\ exists evs,
              trace st' = (trace st ++ evs)%list
              /\ List.length evs <= 1
              /\ Forall (fun ev => is_archive ev = false) evs)
        \/ (Py.startswith success_mark (r_message r) = true
            /\ exists s, r_summary r = PStr s)).
Proof.
  assert (Hfail : forall reason st1,
             (st1 = st \/ exists text, st1 = after_request st api_key text) ->
             Py.startswith error_mark (r_message (failure reason)) = true
             /\ r_summary (failure reason) = PStr ""
             /\ r_topics (failure reason) = "" /\ r_keywords (failure reason) = ""
             /\ r_pdf_path (failure reason) = None
             /\ temp_files st1 = temp_files st
             /\ exists evs,
                  trace st1 = (trace st ++ evs)%list
                  /\ List.length evs <= 1
                  /\ Forall (fun ev => is_archive ev = false) evs).
  { intros reason st1 Hst. split; [apply failure_prefix|].
    repeat (split; [reflexivity|]).
    destruct Hst as [->|[text ->]].
    - split; [reflexivity|]. exists []. rewrite app_nil_r.
      split; [reflexivity|]. split; [cbn; lia | constructor].
    - split; [reflexivity|]. exists [ChatRequest api_key (build_prompt text)].
      split; [reflexivity|]. split; [cbn; lia|].
      constructor; [reflexivity | constructor]. }
  destruct (early_failure w file api_key) as [reason|] eqn:He.
  { exists (failure reason), st.
    split; [exact (process_meeting_early w file api_key reason He hf_token st)|].
    left. apply Hfail. now left. }
  destruct (process_meeting_shape w file api_key st He) as (text & Ho & Hshape).
  destruct Hshape as [[_ Hrun]|[(st1 & _ & Hst & Hrun)|(d & s & ts & ks & pdf & _ & _ & _ & _ & _ & Hrun)]].
  - eexists _, _. split; [apply Hrun|]. left. apply Hfail. now left.
  - eexists _, _. split; [apply Hrun|]. left. apply Hfail.
    destruct Hst as [->| ->]; [now left | right; now exists text].
  - destruct (Hrun hf_token) as (evs & Erun & _).
    eexists _, _. split; [exact Erun|].
    right. split; [apply success_msg_prefix | now exists s].
Qed.

(** X2: the counts of the status message.  On the success path the message
    is the f-string of line 140 filled with the name of the file, the number
    of code points of the text that was obtained, and the numbers of topics
    and keywords of the analysis returned by [analyze_meeting], followed by
    the confirmation line exactly when a token was given; the display fields
    are those of that analysis. *)
Theorem process_meeting_reports_counts (w : World) (file : upload)
  (api_key hf_token : string) (st st' : state) (r : result) :
  process_meeting w file api_key hf_token st = (Ret r, st') ->
  Py.startswith success_mark (r_message r) = true ->
  exists text d s ts ks,
    obtain_text w (upload_path file) = Ret (Some text)
    /\ analyze_meeting w text api_key st
       = (Ret (Some (PDict d)), after_request st api_key text)
    /\ PyVal.dict_get d "summary" = Some (PStr s)
    /\ PyVal.dict_get d "topics" = Some (PList ts)
    /\ PyVal.dict_get d "keywords" = Some (PList ks)
    /\ r_summary r = PStr s
    /\ r_topics r = markdown_list w ts
    /\ r_keywords r = markdown_list w ks
    /\ r_message r
       = (if Py.truthy hf_token
          then success_msg (OsPath.basename (upload_path file)) (Py.len text)
                 (List.length ts) (List.length ks) ++ save_confirmation
          else success_msg (OsPath.basename (upload_path file)) (Py.len text)
                 (List.length ts) (List.length ks)).
Proof.
  intros Hrun Hok.
  assert (Hnot : forall reason st2,
             process_meeting w file api_key hf_token st = (Ret (failure reason), st2) ->
             False).
  { intros reason st2 E. rewrite E in Hrun. injection Hrun as <- _.
    rewrite failure_not_success in Hok. discriminate Hok. }
  destruct (early_failure w file api_key) as [reason|] eqn:He.
  { elim (Hnot _ _ (process_meeting_early w file api_key reason He hf_token st)). }
  destruct (process_meeting_shape w file api_key st He) as (text & Ho & Hshape).
  destruct Hshape as [[_ Hf]|[(st1 & _ & _ & Hf)|(d & s & ts & ks & pdf & Ea & Hgs & Hgt & Hgk & Hpdf & Hsucc)]];
    try (elim (Hnot _ _ (Hf hf_token))).
  destruct (Hsucc hf_token) as (evs & Erun & _).
  rewrite Erun in Hrun.
  assert (Er : r = mk_result (PStr s) (markdown_list w ts) (markdown_list w ks)
                     (checked_report w pdf)
                     (if Py.truthy hf_token
                      then success_msg (OsPath.basename (upload_path file))
                             (Py.len text) (List.length ts) (List.length ks)
                           ++ save_confirmation
                      else success_msg (OsPath.basename (upload_path file))
                             (Py.len text) (List.length ts) (List.length ks)))
    by congruence.
  exists text, d, s, ts, ks. rewrite Er.
  repeat (split; [assumption || reflexivity|]). reflexivity.
Qed.

Lemma process_meeting_reports_counts_witness :
  exists text d s ts ks,
    obtain_text (Sample.world (Sample.fenced "```json") Sample.render_ok None)
      (upload_path (PathStr "/tmp/meeting.txt")) = Ret (Some text)
    /\ analyze_meeting (Sample.world (Sample.fenced "```json") Sample.render_ok None)
         text "sk-test" Sample.st0
       = (Ret (Some (PDict d)), after_request Sample.st0 "sk-test" text)
    /\ PyVal.dict_get d "summary" = Some (PStr s)
    /\ PyVal.dict_get d "topics" = Some (PList ts)
    /\ PyVal.dict_get d "keywords" = Some (PList ks)
    /\ PStr "Budget review" = PStr s
    /\ Py.join nl ["- A"; "- B"]
       = markdown_list (Sample.world (Sample.fenced "```json") Sample.render_ok None) ts
    /\ Py.join nl ["- x"; "- y"; "- z"]
       = markdown_list (Sample.world (Sample.fenced "```json") Sample.render_ok None) ks
    /\ success_msg "meeting.txt" 11 2 3
       = success_msg (OsPath.basename (upload_path (PathStr "/tmp/meeting.txt")))
           (Py.len text) (List.length ts) (List.length ks).
Proof.
  exact (process_meeting_reports_counts
           (Sample.world (Sample.fenced "```json") Sample.render_ok None)
           (PathStr "/tmp/meeting.txt") "sk-test" "" Sample.st0 _
           (mk_result (PStr "Budget review")
              (Py.join nl ["- A"; "- B"]) (Py.join nl ["- x"; "- y"; "- z"])
              (Some "/tmp/meeting_summary_20240101_000000.pdf")
              (success_msg "meeting.txt" 11 2 3))
           hello_world_run eq_refl).
Defined.

(** X3: the report path and the list of temporary files.  The path handed
    back is the one [generate_pdf] returned, and only when it is non-empty
    and names a regular file; it is then, and only then, appended to
    [_temp_files], which is otherwise left as it was. *)
Theorem process_meeting_tracks_report (w : World) (file : upload)
  (api_key hf_token : string) (st : state) :
  exists r st',
    process_meeting w file api_key hf_token st = (Ret r, st')
    /\ temp_files st' = (temp_files st ++ match r_pdf_path r with
                                          | Some p => [p]
                                          | None => []
                                          end)%list
    /\ (forall p, r_pdf_path r = Some p ->
          Py.truthy p = true /\ report_isfile w p = true
          /\ exists analysis, generate_pdf w analysis = Ret (Some p)).
Proof.
  assert (Hfail : forall reason st1,
             (st1 = st \/ exists text, st1 = after_request st api_key text) ->
             process_meeting w file api_key hf_token st = (Ret (failure reason), st1) ->
             exists r st',
               process_meeting w file api_key hf_token st = (Ret r, st')
               /\ temp_files st' = (temp_files st ++ match r_pdf_path r with
                                                     | Some p => [p]
                                                     | None => []
                                                     end)%list
               /\ (forall p, r_pdf_path r = Some p ->
                     Py.truthy p = true /\ report_isfile w p = true
                     /\ exists analysis, generate_pdf w analysis = Ret (Some p))).
  { intros reason st1 Hst E. exists (failure reason), st1. split; [exact E|].
    split; [|intros p Hp; discriminate Hp].
    cbn [r_pdf_path failure]. rewrite app_nil_r.
    destruct Hst as [->|[text ->]]; reflexivity. }
  destruct (early_failure w file api_key) as [reason|] eqn:He.
  { apply (Hfail reason st); [now left|].
    exact (process_meeting_early w file api_key reason He hf_token st). }
  destruct (process_meeting_shape w file api_key st He) as (text & Ho & Hshape).
  destruct Hshape as [[_ Hrun]|[(st1 & _ & Hst & Hrun)|(d & s & ts & ks & pdf & _ & _ & _ & _ & Hpdf & Hrun)]].
  - apply (Hfail "No text extracted from file" st); [now left | apply Hrun].
  - apply (Hfail "Analysis failed" st1); [|apply Hrun].
    destruct Hst as [->| ->]; [now left | right; now exists text].
  - destruct (Hrun hf_token) as (evs & Erun & _).
    eexists _, _. split; [exact Erun|]. cbn [r_pdf_path temp_files].
    split; [reflexivity|].
    intros p Hp. unfold checked_report in Hp.
    destruct pdf as [q|]; [|discriminate Hp].
    destruct (Py.truthy q) eqn:Hq; [|discriminate Hp].
    destruct (report_isfile w q) eqn:Hf; [|discriminate Hp].
    injection Hp as <-. split; [exact Hq|]. split; [exact Hf|].
    now exists (PDict d).
Qed.

(** X4: requests to the summarization service.  A run issues at most one
    request, made with the key given and the prompt built from the text that
    was obtained, and it comes before any archive event; with an empty key
    the run has no effect at all. *)
Theorem process_meeting_requests (w : World) (file : upload)
  (api_key hf_token : string) (st : state) :
  exists r st' evs,
    process_meeting w file api_key hf_token st = (Ret r, st')
    /\ trace st' = (trace st ++ evs)%list
    /\ (evs = []
        \/ exists text rest,
            obtain_text w (upload_path file) = Ret (Some text)
            /\ evs = ChatRequest api_key (build_prompt text) :: rest
            /\ Forall (fun ev => is_archive ev = true) rest)
    /\ (api_key = "" -> st' = st).
Proof.
  destruct (early_failure w file api_key) as [reason|] eqn:He.
  { exists (failure reason), st, [].
    split; [exact (process_meeting_early w file api_key reason He hf_token st)|].
    split; [now rewrite app_nil_r|]. split; [now left | reflexivity]. }
  destruct (process_meeting_late w file api_key He) as (text0 & _ & _ & Hk & _).
  assert (Hkey : api_key = "" -> False).
  { intros ->. discriminate Hk. }
  destruct (process_meeting_shape w file api_key st He) as (text & Ho & Hshape).
  destruct Hshape as [[_ Hrun]|[(st1 & _ & Hst & Hrun)|(d & s & ts & ks & pdf & _ & _ & _ & _ & _ & Hrun)]].
  - eexists _, st, []. split; [apply Hrun|].
    split; [now rewrite app_nil_r|]. split; [now left | reflexivity].
  - destruct Hst as [->| ->].
    + eexists _, st, []. split; [apply Hrun|].
      split; [now rewrite app_nil_r|]. split; [now left | reflexivity].
    + eexists _, _, [ChatRequest api_key (build_prompt text)].
      split; [apply Hrun|]. split; [reflexivity|].
      split; [|intros E; elim (Hkey E)].
      right. exists text, []. split; [exact Ho|]. split; [reflexivity | constructor].
  - destruct (Hrun hf_token) as (evs & Erun & Hevs).
    eexists _, _, (ChatRequest api_key (build_prompt text) :: evs).
    split; [exact Erun|].
    split; [unfold after_request; cbn [trace]; rewrite <- app_assoc; reflexivity|].
    split; [|intros E; elim (Hkey E)].
    right. exists text, evs. split; [exact Ho|]. split; [reflexivity|].
    destruct (Py.truthy hf_token).
    + destruct Hevs as (evs' & -> & F). constructor; [reflexivity | exact F].
    + subst evs. constructor.
Qed.

(** * Further facts: classification and extraction *)

Lemma isfile_exists (w : World) (p : string) :
  Os.isfile w p = true -> Os.exists_ w p = true.
Proof.
  unfold Os.isfile, Os.exists_. destruct (Os.lookup w p); [reflexivity | discriminate].
Qed.

Lemma str_in_app (x : string) (l1 l2 : list string) :
  str_in x (l1 ++ l2) = str_in x l1 || str_in x l2.
Proof. unfold str_in. apply existsb_app. Qed.

Lemma extract_text_unsupported (w : World) (p : string) :
  str_in (file_extension p) get_supported_extensions = false ->
  extract_text w p = Ret None.
Proof.
  intros H. unfold extract_text. fold (file_extension p).
  destruct (Os.exists_ w p); cbn [negb]; [|reflexivity].
  unfold str_in, get_supported_extensions in H. cbn [existsb] in H.
  rewrite orb_false_r in H.
  apply orb_false_iff in H. destruct H as [H1 H].
  apply orb_false_iff in H. destruct H as [H2 H3].
  now rewrite H1, H2, H3.
Qed.

(** X5: the name and the path agree on the kind of a file.
    [process_meeting] classifies by the base name and [extract_text]
    dispatches on the whole path: both see the same extension, and no
    extension is at once an audio and a document extension. *)
Theorem classification_agrees (p : string) :
  file_extension (OsPath.basename p) = file_extension p
  /\ is_audio_file (OsPath.basename p) = is_audio_file p
  /\ (is_audio_file p = true ->
      str_in (file_extension p) get_supported_extensions = false).
Proof.
  split; [apply file_extension_basename|].
  split; [apply is_audio_file_basename|].
  rewrite is_audio_file_extension, str_in_In.
  unfold get_supported_audio_extensions. simpl.
  intros [<-|[<-|[<-|[<-|[<-|[]]]]]]; reflexivity.
Qed.

(** X6: a file of no recognised kind.  For an existing regular file whose
    extension is neither an audio nor a document extension, and a non-empty
    key, the request fails at the extraction stage and has no effect. *)
Theorem unsupported_extension_fails (w : World) (file : upload)
  (api_key hf_token : string) (st : state) :
  Os.isfile w (upload_path file) = true ->
  api_key <> "" ->
  str_in (file_extension (upload_path file))
    (get_supported_extensions ++ get_supported_audio_extensions) = false ->
  process_meeting w file api_key hf_token st
  = (Ret (failure "Text extraction failed"), st).
Proof.
  intros Hfile Hk Hext.
  rewrite str_in_app in Hext. apply orb_false_iff in Hext. destruct Hext as [Hdoc Haud].
  apply process_meeting_early.
  unfold early_failure, obtain_text, obtain_stage.
  rewrite (exists_upload_truthy _ _ (isfile_exists _ _ Hfile)).
  rewrite (proj2 (truthy_true _) Hk), (isfile_exists _ _ Hfile), Hfile.
  rewrite is_audio_file_basename, is_audio_file_extension, Haud.
  rewrite (extract_text_unsupported _ _ Hdoc). reflexivity.
Qed.

Lemma unsupported_extension_fails_witness :
  process_meeting (Demo.world "hello" [] None) (PathStr "/tmp/notes.xyz")
    "sk-test" "hf_token" Sample.st0
  = (Ret (failure "Text extraction failed"), Sample.st0).
Proof.
  apply (unsupported_extension_fails (Demo.world "hello" [] None)
           (PathStr "/tmp/notes.xyz") "sk-test" "hf_token" Sample.st0).
  - reflexivity.
  - discriminate.
  - reflexivity.
Defined.

Lemma transcribe_audio_some (w : World) (p language t : string) :
  transcribe_audio w p language = Ret (Some t) ->
  exists whisper audio raw,
    librosa w = Some whisper
    /\ Os.open_read w p = Ret audio
    /\ whisper audio language = Ret raw
    /\ t = Py.strip raw.
Proof.
  unfold transcribe_audio.
  destruct (Os.exists_ w p); cbn [negb]; [|discriminate].
  destruct (librosa w) as [whisper|]; [|discriminate].
  destruct (Os.open_read w p) as [audio|e]; [|discriminate].
  cbn [bind try_except].
  destruct (whisper audio language) as [raw|e] eqn:Hw; [|discriminate].
  cbn. intros H. injection H as <-. exists whisper, audio, raw. auto.
Qed.


Lemma extract_from_pdf_stripped (w : World) (p t : string) :
  _extract_from_pdf w p = Ret t -> Py.strip t = t.
Proof.
  unfold _extract_from_pdf.
  destruct (PyPDF2 w) as [reader|]; [|discriminate].
  destruct (Os.open_read w p) as [data|e]; [|discriminate]. cbn [bind].
  destruct (reader data) as [pages|e]; [|discriminate]. cbn [bind].
  destruct (pdf_pages_loop pages "") as [text|e]; [|discriminate]. cbn [bind].
  intros H. injection H as <-. apply strip_idempotent.
Qed.

Lemma extract_from_docx_stripped (w : World) (p t : string) :
  _extract_from_docx w p = Ret t -> Py.strip t = t.
Proof.
  unfold _extract_from_docx.
  destruct (Document w) as [doc|]; [|discriminate].
  destruct (Os.open_read w p) as [data|e]; [|discriminate]. cbn [bind].
  destruct (doc data) as [paragraphs|e]; [|discriminate]. cbn [bind].
  intros H. injection H as <-. apply strip_idempotent.
Qed.

(** X8: text is returned only for a regular file with one of the three
    document extensions, and it is what the decoder of that format returned;
    for .pdf and .docx it has no white space at either end. *)
Theorem extract_text_some (w : World) (file_path t : string) :
  extract_text w file_path = Ret (Some t) ->
  Os.isfile w file_path = true
  /\ In (file_extension file_path) get_supported_extensions
  /\ ((file_extension file_path = ".txt" /\ _extract_from_txt w file_path = Ret t)
      \/ (file_extension file_path = ".pdf" /\ _extract_from_pdf w file_path = Ret t
          /\ Py.strip t = t)
      \/ (file_extension file_path = ".docx" /\ _extract_from_docx w file_path = Ret t
          /\ Py.strip t = t)).
Proof.
  intros H.
  assert (Hfile : Os.isfile w file_path = true).
  { apply (obtain_text_isfile w file_path t). unfold obtain_text.
    destruct (is_audio_file (OsPath.basename file_path)) eqn:Ha; [|exact H].
    exfalso. rewrite is_audio_file_basename in Ha.
    destruct (classification_agrees file_path) as (_ & _ & Hdis).
    rewrite (extract_text_unsupported _ _ (Hdis Ha)) in H. discriminate H. }
  split; [exact Hfile|].
  revert H. unfold extract_text. fold (file_extension file_path).
  rewrite (isfile_exists _ _ Hfile). cbn [negb].
  unfold get_supported_extensions.
  destruct (String.eqb_spec (file_extension file_path) ".txt") as [E|_].
  { destruct (_extract_from_txt w file_path) as [x|e] eqn:Hx; [|discriminate].
    cbn. intros H. injection H as <-. rewrite E. simpl. auto. }
  destruct (String.eqb_spec (file_extension file_path) ".pdf") as [E|_].
  { destruct (_extract_from_pdf w file_path) as [x|e] eqn:Hx; [|discriminate].
    cbn. intros H. injection H as <-. rewrite E. split; [simpl; auto|].
    right; left. split; [reflexivity|]. split; [reflexivity|].
    exact (extract_from_pdf_stripped _ _ _ Hx). }
  destruct (String.eqb_spec (file_extension file_path) ".docx") as [E|_].
  { destruct (_extract_from_docx w file_path) as [x|e] eqn:Hx; [|discriminate].
    cbn. intros H. injection H as <-. rewrite E. split; [simpl; auto|].
    right; right. split; [reflexivity|]. split; [reflexivity|].
    exact (extract_from_docx_stripped _ _ _ Hx). }
  discriminate.
Qed.

Lemma extract_text_some_witness :
  Os.isfile (Demo.world "hello" [Ret " Page one "; Ret "Page two"] None)
    "/tmp/scan.pdf" = true
  /\ In (file_extension "/tmp/scan.pdf") get_supported_extensions
  /\ ((file_extension "/tmp/scan.pdf" = ".txt"
       /\ _extract_from_txt (Demo.world "hello" [Ret " Page one "; Ret "Page two"] None)
            "/tmp/scan.pdf" = Ret ("Page one " ++ nl ++ "Page two"))
      \/ (file_extension "/tmp/scan.pdf" = ".pdf"
          /\ _extract_from_pdf (Demo.world "hello" [Ret " Page one "; Ret "Page two"] None)
               "/tmp/scan.pdf" = Ret ("Page one " ++ nl ++ "Page two")
          /\ Py.strip ("Page one " ++ nl ++ "Page two") = "Page one " ++ nl ++ "Page two")
      \/ (file_extension "/tmp/scan.pdf" = ".docx"
          /\ _extract_from_docx (Demo.world "hello" [Ret " Page one "; Ret "Page two"] None)
               "/tmp/scan.pdf" = Ret ("Page one " ++ nl ++ "Page two")
          /\ Py.strip ("Page one " ++ nl ++ "Page two") = "Page one " ++ nl ++ "Page two")).
Proof.
  apply (extract_text_some (Demo.world "hello" [Ret " Page one "; Ret "Page two"] None)
           "/tmp/scan.pdf" ("Page one " ++ nl ++ "Page two")).
  vm_compute. reflexivity.
Defined.

Lemma pdf_pages_loop_failure (good : list string) (e : exn)
  (rest : list (outcome string)) (text : string) :
  pdf_pages_loop (map Ret good ++ Raise e :: rest) text = Raise e.
Proof.
  revert text. induction good as [|t good IH]; intros text; [reflexivity|].
  cbn [map app pdf_pages_loop bind]. apply IH.
Qed.

(** X9: no partial text from a PDF.  When the extraction of one page raises,
    whatever the pages before it gave, [_extract_from_pdf] raises and
    [extract_text] returns [None]. *)
Theorem pdf_page_failure_discards_all (w : World) (file_path : string)
  (PdfReader : string -> outcome (list (outcome string))) (data : string)
  (good : list string) (e : exn) (rest : list (outcome string)) :
  file_extension file_path = ".pdf" ->
  PyPDF2 w = Some PdfReader ->
  Os.open_read w file_path = Ret data ->
  PdfReader data = Ret (map Ret good ++ Raise e :: rest)%list ->
  _extract_from_pdf w file_path = Raise e
  /\ extract_text w file_path = Ret None.
Proof.
  intros Hext Hp Ho Hr.
  assert (E : _extract_from_pdf w file_path = Raise e).
  { unfold _extract_from_pdf. rewrite Hp, Ho. cbn [bind]. rewrite Hr. cbn [bind].
    now rewrite pdf_pages_loop_failure. }
  split; [exact E|].
  unfold extract_text. fold (file_extension file_path).
  rewrite (proj1 (open_read_isfile _ _ _ Ho)), Hext, E. reflexivity.
Qed.

Lemma pdf_page_failure_discards_all_witness :
  _extract_from_pdf
    (Demo.world "hello" [Ret "Page one"; Raise (mk_exn OtherException "bad page"); Ret "Page three"] None)
    "/tmp/scan.pdf" = Raise (mk_exn OtherException "bad page")
  /\ extract_text
       (Demo.world "hello" [Ret "Page one"; Raise (mk_exn OtherException "bad page"); Ret "Page three"] None)
       "/tmp/scan.pdf" = Ret None.
Proof.
  apply (pdf_page_failure_discards_all
           (Demo.world "hello" [Ret "Page one"; Raise (mk_exn OtherException "bad page"); Ret "Page three"] None)
           "/tmp/scan.pdf"
           (fun _ => Ret [Ret "Page one"; Raise (mk_exn OtherException "bad page"); Ret "Page three"])
           "%PDF" ["Page one"] (mk_exn OtherException "bad page") [Ret "Page three"]);
    reflexivity.
Defined.

(** X10: Latin-1 decides.  The Latin-1 codec decodes every sequence of
    bytes, so the loop of [_extract_from_txt] ends at its second encoding at
    the latest.  For a readable file whose UTF-8 decoding can fail only with
    [UnicodeDecodeError], the function does not raise: it returns the UTF-8
    text when there is one and the Latin-1 text otherwise.  The attempt with
    Windows-1252 and the last attempt with [errors='replace'] are never
    reached, and what those would give has no part in the result. *)
Theorem extract_from_txt_latin1_decides (w : World) (file_path data : string) :
  Os.open_read w file_path = Ret data ->
  (forall e, decode w "utf-8" false data = Raise e ->
             is_class UnicodeDecodeError e = true) ->
  (exists t, decode w "latin-1" false data = Ret t) ->
  exists t,
    _extract_from_txt w file_path = Ret t
    /\ (decode w "utf-8" false data = Ret t
        \/ ((exists e, decode w "utf-8" false data = Raise e)
            /\ decode w "latin-1" false data = Ret t)).
Proof.
  intros Hopen Hutf [t1 Hlat].
  unfold _extract_from_txt. cbv zeta. cbn [try_encodings]. unfold read_text.
  rewrite Hopen. cbn [bind].
  destruct (decode w "utf-8" false data) as [t|e] eqn:Hd.
  - exists t. split; [reflexivity | now left].
  - rewrite (Hutf e eq_refl), Hlat. cbn [bind].
    exists t1. split; [reflexivity|]. right. split; [now exists e | reflexivity].
Qed.

Lemma extract_from_txt_latin1_decides_witness :
  exists t,
    _extract_from_txt (Demo.world "" [] None) "/tmp/cafe.txt" = Ret t
    /\ (decode (Demo.world "" [] None) "utf-8" false Demo.cafe = Ret t
        \/ ((exists e, decode (Demo.world "" [] None) "utf-8" false Demo.cafe = Raise e)
            /\ decode (Demo.world "" [] None) "latin-1" false Demo.cafe = Ret t))
    /\ t = Demo.cafe_text.
Proof.
  destruct (extract_from_txt_latin1_decides (Demo.world "" [] None)
              "/tmp/cafe.txt" Demo.cafe) as (t & Ht & Hd).
  - reflexivity.
  - intros e H. vm_compute in H. injection H as <-. reflexivity.
  - eexists. vm_compute. reflexivity.
  - exists t. split; [exact Ht|]. split; [exact Hd|].
    vm_compute in Ht. injection Ht as <-. reflexivity.
Defined.

(** * Further facts: blank text *)

(** X11: the message [No text extracted from file] is specific to text
    files.  The texts of the other formats come back stripped, so a blank
    one is empty and is reported by the stage that produced it; only a .txt
    file made of white space reaches the check of line 93, and the request
    then ends before the analysis, without any effect. *)
Theorem blank_text_is_txt (w : World) (file : upload) (api_key hf_token : string)
  (st st' : state) (r : result) :
  process_meeting w file api_key hf_token st = (Ret r, st') ->
  r_message r = r_message (failure "No text extracted from file") ->
  st' = st
  /\ file_extension (upload_path file) = ".txt"
  /\ exists text,
       _extract_from_txt w (upload_path file) = Ret text
       /\ Py.truthy text = true /\ Py.all_space text.
Proof.
  intros Hrun Hmsg.
  destruct (early_failure w file api_key) as [reason|] eqn:He.
  { exfalso.
    rewrite (process_meeting_early w file api_key reason He hf_token st) in Hrun.
    injection Hrun as <- _. apply failure_message_inj in Hmsg. subst reason.
    apply early_failure_reasons in He. simpl in He.
    repeat (destruct He as [He|He]; [discriminate He|]). exact He. }
  destruct (process_meeting_late w file api_key He) as (text0 & Ho0 & Ht0 & _ & _).
  destruct (process_meeting_shape w file api_key st He) as (text & Ho & Hshape).
  rewrite Ho0 in Ho. injection Ho as <-.
  destruct Hshape as [[Hb Hf]|[(st1 & _ & _ & Hf)|(d & s & ts & ks & pdf & _ & _ & _ & _ & _ & Hsucc)]].
  - rewrite Hf in Hrun. injection Hrun as _ <-. split; [reflexivity|].
    assert (Hns : forall t, Py.strip t = t -> t = text0 -> False).
    { intros t Hs ->. rewrite Hs, Ht0 in Hb. discriminate Hb. }
    unfold obtain_text in Ho0.
    destruct (is_audio_file (OsPath.basename (upload_path file))).
    { exfalso.
      destruct (transcribe_audio_some _ _ _ _ Ho0) as (_ & _ & raw & _ & _ & _ & E).
      apply (Hns text0); [|reflexivity]. rewrite E. apply strip_idempotent. }
    destruct (extract_text_some _ _ _ Ho0) as (_ & _ & [[E X]|[(_ & _ & S)|(_ & _ & S)]]).
    + split; [exact E|]. exists text0. split; [exact X|]. split; [exact Ht0|].
      apply strip_empty_iff. apply truthy_false. exact Hb.
    + elim (Hns text0 S eq_refl).
    + elim (Hns text0 S eq_refl).
  - exfalso. rewrite Hf in Hrun. injection Hrun as <- _.
    apply failure_message_inj in Hmsg. discriminate Hmsg.
  - exfalso. destruct (Hsucc hf_token) as (evs & Erun & _).
    rewrite Erun in Hrun.
    assert (Er : r_message r
                 = (if Py.truthy hf_token
                    then success_msg (OsPath.basename (upload_path file))
                           (Py.len text0) (List.length ts) (List.length ks)
                         ++ save_confirmation
                    else success_msg (OsPath.basename (upload_path file))
                           (Py.len text0) (List.length ts) (List.length ks))).
    { injection Hrun as <- _. reflexivity. }
    pose proof (success_msg_prefix (OsPath.basename (upload_path file))
                  (Py.len text0) (List.length ts) (List.length ks) hf_token) as P.
    rewrite <- Er, Hmsg, failure_not_success in P. discriminate P.
Qed.

Lemma blank_text_is_txt_witness :
  Sample.st0 = Sample.st0
  /\ file_extension (upload_path (PathStr "/tmp/blank.txt")) = ".txt"
  /\ exists text,
       _extract_from_txt (Demo.world "hello" [] None)
         (upload_path (PathStr "/tmp/blank.txt")) = Ret text
       /\ Py.truthy text = true /\ Py.all_space text.
Proof.
  apply (blank_text_is_txt (Demo.world "hello" [] None) (PathStr "/tmp/blank.txt")
           "sk-test" "" Sample.st0 Sample.st0
           (failure "No text extracted from file")).
  - vm_compute. reflexivity.
  - reflexivity.
Defined.

(** X12: a transcription made of white space only is reported as a failed
    transcription, before any request to the summarization service. *)
Theorem blank_transcription_fails (w : World) (file : upload)
  (api_key hf_token : string) (st : state)
  (whisper : string -> string -> outcome string) (audio raw : string) :
  is_audio_file (upload_path file) = true ->
  api_key <> "" ->
  librosa w = Some whisper ->
  Os.open_read w (upload_path file) = Ret audio ->
  whisper audio "en" = Ret raw ->
  Py.all_space raw ->
  process_meeting w file api_key hf_token st
  = (Ret (failure "Transcription failed"), st).
Proof.
  intros Ha Hk Hl Ho Hw Hraw.
  destruct (open_read_isfile _ _ _ Ho) as [Hex Hfile].
  apply process_meeting_early.
  unfold early_failure, obtain_text, obtain_stage.
  rewrite (exists_upload_truthy _ _ Hex), (proj2 (truthy_true _) Hk), Hex, Hfile.
  rewrite is_audio_file_basename, Ha.
  unfold transcribe_audio. rewrite Hex, Hl, Ho. cbn [negb bind try_except].
  rewrite Hw. cbn [bind]. rewrite (strip_all_space _ Hraw). reflexivity.
Qed.

Lemma blank_transcription_fails_witness :
  process_meeting (Demo.world "   " [] None) (PathStr "/tmp/silence.wav")
    "sk-test" "" Sample.st0
  = (Ret (failure "Transcription failed"), Sample.st0).
Proof.
  apply (blank_transcription_fails (Demo.world "   " [] None)
           (PathStr "/tmp/silence.wav") "sk-test" "" Sample.st0
           (fun _ _ => Ret "   ") "RIFF" "   ").
  - reflexivity.
  - discriminate.
  - reflexivity.
  - reflexivity.
  - reflexivity.
  - repeat (apply Py.tiled_1; [reflexivity|]). apply Py.tiled_nil.
Defined.

(** * Further facts about [analyze_meeting] *)

Lemma solid_first (a : ascii) :
  solid a = true ->
  Py.space1 a = false /\ (forall b, Py.space2 a b = false)
  /\ (forall b c, Py.space3 a b c = false).
Proof.
  unfold solid. intros H. apply andb_true_iff in H. destruct H as [Hlt Hs].
  apply Nat.ltb_lt in Hlt. apply negb_true_iff in Hs.
  split; [exact Hs|]. split.
  - intros b. unfold Py.space2.
    destruct (Nat.eqb_spec (nat_of_ascii a) 194); [lia | reflexivity].
  - intros b c. unfold Py.space3.
    destruct (Nat.eqb_spec (nat_of_ascii a) 225); [lia|].
    destruct (Nat.eqb_spec (nat_of_ascii a) 226); [lia|].
    destruct (Nat.eqb_spec (nat_of_ascii a) 227); [lia|].
    reflexivity.
Qed.

Lemma solid_last (a : ascii) :
  solid a = true ->
  Py.space1 a = false /\ (forall b, Py.space2 b a = false)
  /\ (forall b c, Py.space3 c b a = false).
Proof.
  unfold solid. intros H. apply andb_true_iff in H. destruct H as [Hlt Hs].
  apply Nat.ltb_lt in Hlt. apply negb_true_iff in Hs.
  split; [exact Hs|]. split.
  - intros b. unfold Py.space2.
    destruct (Nat.eqb_spec (nat_of_ascii a) 133); [lia|].
    destruct (Nat.eqb_spec (nat_of_ascii a) 160); [lia|].
    apply andb_false_r.
  - intros b c. unfold Py.space3.
    destruct (Nat.eqb_spec (nat_of_ascii a) 128); [lia|].
    destruct (Nat.eqb_spec (nat_of_ascii a) 159); [lia|].
    destruct (Nat.eqb_spec (nat_of_ascii a) 168); [lia|].
    destruct (Nat.eqb_spec (nat_of_ascii a) 169); [lia|].
    destruct (Nat.eqb_spec (nat_of_ascii a) 175); [lia|].
    destruct (Nat.leb_spec 128 (nat_of_ascii a)); [lia|].
    cbn [andb orb]. now rewrite !andb_false_r.
Qed.

(** White space around a body that begins and ends with solid bytes is all
    that [strip] removes. *)
Lemma strip_around_solid (lead mid trail : string) (a b : ascii) :
  solid a = true -> solid b = true ->
  Py.all_space lead -> Py.all_space trail ->
  Py.strip (lead ++ String a (mid ++ String b "") ++ trail)
  = String a (mid ++ String b "").
Proof.
  intros Ha Hb Hl Ht.
  destruct (solid_first a Ha) as (A1 & A2 & A3).
  destruct (solid_last b Hb) as (B1 & B2 & B3).
  unfold Py.strip, Py.lstrip.
  rewrite (strip_front_tiled_append _ _ _ space2_excl space3_excl _ _ Hl).
  cbn [append].
  rewrite strip_front_fixed; [| exact A1 | exact A2 | exact A3].
  unfold Py.rstrip.
  change (String a ((mid ++ String b "") ++ trail))
    with (String a (mid ++ String b "") ++ trail).
  rewrite rev_append.
  rewrite (strip_front_tiled_append _ _ _ space2_excl_rev space3_excl_rev _ _
             (all_space_rev _ Ht)).
  rewrite rev_cons, rev_append. cbn [Py.rev Py.rev_onto append].
  rewrite strip_front_fixed; [| exact B1 | exact B2 | exact B3].
  change (String b (Py.rev mid ++ String a ""))
    with (String b "" ++ (Py.rev mid ++ String a "")).
  rewrite rev_append, rev_append, rev_involutive.
  cbn [Py.rev Py.rev_onto append]. reflexivity.
Qed.

Lemma drop_app_short (n : nat) (x y : string) :
  n <= String.length x -> Py.drop n (x ++ y) = Py.drop n x ++ y.
Proof.
  revert x. induction n as [|n IH]; intros x H; [reflexivity|].
  destruct x as [|c x]; [simpl in H; lia|].
  simpl. apply IH. simpl in H. lia.
Qed.

Lemma append_last_neq (x y : string) (c d : ascii) :
  c <> d -> x ++ String c "" <> y ++ String d "".
Proof.
  intros N E. apply (f_equal Py.rev) in E.
  rewrite !rev_append in E. cbn in E. injection E as E _. now apply N.
Qed.

(** A JSON object text is not touched by the removal of fence markers. *)
Lemma clean_content_object (mid : string) :
  clean_content (String open_brace (mid ++ String close_brace ""))
  = String open_brace (mid ++ String close_brace "").
Proof.
  unfold clean_content.
  change (Py.startswith "```json" (String open_brace (mid ++ String close_brace "")))
    with false.
  cbv iota.
  unfold Py.endswith.
  destruct (Nat.leb_spec (String.length "```")
              (String.length (String open_brace (mid ++ String close_brace ""))))
    as [L|L]; [|reflexivity].
  cbn [andb].
  change (String open_brace (mid ++ String close_brace ""))
    with (String open_brace mid ++ String close_brace "") at 2.
  rewrite drop_app_short.
  2:{ change (String open_brace (mid ++ String close_brace ""))
        with (String open_brace mid ++ String close_brace "") in L |- *.
      rewrite length_append in L |- *. simpl in L |- *. lia. }
  match goal with
  | |- context [String.eqb ?u ?v] => destruct (String.eqb_spec u v) as [E|_]
  end; [|reflexivity].
  exfalso. revert E.
  change "```" with ("``" ++ String back_quote "").
  apply append_last_neq. discriminate.
Qed.

(** X13: the answer the prompt asks for.  A response that is, up to
    surrounding white space, the text of a JSON object with the three typed
    keys and no fence marker is decoded as it stands and returned. *)
Theorem analyze_meeting_plain_json (w : World) (text api_key : string) (st : state)
  (create : string -> string -> outcome (option string))
  (lead mid trail : string) (v : pyval) :
  ~ Py.all_space text ->
  api_key <> "" ->
  OpenAI w = Some create ->
  Py.all_space lead ->
  Py.all_space trail ->
  create api_key (build_prompt text)
    = Ret (Some (lead ++ String open_brace (mid ++ String close_brace "") ++ trail)) ->
  json_loads w (String open_brace (mid ++ String close_brace "")) = Ret v ->
  well_formed v ->
  analyze_meeting w text api_key st = (Ret (Some v), after_request st api_key text).
Proof.
  intros Ht Hk Ho Hl Hr Hc Hd Hv.
  rewrite (analyze_meeting_checked w text api_key st create
             (not_all_space_truthy _ Ht) (proj2 (truthy_true _) Hk) Ho).
  rewrite Hc. cbn [bind].
  rewrite (handle_response_well_formed w _ v); [reflexivity | | exact Hv].
  rewrite strip_around_solid by (assumption || reflexivity).
  rewrite clean_content_object. exact Hd.
Qed.

Lemma analyze_meeting_plain_json_witness :
  analyze_meeting (Sample.world (nl ++ Sample.payload ++ " ") Sample.render_ok None)
    "Hello world" "sk-test" Sample.st0
  = (Ret (Some Sample.analysis), after_request Sample.st0 "sk-test" "Hello world").
Proof.
  apply (analyze_meeting_plain_json
           (Sample.world (nl ++ Sample.payload ++ " ") Sample.render_ok None)
           "Hello world" "sk-test" Sample.st0
           (fun _ _ => Ret (Some (nl ++ Sample.payload ++ " ")))
           nl (Py.drop_last 1 (Py.drop 1 Sample.payload)) " " Sample.analysis).
  - exact hello_not_all_space.
  - discriminate.
  - reflexivity.
  - apply Py.tiled_1; [reflexivity | apply Py.tiled_nil].
  - apply Py.tiled_1; [reflexivity | apply Py.tiled_nil].
  - vm_compute. reflexivity.
  - vm_compute. reflexivity.
  - exact sample_analysis_well_formed.
Defined.

(** X14: a result of [analyze_meeting] can always be displayed.  It is a
    non-empty dictionary in the state that follows the one request, and
    [format_analysis_for_display] neither raises on it nor takes the
    placeholder branch: it returns the summary string and the two bulleted
    lists of the result. *)
Theorem analysis_is_displayable (w : World) (text api_key : string)
  (st st1 : state) (analysis : pyval) :
  analyze_meeting w text api_key st = (Ret (Some analysis), st1) ->
  st1 = after_request st api_key text
  /\ PyVal.truthy analysis = true
  /\ exists d s ts ks,
       analysis = PDict d
       /\ PyVal.dict_get d "summary" = Some (PStr s)
       /\ PyVal.dict_get d "topics" = Some (PList ts)
       /\ PyVal.dict_get d "keywords" = Some (PList ks)
       /\ format_analysis_for_display w analysis
          = Ret (mk_display (PStr s) (markdown_list w ts) (markdown_list w ks)).
Proof.
  intros Ha.
  destruct (analyze_meeting_total w text api_key st) as (r & st2 & E & _ & Hsome).
  rewrite E in Ha. injection Ha as -> ->.
  destruct (Hsome analysis eq_refl) as ((d & s & ts & ks & -> & Hs & Ht & Hk) & -> & _ & _).
  split; [reflexivity|].
  split; [destruct d; [discriminate Hs | reflexivity]|].
  exists d, s, ts, ks. repeat (split; [assumption || reflexivity|]).
  apply format_well_formed; assumption.
Qed.

Lemma analysis_is_displayable_witness :
  after_request Sample.st0 "sk-test" "Hello world"
  = after_request Sample.st0 "sk-test" "Hello world"
  /\ PyVal.truthy Sample.analysis = true
  /\ exists d s ts ks,
       Sample.analysis = PDict d
       /\ PyVal.dict_get d "summary" = Some (PStr s)
       /\ PyVal.dict_get d "topics" = Some (PList ts)
       /\ PyVal.dict_get d "keywords" = Some (PList ks)
       /\ format_analysis_for_display
            (Sample.world Sample.payload Sample.render_ok None) Sample.analysis
          = Ret (mk_display (PStr s)
                   (markdown_list (Sample.world Sample.payload Sample.render_ok None) ts)
                   (markdown_list (Sample.world Sample.payload Sample.render_ok None) ks)).
Proof.
  apply (analysis_is_displayable (Sample.world Sample.payload Sample.render_ok None)
           "Hello world" "sk-test" Sample.st0).
  vm_compute. reflexivity.
Defined.

(** * utils/data_persistence.py *)

Ltac hub_state :=
  unfold extend; cbn [trace temp_files app];
  rewrite <- ?app_assoc; cbn [app]; try reflexivity.

Ltac hub_run :=
  cbv [save_meeting_to_dataset load_meetings_from_dataset
       _get_or_create_dataset bindM try_exceptM emit liftM retM].

Ltac hub_step :=
  cbv beta iota zeta;
  match goal with
  | |- context [login ?h ?t] => destruct (login h t) as [[]|?] eqn:?
  | |- context [_prepare_meeting_record ?w ?m] =>
      destruct (_prepare_meeting_record w m) eqn:?
  | |- context [from_hub ?h ?n] => destruct (from_hub h n) eqn:?
  | |- context [from_dict_empty ?h] => destruct (from_dict_empty h) eqn:?
  | |- context [from_list ?h ?l] => destruct (from_list h l) eqn:?
  | |- context [push_to_hub ?h ?d ?n ?t] => destruct (push_to_hub h d n t) as [[]|?] eqn:?
  end.

Lemma get_or_create_dataset_run (hub : Hub) (st : state) :
  _get_or_create_dataset hub st = (Ret (obtained hub), extend st [HubFetch DATASET_NAME]).
Proof.
  hub_run. unfold obtained. repeat hub_step; reflexivity.
Qed.

(** The run of [save_meeting_to_dataset] past its two guards. *)
Lemma save_meeting_to_dataset_run (w : World) (meeting_data : pyval)
  (hf_token : string) (st : state) (hub : Hub) :
  PyVal.truthy meeting_data = true ->
  datasets w = Some hub ->
  save_meeting_to_dataset w meeting_data hf_token st
  = match _prepare_meeting_record w meeting_data with
    | Raise _ =>
        (Ret false,
         extend st (ArchiveCall meeting_data hf_token
                    :: (if Py.truthy hf_token then [HubLogin hf_token] else [])))
    | Ret meeting_record =>
        match obtained hub with
        | None =>
            (Ret false,
             extend st (ArchiveCall meeting_data hf_token
                        :: (if Py.truthy hf_token then [HubLogin hf_token] else [])
                           ++ [HubFetch DATASET_NAME]))
        | Some old =>
            match from_list hub (old ++ [meeting_record]) with
            | Raise _ =>
                (Ret false,
                 extend st (ArchiveCall meeting_data hf_token
                            :: (if Py.truthy hf_token then [HubLogin hf_token] else [])
                               ++ [HubFetch DATASET_NAME]))
            | Ret _ =>
                (Ret true,
                 extend st (ArchiveCall meeting_data hf_token :: save_events hf_token))
            end
        end
    end.
Proof.
  intros Hd Hh. hub_run. rewrite Hd, Hh. unfold obtained, save_events.
  destruct (Py.truthy hf_token); repeat hub_step;
    cbv beta iota zeta; cbn [negb]; cbv beta iota; hub_state.
Qed.

(** X15: when a save counts as done.  [save_meeting_to_dataset] returns
    [True] exactly when the data is non-empty, the dataset libraries are
    present, the record could be built, a collection was obtained (the
    remote one, or the empty one when the remote could not be fetched) and
    the collection extended by the record at its end was accepted.  Neither
    the log-in nor the upload has a say: a failure of either is only logged. *)
Theorem save_meeting_to_dataset_true_iff (w : World) (meeting_data : pyval)
  (hf_token : string) (st : state) :
  fst (save_meeting_to_dataset w meeting_data hf_token st) = Ret true
  <-> PyVal.truthy meeting_data = true
      /\ exists hub meeting_record old new_dataset,
           datasets w = Some hub
           /\ _prepare_meeting_record w meeting_data = Ret meeting_record
           /\ (from_hub hub DATASET_NAME = Ret old
               \/ (exists e, from_hub hub DATASET_NAME = Raise e)
                  /\ from_dict_empty hub = Ret old)
           /\ from_list hub (old ++ [meeting_record]) = Ret new_dataset.
Proof.
  destruct (PyVal.truthy meeting_data) eqn:Hd.
  2:{ unfold save_meeting_to_dataset, bindM, emit. rewrite Hd. cbn.
      split; [discriminate | intros [H _]; discriminate H]. }
  destruct (datasets w) as [hub|] eqn:Hh.
  2:{ unfold save_meeting_to_dataset, bindM, emit. rewrite Hd, Hh. cbn.
      split; [discriminate | intros (_ & hub & ? & ? & ? & H & _); discriminate H]. }
  rewrite (save_meeting_to_dataset_run w meeting_data hf_token st hub Hd Hh).
  assert (Hob : forall old, obtained hub = Some old
                  <-> (from_hub hub DATASET_NAME = Ret old
                       \/ (exists e, from_hub hub DATASET_NAME = Raise e)
                          /\ from_dict_empty hub = Ret old)).
  { intros old. unfold obtained.
    destruct (from_hub hub DATASET_NAME) as [d|e].
    - split.
      + intros H. injection H as ->. now left.
      + intros [H|[[e He] _]]; [now injection H as -> | discriminate He].
    - destruct (from_dict_empty hub) as [d|e'].
      + split.
        * intros H. injection H as ->. right. split; [now exists e | reflexivity].
        * intros [H|[_ H]]; [discriminate H | now injection H as ->].
      + split; [discriminate|]. intros [H|[_ H]]; discriminate H. }
  split.
  - intros H. split; [reflexivity|].
    destruct (_prepare_meeting_record w meeting_data) as [rec|e]; [|discriminate H].
    destruct (obtained hub) as [old|] eqn:Ho; [|discriminate H].
    destruct (from_list hub (old ++ [rec])) as [new|e] eqn:Hl; [|discriminate H].
    exists hub, rec, old, new. repeat split; try reflexivity; [|exact Hl].
    now apply Hob.
  - intros (_ & hub' & rec & old & new & Hh' & Hp & Ho & Hl).
    injection Hh' as <-. rewrite Hp. apply Hob in Ho. rewrite Ho, Hl. reflexivity.
Qed.

(** The calls of a save, where an event marks a call being reached: a
    beginning of the sequence log-in, fetch, upload, complete whenever
    [True] is returned. *)
Lemma save_meeting_to_dataset_trace (w : World) (meeting_data : pyval)
  (hf_token : string) (st : state) :
  exists b evs,
    save_meeting_to_dataset w meeting_data hf_token st
    = (Ret b, extend st (ArchiveCall meeting_data hf_token :: evs))
    /\ (exists rest, save_events hf_token = (evs ++ rest)%list)
    /\ (b = true -> evs = save_events hf_token)
    /\ (In (HubPush DATASET_NAME hf_token) evs <-> b = true /\ hf_token <> "")
    /\ (hf_token = "" -> evs = [] \/ evs = [HubFetch DATASET_NAME])
    /\ (PyVal.truthy meeting_data = false \/ datasets w = None -> evs = []).
Proof.
  assert (Hguard : PyVal.truthy meeting_data = false \/ datasets w = None ->
            save_meeting_to_dataset w meeting_data hf_token st
            = (Ret false, extend st [ArchiveCall meeting_data hf_token])).
  { intros [H|H]; unfold save_meeting_to_dataset, bindM, emit; rewrite H;
      [reflexivity | destruct (PyVal.truthy meeting_data); reflexivity]. }
  assert (Htok : Py.truthy hf_token = true <-> hf_token <> "").
  { destruct hf_token; cbn; split; intros; congruence. }
  destruct (PyVal.truthy meeting_data) eqn:Hd.
  2:{ exists false, []. rewrite Hguard by now left.
      split; [reflexivity|]. split; [now exists (save_events hf_token)|].
      split; [discriminate|].
      split; [split; [intros [] | intros [H _]; discriminate H]|].
      split; [now left | reflexivity]. }
  destruct (datasets w) as [hub|] eqn:Hh.
  2:{ exists false, []. rewrite Hguard by now right.
      split; [reflexivity|]. split; [now exists (save_events hf_token)|].
      split; [discriminate|].
      split; [split; [intros [] | intros [H _]; discriminate H]|].
      split; [now left | reflexivity]. }
  rewrite (save_meeting_to_dataset_run w meeting_data hf_token st hub Hd Hh).
  unfold save_events.
  destruct (_prepare_meeting_record w meeting_data) as [rec|e].
  2:{ destruct (Py.truthy hf_token) eqn:Ht.
      - exists false, [HubLogin hf_token]. split; [reflexivity|].
        split; [now exists [HubFetch DATASET_NAME; HubPush DATASET_NAME hf_token]|].
        split; [discriminate|]. split.
        + split; [intros [H|[]]; discriminate H | intros [H _]; discriminate H].
        + split; [intros ->; discriminate Ht | intros [H|H]; discriminate H].
      - exists false, []. split; [reflexivity|].
        split; [now exists [HubFetch DATASET_NAME]|].
        split; [discriminate|]. split.
        + split; [intros [] | intros [H _]; discriminate H].
        + split; [now left | intros [H|H]; discriminate H]. }
  assert (Hpartial : forall st',
            exists b evs,
              (Ret false,
               extend st' (ArchiveCall meeting_data hf_token
                           :: (if Py.truthy hf_token then [HubLogin hf_token] else [])
                              ++ [HubFetch DATASET_NAME]))
              = (@Ret bool b, extend st' (ArchiveCall meeting_data hf_token :: evs))
              /\ (exists rest,
                    ((if Py.truthy hf_token then [HubLogin hf_token] else [])
                     ++ [HubFetch DATASET_NAME]
                     ++ (if Py.truthy hf_token then [HubPush DATASET_NAME hf_token] else []))%list
                    = (evs ++ rest)%list)
              /\ (b = true ->
                  evs = ((if Py.truthy hf_token then [HubLogin hf_token] else [])
                         ++ [HubFetch DATASET_NAME]
                         ++ (if Py.truthy hf_token then [HubPush DATASET_NAME hf_token] else []))%list)
              /\ (In (HubPush DATASET_NAME hf_token) evs <-> b = true /\ hf_token <> "")
              /\ (hf_token = "" -> evs = [] \/ evs = [HubFetch DATASET_NAME])
              /\ (true = false \/ Some hub = None -> evs = [])).
  { intros st'. destruct (Py.truthy hf_token) eqn:Ht.
    - exists false, [HubLogin hf_token; HubFetch DATASET_NAME]. split; [reflexivity|].
      split; [now exists [HubPush DATASET_NAME hf_token]|].
      split; [discriminate|]. split.
      + split; [intros [H|[H|[]]]; discriminate H | intros [H _]; discriminate H].
      + split; [intros ->; discriminate Ht | intros [H|H]; discriminate H].
    - exists false, [HubFetch DATASET_NAME]. split; [reflexivity|].
      split; [now exists []|].
      split; [discriminate|]. split.
      + split; [intros [H|[]]; discriminate H | intros [H _]; discriminate H].
      + split; [now right | intros [H|H]; discriminate H]. }
  destruct (obtained hub) as [old|]; [|apply Hpartial].
  destruct (from_list hub (old ++ [rec])) as [new|e]; [|apply Hpartial].
  exists true. eexists. split; [reflexivity|].
  split; [exists []; now rewrite app_nil_r|].
  split; [reflexivity|]. split.
  - destruct (Py.truthy hf_token) eqn:Ht.
    + split.
      * intros _. split; [reflexivity | now apply Htok].
      * intros _. cbn. right. right. now left.
    + split.
      * intros [H|[]]. discriminate H.
      * intros [_ H]. apply Htok in H. discriminate H.
  - split.
    + intros ->. now right.
    + intros [H|H]; discriminate H.
Qed.

(** A beginning of the sequence log-in, fetch, upload holds each of the
    three at most once, in this order; the log-in and the upload are in it
    only for a non-empty token. *)
Lemma save_events_prefix (hf_token : string) (evs rest : list event) :
  save_events hf_token = (evs ++ rest)%list ->
  (exists logins fetches pushes,
      evs = (logins ++ fetches ++ pushes)%list
      /\ (logins = [] \/ logins = [HubLogin hf_token])
      /\ (fetches = [] \/ fetches = [HubFetch DATASET_NAME])
      /\ (pushes = [] \/ pushes = [HubPush DATASET_NAME hf_token]))
  /\ (In (HubLogin hf_token) evs \/ In (HubPush DATASET_NAME hf_token) evs ->
      hf_token <> "")
  /\ Forall (fun ev => is_hub ev = true) evs.
Proof.
  unfold save_events. intros H.
  destruct (Py.truthy hf_token) eqn:Ht; cbn [app] in H.
  - assert (Hne : hf_token <> "") by (intros ->; discriminate Ht).
    destruct evs as [|a [|b [|c [|d evs]]]]; cbn [app] in H.
    + split; [exists [], [], []; auto|]. split; [intros [[]|[]] | constructor].
    + injection H as <- _.
      split; [exists [HubLogin hf_token], [], []; auto|].
      split; [intros _; exact Hne | repeat constructor].
    + injection H as <- <- _.
      split; [exists [HubLogin hf_token], [HubFetch DATASET_NAME], []; auto|].
      split; [intros _; exact Hne | repeat constructor].
    + injection H as <- <- <- _.
      split; [exists [HubLogin hf_token], [HubFetch DATASET_NAME],
                [HubPush DATASET_NAME hf_token]; auto|].
      split; [intros _; exact Hne | repeat constructor].
    + discriminate H.
  - destruct evs as [|a [|b evs]]; cbn [app] in H.
    + split; [exists [], [], []; auto|]. split; [intros [[]|[]] | constructor].
    + injection H as <- _.
      split; [exists [], [HubFetch DATASET_NAME], []; auto|]. split.
      * intros [[E|[]]|[E|[]]]; discriminate E.
      * repeat constructor.
    + discriminate H.
Qed.

(** X16: what a save never does on the hub.  An event marks a call being
    reached, so the trace bounds from above what is sent.  After the entry
    into the writer, [save_meeting_to_dataset] reaches at most one log-in,
    one fetch and one upload, in this order, and nothing else; it reaches the
    log-in and the upload only with a non-empty token, the upload only when
    it goes on to return [True], and none of the three when the data is
    empty or the library is missing.  It never raises and leaves the list of
    temporary files as it was. *)
Theorem save_meeting_to_dataset_events (w : World) (meeting_data : pyval)
  (hf_token : string) (st : state) :
  exists b evs,
    save_meeting_to_dataset w meeting_data hf_token st
    = (Ret b, extend st (ArchiveCall meeting_data hf_token :: evs))
    /\ (exists logins fetches pushes,
          evs = (logins ++ fetches ++ pushes)%list
          /\ (logins = [] \/ logins = [HubLogin hf_token])
          /\ (fetches = [] \/ fetches = [HubFetch DATASET_NAME])
          /\ (pushes = [] \/ pushes = [HubPush DATASET_NAME hf_token]))
    /\ (In (HubLogin hf_token) evs \/ In (HubPush DATASET_NAME hf_token) evs ->
        hf_token <> "")
    /\ (In (HubPush DATASET_NAME hf_token) evs -> b = true)
    /\ (PyVal.truthy meeting_data = false \/ datasets w = None -> evs = []).
Proof.
  destruct (save_meeting_to_dataset_trace w meeting_data hf_token st)
    as (b & evs & Erun & [rest Hpre] & _ & Hpush & _ & Hguard).
  destruct (save_events_prefix hf_token evs rest Hpre) as (Hshape & Htok & _).
  exists b, evs. split; [exact Erun|]. split; [exact Hshape|].
  split; [exact Htok|]. split; [|exact Hguard].
  intros Hin. now apply Hpush.
Qed.

Lemma load_meetings_from_dataset_run (w : World) (hf_token : string)
  (st : state) (hub : Hub) :
  datasets w = Some hub ->
  load_meetings_from_dataset w hf_token st
  = (Ret (match from_hub hub DATASET_NAME with
          | Ret dataset => Some dataset
          | Raise _ => None
          end),
     extend st ((if Py.truthy hf_token then [HubLogin hf_token] else [])
                ++ [HubFetch DATASET_NAME])).
Proof.
  intros Hh. hub_run. rewrite Hh.
  destruct (Py.truthy hf_token); repeat hub_step; cbv beta iota zeta; hub_state.
Qed.

(** X17: reading the archive.  [load_meetings_from_dataset] never raises and
    never writes: it reaches at most one log-in, and that only with a
    non-empty token, then at most one fetch; it reaches no upload, does not
    enter the writer, and reaches nothing at all when the library is
    missing.  It returns the records exactly when the library is present and
    the fetch returns them, whatever the log-in did; unlike the writer it
    has no empty collection to fall back on. *)
Theorem load_meetings_from_dataset_reads (w : World) (hf_token : string) (st : state) :
  exists r evs,
    load_meetings_from_dataset w hf_token st = (Ret r, extend st evs)
    /\ (forall meetings,
          r = Some meetings
          <-> exists hub, datasets w = Some hub
                          /\ from_hub hub DATASET_NAME = Ret meetings)
    /\ (exists logins fetches,
          evs = (logins ++ fetches)%list
          /\ (logins = [] \/ (logins = [HubLogin hf_token] /\ hf_token <> ""))
          /\ (fetches = [] \/ fetches = [HubFetch DATASET_NAME]))
    /\ (datasets w = None -> evs = []).
Proof.
  destruct (datasets w) as [hub|] eqn:Hh.
  2:{ exists None, []. unfold load_meetings_from_dataset. rewrite Hh.
      unfold retM. rewrite extend_nil. split; [reflexivity|].
      split; [|split; [exists [], []; auto | reflexivity]].
      intros m. split; [discriminate | intros (h & H & _); discriminate H]. }
  rewrite (load_meetings_from_dataset_run w hf_token st hub Hh).
  eexists. eexists. split; [reflexivity|]. split; [|split; [|discriminate]].
  - intros m. destruct (from_hub hub DATASET_NAME) as [d|e] eqn:Hf.
    + split.
      * intros H. injection H as <-. exists hub. split; [reflexivity | exact Hf].
      * intros (h & H1 & H2). injection H1 as <-. rewrite Hf in H2. now injection H2 as ->.
    + split; [discriminate|].
      intros (h & H1 & H2). injection H1 as <-. rewrite Hf in H2. discriminate H2.
  - destruct (Py.truthy hf_token) eqn:Ht.
    + exists [HubLogin hf_token], [HubFetch DATASET_NAME].
      split; [reflexivity|]. split; [|now right].
      right. split; [reflexivity|]. intros ->. discriminate Ht.
    + exists [], [HubFetch DATASET_NAME]. auto.
Qed.

(** * Removal of temporary files *)

Lemma removable_same (permitted : string -> bool) (d d' : disk) (p : string) :
  d' p = d p -> removable permitted d' p = removable permitted d p.
Proof. unfold removable. now intros ->. Qed.

(** One round of the loop: the path is unlinked when it can be, and nothing
    else changes; no exception leaves the round. *)
Lemma cleanup_round (permitted : string -> bool) (file_path : string) (d : disk) :
  exists d',
    (if Disk.exists_ d file_path
     then match Disk.remove permitted file_path d with
          | (Ret u, d') => (Ret u, d')
          | (Raise e, d') => (Ret tt, d')
          end
     else (Ret tt, d)) = (Ret tt, d')
    /\ forall p, d' p = if String.eqb p file_path && removable permitted d p
                        then None else d p.
Proof.
  unfold Disk.exists_, Disk.remove, Disk.lookup, removable.
  destruct (Py.truthy file_path) eqn:Ht.
  2:{ exists d. split; [reflexivity|]. intros p.
      destruct (String.eqb_spec p file_path) as [->|_]; [|reflexivity].
      rewrite Ht. reflexivity. }
  destruct (d file_path) as [[|data]|] eqn:Hd.
  - exists d. split; [reflexivity|]. intros p.
    destruct (String.eqb_spec p file_path) as [->|_]; [|reflexivity].
    rewrite Hd, andb_false_r. reflexivity.
  - destruct (permitted file_path) eqn:Hp.
    + eexists. split; [reflexivity|]. intros p. cbv beta.
      destruct (String.eqb_spec p file_path) as [->|_]; [|reflexivity].
      rewrite Ht, Hp, Hd. reflexivity.
    + exists d. split; [reflexivity|]. intros p.
      destruct (String.eqb_spec p file_path) as [->|_]; [|reflexivity].
      rewrite Ht, Hp. reflexivity.
  - exists d. split; [reflexivity|]. intros p.
    destruct (String.eqb_spec p file_path) as [->|_]; [|reflexivity].
    rewrite Hd, andb_false_r. reflexivity.
Qed.

Lemma remove_each_spec (permitted : string -> bool) (files : list string) :
  forall d : disk,
  exists d',
    remove_each permitted files d = (Ret tt, d')
    /\ forall p, d' p = if existsb (String.eqb p) files && removable permitted d p
                        then None else d p.
Proof.
  induction files as [|file_path rest IH]; intros d.
  - exists d. split; reflexivity.
  - cbn [remove_each].
    destruct (cleanup_round permitted file_path d) as (d1 & E1 & H1).
    rewrite E1.
    destruct (IH d1) as (d' & E & H). exists d'. split; [exact E|].
    intros p. rewrite H. cbn [existsb]. specialize (H1 p).
    destruct (String.eqb p file_path) eqn:Ep; cbn [andb orb] in *.
    + destruct (removable permitted d p) eqn:Hr.
      * rewrite H1. now destruct (existsb (String.eqb p) rest && removable permitted d1 p).
      * rewrite (removable_same permitted d d1 p H1), Hr, andb_false_r. exact H1.
    + rewrite (removable_same permitted d d1 p H1), H1. reflexivity.
Qed.

Lemma existsb_eqb_In (p : string) (files : list string) :
  existsb (String.eqb p) files = true <-> In p files.
Proof.
  rewrite existsb_exists. split.
  - intros (x & Hx & E). apply String.eqb_eq in E. now subst.
  - intros H. exists p. split; [exact H | apply String.eqb_refl].
Qed.

Lemma removable_iff (permitted : string -> bool) (d : disk) (p : string) :
  removable permitted d p = true
  <-> Py.truthy p = true /\ permitted p = true /\ exists data, d p = Some (Regular data).
Proof.
  unfold removable. rewrite !andb_true_iff. split.
  - intros [[H1 H2] H3]. split; [exact H1|]. split; [exact H2|].
    destruct (d p) as [[|data]|]; try discriminate H3. now exists data.
  - intros (H1 & H2 & data & H3). rewrite H3. auto.
Qed.


(** X19: [cleanup_temp_pdf] never raises and touches no path but its own;
    and [cleanup_temp_files] does to the disk what [cleanup_temp_pdf] does
    for each tracked path in turn, although the two nest their existence
    test and their exception handler the other way round. *)
Theorem cleanup_temp_files_each (permitted : string -> bool) (st : state) (d : disk) :
  (forall pdf_path,
     exists d', cleanup_temp_pdf permitted pdf_path d = (Ret tt, d')
                /\ forall p, p <> pdf_path -> d' p = d p)
  /\ snd (snd (cleanup_temp_files permitted st d))
     = fold_left (fun d0 p => snd (cleanup_temp_pdf permitted p d0)) (temp_files st) d.
Proof.
  assert (Hone : forall pdf_path d0,
             cleanup_temp_pdf permitted pdf_path d0
             = (if Disk.exists_ d0 pdf_path
                then match Disk.remove permitted pdf_path d0 with
                     | (Ret u, d') => (Ret u, d')
                     | (Raise e, d') => (Ret tt, d')
                     end
                else (Ret tt, d0))).
  { intros pdf_path d0. unfold cleanup_temp_pdf.
    destruct (Disk.exists_ d0 pdf_path); [|reflexivity].
    destruct (Disk.remove permitted pdf_path d0) as [[[]|e] d']; reflexivity. }
  split.
  - intros pdf_path. rewrite Hone.
    destruct (cleanup_round permitted pdf_path d) as (d' & E & H).
    exists d'. split; [exact E|]. intros p Hne. rewrite H.
    destruct (String.eqb_spec p pdf_path) as [->|_]; [now elim Hne | reflexivity].
  - unfold cleanup_temp_files.
    assert (Hloop : forall files d0,
               snd (remove_each permitted files d0)
               = fold_left (fun d1 p => snd (cleanup_temp_pdf permitted p d1)) files d0).
    { induction files as [|f rest IH]; intros d0; [reflexivity|].
      cbn [remove_each fold_left]. rewrite Hone.
      destruct (cleanup_round permitted f d0) as (d1 & E1 & _).
      rewrite E1. cbn [snd]. apply IH. }
    rewrite <- Hloop.
    destruct (remove_each_spec permitted (temp_files st) d) as (d' & E & _).
    rewrite E. reflexivity.
Qed.

Lemma process_meeting_report_tracked (w : World) (file : upload)
  (api_key hf_token : string) (st st' : state) (r : result) (p : string) :
  process_meeting w file api_key hf_token st = (Ret r, st') ->
  r_pdf_path r = Some p ->
  In p (temp_files st') /\ Py.truthy p = true.
Proof.
  intros Hrun Hp.
  destruct (early_failure w file api_key) as [reason|] eqn:He.
  { rewrite (process_meeting_early w file api_key reason He hf_token st) in Hrun.
    injection Hrun as <- <-. discriminate Hp. }
  destruct (process_meeting_shape w file api_key st He) as (text & Ho & Hshape).
  destruct Hshape as [[_ E]|[(st1 & _ & _ & E)|(d & s & ts & ks & pdf & _ & _ & _ & _ & _ & E)]].
  - rewrite E in Hrun. injection Hrun as <- <-. discriminate Hp.
  - rewrite E in Hrun. injection Hrun as <- <-. discriminate Hp.
  - destruct (E hf_token) as (evs & Erun & _). rewrite Erun in Hrun.
    injection Hrun as <- <-. cbn [r_pdf_path temp_files] in *. rewrite Hp.
    split; [apply in_or_app; right; now left|].
    unfold checked_report in Hp. destruct pdf as [q|]; [|discriminate Hp].
    destruct (Py.truthy q) eqn:Hq; [|discriminate Hp].
    destruct (report_isfile w q); [|discriminate Hp].
    now injection Hp as <-.
Qed.

(** X20: the report does not outlive the session.  A report path that
    [process_meeting] hands out is on [_temp_files]; so when the file is
    still on disk and may be deleted, [cleanup_temp_files] removes it, and
    the list is empty afterwards. *)
Theorem report_is_cleaned_up (w : World) (file : upload)
  (api_key hf_token : string) (st st' : state) (r : result) (p : string)
  (permitted : string -> bool) (d : disk) (data : outcome string) :
  process_meeting w file api_key hf_token st = (Ret r, st') ->
  r_pdf_path r = Some p ->
  d p = Some (Regular data) ->
  permitted p = true ->
  exists d',
    cleanup_temp_files permitted st' d = (Ret tt, (mk_state (trace st') [], d'))
    /\ Disk.exists_ d p = true
    /\ Disk.exists_ d' p = false.
Proof.
  intros Hrun Hp Hd Hperm.
  destruct (process_meeting_report_tracked w file api_key hf_token st st' r p Hrun Hp)
    as [Hin Ht].
  unfold cleanup_temp_files.
  destruct (remove_each_spec permitted (temp_files st') d) as (d' & E & H).
  rewrite E. exists d'. split; [reflexivity|].
  unfold Disk.exists_, Disk.lookup. rewrite Ht, Hd. split; [reflexivity|].
  rewrite H, (proj2 (existsb_eqb_In p _) Hin).
  rewrite (proj2 (removable_iff permitted d p)); [reflexivity|].
  split; [exact Ht|]. split; [exact Hperm|]. now exists data.
Qed.

Lemma report_is_cleaned_up_witness :
  exists d',
    cleanup_temp_files DemoDisk.permitted
      (mk_state [ChatRequest "sk-test" (build_prompt "Hello world")] [DemoDisk.report])
      DemoDisk.files
    = (Ret tt, (mk_state [ChatRequest "sk-test" (build_prompt "Hello world")] [], d'))
    /\ Disk.exists_ DemoDisk.files DemoDisk.report = true
    /\ Disk.exists_ d' DemoDisk.report = false.
Proof.
  apply (report_is_cleaned_up
           (Sample.world (Sample.fenced "```json") Sample.render_ok None)
           (PathStr "/tmp/meeting.txt") "sk-test" "" Sample.st0 _ _ DemoDisk.report
           DemoDisk.permitted DemoDisk.files (Ret "%PDF") hello_world_run);
    reflexivity.
Defined.

(** * What [process_meeting] archives *)

(** The success path with a token: the writer is entered once, and what
    follows are calls to the hub. *)
Lemma process_text_archives (w : World) (file_name text api_key hf_token : string)
  (st st1 : state) d s ts ks (pdf : option string) :
  Py.truthy (Py.strip text) = true ->
  analyze_meeting w text api_key st = (Ret (Some (PDict d)), st1) ->
  PyVal.dict_get d "summary" = Some (PStr s) ->
  PyVal.dict_get d "topics" = Some (PList ts) ->
  PyVal.dict_get d "keywords" = Some (PList ks) ->
  generate_pdf w (PDict d) = Ret pdf ->
  Py.truthy hf_token = true ->
  exists evs,
    process_text w file_name text api_key hf_token st
    = (Ret (mk_result (PStr s) (markdown_list w ts) (markdown_list w ks)
              (checked_report w pdf)
              (success_msg file_name (Py.len text) (List.length ts) (List.length ks)
               ++ save_confirmation)),
       mk_state (trace st1
                 ++ ArchiveCall
                      (meeting_data_of file_name text (PStr s) (PList ts) (PList ks))
                      hf_token :: evs)
         (temp_files st1 ++ match checked_report w pdf with
                            | Some p => [p]
                            | None => []
                            end))
    /\ Forall (fun ev => is_hub ev = true) evs.
Proof.
  intros Hstrip Ha Hs Ht Hk Hpdf Htok.
  assert (Htr : PyVal.truthy (PDict d) = true).
  { destruct d; [discriminate Hs | reflexivity]. }
  assert (Hfmt : format_analysis_for_display w (PDict d)
                 = Ret (mk_display (PStr s) (markdown_list w ts) (markdown_list w ks))).
  { unfold format_analysis_for_display. rewrite Htr.
    cbn [negb PyVal.get]. rewrite Hs, Ht, Hk. reflexivity. }
  unfold process_text. rewrite Hstrip. cbn [negb].
  unfold bindM at 1. rewrite Ha. rewrite Htr. cbn [negb].
  unfold bindM at 1, liftM at 1. rewrite Hfmt.
  unfold bindM at 1, liftM at 1. rewrite Hpdf.
  cbn [d_summary d_topics d_keywords PyVal.get]. rewrite Hs, Ht, Hk. rewrite Htok.
  destruct (save_meeting_to_dataset_trace w
              (meeting_data_of file_name text (PStr s) (PList ts) (PList ks))
              hf_token st1) as (b & evs & Esave & [rest Hpre] & _).
  destruct (save_events_prefix hf_token evs rest Hpre) as (_ & _ & Hhub).
  exists evs. split; [|exact Hhub].
  unfold bindM, liftM, retM. fold (meeting_data_of file_name text (PStr s) (PList ts) (PList ks)).
  rewrite Esave.
  destruct pdf as [p|]; cbn [path_truthy checked_report].
  - destruct (Py.truthy p) eqn:Hp; cbn [andb].
    + destruct (report_isfile w p); cbn [negb path_truthy].
      * rewrite Hp. reflexivity.
      * unfold extend. cbn. now rewrite app_nil_r.
    + cbn [path_truthy]. rewrite Hp. unfold extend. cbn. now rewrite app_nil_r.
  - unfold extend. cbn. now rewrite app_nil_r.
Qed.

(** X21: what is archived.  A run with a token that does not end in a
    failure message enters the archive writer exactly once, right after the
    one request to the summarization service, with the data of this meeting;
    everything after that is a call to the hub.  The row built from that
    data holds the base name of the file (not its path), the whole text, the
    summary shown to the user and the JSON texts of the topics and keywords
    shown, and no default value: building it can fail only in
    [json.dumps]. *)
Theorem process_meeting_archives (w : World) (file : upload)
  (api_key hf_token : string) (st st' : state) (r : result) :
  process_meeting w file api_key hf_token st = (Ret r, st') ->
  Py.truthy hf_token = true ->
  (forall reason, r <> failure reason) ->
  exists text s ts ks evs,
    obtain_text w (upload_path file) = Ret (Some text)
    /\ r_summary r = PStr s
    /\ r_topics r = markdown_list w ts
    /\ r_keywords r = markdown_list w ks
    /\ trace st'
       = (trace st
          ++ ChatRequest api_key (build_prompt text)
             :: ArchiveCall
                  (meeting_data_of (OsPath.basename (upload_path file)) text
                     (PStr s) (PList ts) (PList ks))
                  hf_token
             :: evs)%list
    /\ Forall (fun ev => is_hub ev = true) evs
    /\ _prepare_meeting_record w
         (meeting_data_of (OsPath.basename (upload_path file)) text
            (PStr s) (PList ts) (PList ks))
       = archived_record w (OsPath.basename (upload_path file)) text s ts ks.
Proof.
  intros Hrun Htok Hok.
  destruct (early_failure w file api_key) as [reason|] eqn:He.
  { rewrite (process_meeting_early w file api_key reason He hf_token st) in Hrun.
    injection Hrun as <- <-. now elim (Hok reason). }
  destruct (process_meeting_late w file api_key He) as (text & Ho & _ & _ & Hlate).
  rewrite Hlate in Hrun.
  destruct (Py.truthy (Py.strip text)) eqn:Hs.
  2:{ rewrite (try_exceptM_ret _ _ _ _ _
                 (process_text_blank w _ text api_key hf_token st Hs)) in Hrun.
      injection Hrun as <- <-. now elim (Hok "No text extracted from file"). }
  destruct (analyze_meeting_total w text api_key st) as (a & st1 & Ea & _ & Hsome).
  destruct a as [a|].
  2:{ rewrite (try_exceptM_ret _ _ _ _ _
                 (process_text_no_analysis w _ text api_key hf_token st st1 Hs Ea)) in Hrun.
      injection Hrun as <- <-. now elim (Hok "Analysis failed"). }
  destruct (Hsome a eq_refl) as ((d & s & ts & ks & -> & Hgs & Hgt & Hgk) & -> & _ & _).
  destruct (generate_pdf_total w (PDict d)) as [pdf Hpdf].
  destruct (process_text_archives w (OsPath.basename (upload_path file)) text api_key
              hf_token st _ d s ts ks pdf Hs Ea Hgs Hgt Hgk Hpdf Htok)
    as (evs & Erun & Hhub).
  rewrite (try_exceptM_ret _ _ _ _ _ Erun) in Hrun.
  injection Hrun as <- <-.
  exists text, s, ts, ks, evs.
  split; [exact Ho|]. split; [reflexivity|]. split; [reflexivity|].
  split; [reflexivity|]. split.
  - cbn [trace]. unfold after_request. cbn [trace].
    rewrite <- app_assoc. reflexivity.
  - split; [exact Hhub | reflexivity].
Qed.

Lemma process_meeting_archives_witness :
  (exists text s ts ks evs,
      obtain_text (Sample.world (Sample.fenced "```json") Sample.render_ok (Some Sample.hub_down))
        "/tmp/meeting.txt" = Ret (Some text)
      /\ PStr "Budget review" = PStr s
      /\ Py.join nl ["- A"; "- B"]
         = markdown_list (Sample.world (Sample.fenced "```json") Sample.render_ok (Some Sample.hub_down)) ts
      /\ Py.join nl ["- x"; "- y"; "- z"]
         = markdown_list (Sample.world (Sample.fenced "```json") Sample.render_ok (Some Sample.hub_down)) ks
      /\ [ChatRequest "sk-test" (build_prompt "Hello world");
          ArchiveCall
            (meeting_data_of "meeting.txt" "Hello world" (PStr "Budget review")
               (PList [PStr "A"; PStr "B"]) (PList [PStr "x"; PStr "y"; PStr "z"]))
            "hf_test";
          HubLogin "hf_test";
          HubFetch DATASET_NAME]
         = ([] ++ ChatRequest "sk-test" (build_prompt text)
               :: ArchiveCall
                    (meeting_data_of (OsPath.basename "/tmp/meeting.txt") text
                       (PStr s) (PList ts) (PList ks))
                    "hf_test"
               :: evs)%list
      /\ Forall (fun ev => is_hub ev = true) evs
      /\ _prepare_meeting_record
           (Sample.world (Sample.fenced "```json") Sample.render_ok (Some Sample.hub_down))
           (meeting_data_of (OsPath.basename "/tmp/meeting.txt") text
              (PStr s) (PList ts) (PList ks))
         = archived_record
             (Sample.world (Sample.fenced "```json") Sample.render_ok (Some Sample.hub_down))
             (OsPath.basename "/tmp/meeting.txt") text s ts ks)
  /\ archived_record
       (Sample.world (Sample.fenced "```json") Sample.render_ok (Some Sample.hub_down))
       "meeting.txt" "Hello world" "Budget review"
       [PStr "A"; PStr "B"] [PStr "x"; PStr "y"; PStr "z"]
     = Ret (mk_record "00000000-0000-4000-8000-000000000000" (PStr "meeting.txt")
              "2024-01-01" (PStr "Hello world") (PStr "Budget review")
              ("[" ++ dq ++ "A" ++ dq ++ ", " ++ dq ++ "B" ++ dq ++ "]")
              ("[" ++ dq ++ "x" ++ dq ++ ", " ++ dq ++ "y" ++ dq ++ ", "
               ++ dq ++ "z" ++ dq ++ "]")
              "2024-01-01T00:00:00").
Proof.
  split; [|vm_compute; reflexivity].
  apply (process_meeting_archives
           (Sample.world (Sample.fenced "```json") Sample.render_ok (Some Sample.hub_down))
           (PathStr "/tmp/meeting.txt") "sk-test" "hf_test" Sample.st0 _ _
           hello_archive_run).
  - reflexivity.
  - intros reason H. discriminate H.
Defined.

(** * utils/pdf_generator.py: the story of the report *)

Lemma py_range_4 (n : nat) :
  py_range n 4 = map (fun k => k * 4) (seq 0 ((n + 3) / 4)).
Proof. reflexivity. Qed.

Lemma ceil_4 (n : nat) : n <= 4 * ((n + 3) / 4) /\ 4 * ((n + 3) / 4) < n + 4.
Proof.
  pose proof (Nat.div_mod_eq (n + 3) 4) as H.
  pose proof (Nat.mod_upper_bound (n + 3) 4 ltac:(discriminate)) as H'.
  lia.
Qed.

Lemma slice_4 {A : Type} (l : list A) (i : nat) :
  slice l i (i + 4) = firstn 4 (skipn i l).
Proof. unfold slice. now replace (i + 4 - i) with 4 by lia. Qed.

Lemma chunks_concat {A : Type} (c : nat) :
  forall l : list A,
    List.length l <= 4 * c ->
    List.concat (map (fun k => firstn 4 (skipn (k * 4) l)) (seq 0 c)) = l.
Proof.
  induction c as [|c IH]; intros l Hl.
  - destruct l; [reflexivity | simpl in Hl; lia].
  - cbn [seq map List.concat]. rewrite <- seq_shift, map_map.
    rewrite (map_ext _ (fun k => firstn 4 (skipn (k * 4) (skipn 4 l)))).
    2:{ intros k. rewrite skipn_skipn. do 2 f_equal. lia. }
    rewrite IH.
    + change (skipn (0 * 4) l) with l. apply firstn_skipn.
    + rewrite length_skipn. lia.
Qed.

Lemma in_chunk {A : Type} (i : nat) (l : list A) (v : A) :
  In v (firstn 4 (skipn i l)) -> In v l.
Proof.
  intros H. rewrite <- (firstn_skipn i l). apply in_or_app. right.
  rewrite <- (firstn_skipn 4 (skipn i l)). apply in_or_app. now left.
Qed.

Lemma str_items_strs (names : list string) : str_items (map PStr names) = Ret names.
Proof. induction names as [|s names IH]; cbn; [reflexivity | now rewrite IH]. Qed.

Lemma str_items_outcome (items : list pyval) :
  match str_items items with
  | Ret strs => items = map PStr strs
  | Raise e =>
      exn_cls e = TypeError
      /\ Exists (fun v => PyVal.isinstance_str v = false) items
  end.
Proof.
  induction items as [|v items IH]; [reflexivity|].
  destruct v; try (cbn; split; [reflexivity | now left]).
  cbn [str_items]. destruct (str_items items) as [strs|e]; cbn [bind].
  - now rewrite IH.
  - destruct IH as [H1 H2]. split; [exact H1 | now right].
Qed.

Lemma keyword_rows_strs (names : list string) (indices : list nat) :
  forall acc,
    keyword_rows (map PStr names) indices acc
    = Ret (acc ++ map (fun i => Py.join " • " (firstn 4 (skipn i names))) indices)%list.
Proof.
  induction indices as [|i rest IH]; intros acc.
  - cbn. now rewrite app_nil_r.
  - cbn [keyword_rows]. cbv zeta. unfold str_join.
    rewrite slice_4, skipn_map, firstn_map, str_items_strs. cbn [bind].
    rewrite IH, <- app_assoc. reflexivity.
Qed.

Lemma keyword_rows_outcome (keywords : list pyval) (indices : list nat) :
  forall acc,
    match keyword_rows keywords indices acc with
    | Ret _ =>
        forall i, In i indices ->
          Forall (fun v => PyVal.isinstance_str v = true) (firstn 4 (skipn i keywords))
    | Raise e =>
        exn_cls e = TypeError
        /\ Exists (fun v => PyVal.isinstance_str v = false) keywords
    end.
Proof.
  induction indices as [|i rest IH]; intros acc.
  - cbn. intros i [].
  - cbn [keyword_rows]. cbv zeta. unfold str_join. rewrite slice_4.
    pose proof (str_items_outcome (firstn 4 (skipn i keywords))) as Hs.
    destruct (str_items (firstn 4 (skipn i keywords))) as [strs|e]; cbn [bind].
    + specialize (IH (acc ++ [Py.join " • " strs])%list).
      destruct (keyword_rows keywords rest (acc ++ [Py.join " • " strs])) as [lines|e].
      * intros j [<-|Hj]; [|now apply IH].
        rewrite Hs. apply Forall_forall. intros v Hv.
        apply in_map_iff in Hv. destruct Hv as (s & <- & _). reflexivity.
      * exact IH.
    + destruct Hs as [H1 H2]. split; [exact H1|].
      apply Exists_exists in H2. destruct H2 as (v & Hv & Hn).
      apply Exists_exists. exists v. split; [|exact Hn].
      apply (in_chunk _ _ _ Hv).
Qed.

(** The rows of a non-empty list of strings: all of four but the last. *)
Lemma keyword_rows_shape (names : list string) :
  names <> [] ->
  exists full last,
    keyword_rows (map PStr names) (py_range (List.length names) 4) []
    = Ret (map (Py.join " • ") (full ++ [last]))
    /\ List.concat (full ++ [last]) = names
    /\ Forall (fun row => List.length row = 4) full
    /\ 1 <= List.length last <= 4.
Proof.
  intros Hne.
  destruct (ceil_4 (List.length names)) as [Hlo Hhi].
  assert (Hn : 1 <= List.length names).
  { destruct names; [now elim Hne | simpl; lia]. }
  remember ((List.length names + 3) / 4) as c eqn:Hc.
  destruct c as [|c]; [lia|].
  exists (map (fun k => firstn 4 (skipn (k * 4) names)) (seq 0 c)),
         (firstn 4 (skipn (c * 4) names)).
  assert (Hrows : (map (fun k => firstn 4 (skipn (k * 4) names)) (seq 0 c)
                   ++ [firstn 4 (skipn (c * 4) names)])%list
                  = map (fun k => firstn 4 (skipn (k * 4) names)) (seq 0 (S c))).
  { rewrite seq_S, map_app. reflexivity. }
  split; [|split; [|split]].
  - rewrite py_range_4, <- Hc, keyword_rows_strs. cbn [app].
    rewrite Hrows, !map_map. reflexivity.
  - rewrite Hrows. apply chunks_concat. lia.
  - apply Forall_forall. intros row Hrow. apply in_map_iff in Hrow.
    destruct Hrow as (k & <- & Hk). apply in_seq in Hk.
    rewrite length_firstn, length_skipn. lia.
  - rewrite length_firstn, length_skipn. lia.
Qed.

Lemma all_str_names (items : list pyval) :
  Forall (fun v => PyVal.isinstance_str v = true) items ->
  exists names, items = map PStr names.
Proof.
  induction 1 as [|v items Hv _ [names ->]]; [now exists []|].
  destruct v; try discriminate Hv. now exists (s :: names).
Qed.

(** The rows are built only from strings. *)
Lemma keyword_lines_list (ks : list pyval) (lines : list string) :
  keyword_lines (PList ks) = Ret lines ->
  exists names,
    ks = map PStr names
    /\ keyword_rows (map PStr names) (py_range (List.length names) 4) [] = Ret lines.
Proof.
  unfold keyword_lines. cbn [PyVal.len bind]. intros H.
  pose proof (keyword_rows_outcome ks (py_range (List.length ks) 4) []) as Ho.
  rewrite H in Ho.
  assert (Hall : Forall (fun v => PyVal.isinstance_str v = true) ks).
  { destruct (ceil_4 (List.length ks)) as [Hlo _].
    rewrite <- (chunks_concat ((List.length ks + 3) / 4) ks Hlo).
    apply Forall_concat. apply Forall_forall. intros row Hrow.
    apply in_map_iff in Hrow. destruct Hrow as (k & <- & Hin).
    apply Ho. rewrite py_range_4. apply in_map_iff. now exists k. }
  destruct (all_str_names ks Hall) as [names ->].
  exists names. split; [reflexivity|]. now rewrite length_map in H.
Qed.

Section ReportFacts.

Variable rl : Reportlab.
Variable w : World.

Lemma Paragraph_bind {B : Type} (text : pyval) (style : string)
  (k : flowable -> outcome B) :
  bind (Paragraph rl text style) k
  = bind (markup rl text style) (fun _ => k (Para text style)).
Proof. unfold Paragraph. destruct (markup rl text style); reflexivity. Qed.

Lemma bullet_paragraphs_ret (texts : list string) :
  forall story story',
    bullet_paragraphs rl texts story = Ret story' ->
    story' = (story ++ map (fun t => Para (PStr ("• " ++ t)) "CustomList") texts)%list.
Proof.
  induction texts as [|t rest IH]; intros story story' H.
  - cbn in H. injection H as <-. now rewrite app_nil_r.
  - cbn [bullet_paragraphs] in H. rewrite Paragraph_bind in H.
    destruct (markup rl (PStr ("• " ++ t)) "CustomList"); [|discriminate H].
    cbn [bind] in H. rewrite (IH _ _ H), <- app_assoc. reflexivity.
Qed.

Ltac bind_inv H :=
  rewrite ?Paragraph_bind in H;
  match type of H with
  | bind ?c _ = Ret _ =>
      let E := fresh "E" in
      destruct c eqn:E; cbn [bind] in H; [|discriminate H]
  end.

(** What a body that returns has done: the keyword section ran on the story
    that ends with its heading, and the document was built from its result
    followed by the spacer and the footer. *)
Lemma report_body_ret (meeting_data : pyval) (pdf_path : string) :
  report_body rl w meeting_data = Ret pdf_path ->
  exists before story,
    keywords_section rl meeting_data
      (before ++ [Para (PStr "Keywords") "CustomSection"]) = Ret story
    /\ doc_build rl pdf_path
         (story ++ [Spacer 1 30; Para (PStr (footer_text rl)) "Footer"]) = Ret tt.
Proof.
  unfold report_body. cbv zeta. intros H.
  repeat bind_inv H.
  injection H as <-.
  match goal with
  | Hk : keywords_section _ _ (?before ++ _) = Ret ?story,
    Hd : doc_build _ _ _ = Ret ?u |- _ =>
      exists before, story; split; [exact Hk|];
      rewrite <- app_assoc in Hd; cbn [app] in Hd; destruct u; exact Hd
  end.
Qed.

End ReportFacts.

Lemma generate_pdf_body (w : World) (rl : Reportlab) (meeting_data : pyval) :
  generate_pdf (with_reportlab w rl) meeting_data
  = if negb (PyVal.truthy meeting_data) then Ret None
    else match report_body rl w meeting_data with
         | Ret pdf_path => Ret (Some pdf_path)
         | Raise _ => Ret None
         end.
Proof.
  unfold generate_pdf. cbn [SimpleDocTemplate with_reportlab].
  destruct (PyVal.truthy meeting_data); cbn [negb]; [|reflexivity].
  destruct (report_body rl w meeting_data); reflexivity.
Qed.

(** A body that returns was given strings for keywords. *)
Lemma report_body_str_keywords (w : World) (rl : Reportlab) (meeting_data : pyval)
  (pdf_path : string) (ks : list pyval) :
  report_body rl w meeting_data = Ret pdf_path ->
  PyVal.get meeting_data "keywords" (PList []) = Ret (PList ks) ->
  Forall (fun v => PyVal.isinstance_str v = true) ks.
Proof.
  intros Hb Hget.
  destruct ks as [|k ks']; [constructor|].
  destruct (report_body_ret rl w meeting_data pdf_path Hb) as (before & story & Hk & _).
  unfold keywords_section in Hk. rewrite Hget in Hk. cbn [bind PyVal.truthy] in Hk.
  destruct (keyword_lines (PList (k :: ks'))) as [lines|e] eqn:Hl; [|discriminate Hk].
  destruct (keyword_lines_list _ lines Hl) as (names & -> & _).
  apply Forall_forall. intros v Hv.
  apply in_map_iff in Hv. destruct Hv as (s & <- & _). reflexivity.
Qed.

(** X22: the keyword rows of the report.  When [generate_pdf] returns a
    path for data whose keywords are a non-empty list, every keyword is a
    string, and the document was built from a story that ends with the
    heading [Keywords], one bulleted paragraph per row of keywords joined by
    [ • ], a spacer and the footer.  The rows taken one after the other are
    the keywords, none lost, repeated or moved; every row but the last holds
    exactly four keywords and the last holds one to four. *)
Theorem report_keyword_rows (w : World) (rl : Reportlab) (meeting_data : pyval)
  (pdf_path : string) (ks : list pyval) :
  generate_pdf (with_reportlab w rl) meeting_data = Ret (Some pdf_path) ->
  PyVal.get meeting_data "keywords" (PList []) = Ret (PList ks) ->
  ks <> [] ->
  exists names full last before,
    ks = map PStr names
    /\ List.concat (full ++ [last]) = names
    /\ Forall (fun row => List.length row = 4) full
    /\ 1 <= List.length last <= 4
    /\ doc_build rl pdf_path
         (before
          ++ Para (PStr "Keywords") "CustomSection"
             :: map (fun row => Para (PStr ("• " ++ Py.join " • " row)) "CustomList")
                  (full ++ [last])
          ++ [Spacer 1 30; Para (PStr (footer_text rl)) "Footer"])%list
       = Ret tt.
Proof.
  intros Hgen Hget Hne.
  rewrite generate_pdf_body in Hgen.
  destruct (PyVal.truthy meeting_data); cbn [negb] in Hgen; [|discriminate Hgen].
  destruct (report_body rl w meeting_data) as [p|e] eqn:Hb; [|discriminate Hgen].
  injection Hgen as ->.
  destruct (report_body_ret rl w meeting_data pdf_path Hb) as (before & story & Hk & Hd).
  unfold keywords_section in Hk. rewrite Hget in Hk. cbn [bind] in Hk.
  replace (PyVal.truthy (PList ks)) with true in Hk
    by (destruct ks; [now elim Hne | reflexivity]).
  destruct (keyword_lines (PList ks)) as [lines|e] eqn:Hl; [|discriminate Hk].
  cbn [bind] in Hk.
  destruct (keyword_lines_list ks lines Hl) as (names & -> & Hrows).
  assert (Hnames : names <> []) by (intros ->; now apply Hne).
  destruct (keyword_rows_shape names Hnames) as (full & last & Hshape & Hc & Hf & Hlast).
  rewrite Hshape in Hrows. injection Hrows as <-.
  apply bullet_paragraphs_ret in Hk. subst story.
  exists names, full, last, before.
  split; [reflexivity|]. split; [exact Hc|]. split; [exact Hf|]. split; [exact Hlast|].
  rewrite map_map in Hd. rewrite <- !app_assoc in Hd. exact Hd.
Qed.

Lemma report_keyword_rows_witness :
  exists names full last before,
    map PStr DemoReport.five = map PStr names
    /\ List.concat (full ++ [last]) = names
    /\ Forall (fun row => List.length row = 4) full
    /\ 1 <= List.length last <= 4
    /\ doc_build DemoReport.rl "/tmp/meeting_summary_20240101_000000.pdf"
         (before
          ++ Para (PStr "Keywords") "CustomSection"
             :: map (fun row => Para (PStr ("• " ++ Py.join " • " row)) "CustomList")
                  (full ++ [last])
          ++ [Spacer 1 30; Para (PStr (footer_text DemoReport.rl)) "Footer"])%list
       = Ret tt.
Proof.
  apply (report_keyword_rows (Sample.world Sample.payload None None) DemoReport.rl
           (DemoReport.meeting (map PStr DemoReport.five))).
  - vm_compute. reflexivity.
  - reflexivity.
  - discriminate.
Defined.

(** X23: a keyword that is not a string costs the report.  When the
    keywords of the data are a list that holds a value of another type,
    which the validation of [analyze_meeting] lets through, [generate_pdf]
    returns [None], whatever reportlab does: if nothing fails earlier, the
    join of the row that holds the value raises a [TypeError]. *)
Theorem report_needs_str_keywords (w : World) (rl : Reportlab)
  (meeting_data : pyval) (ks : list pyval) :
  PyVal.get meeting_data "keywords" (PList []) = Ret (PList ks) ->
  Exists (fun v => PyVal.isinstance_str v = false) ks ->
  generate_pdf (with_reportlab w rl) meeting_data = Ret None.
Proof.
  intros Hget Hex.
  rewrite generate_pdf_body.
  destruct (PyVal.truthy meeting_data); cbn [negb]; [|reflexivity].
  destruct (report_body rl w meeting_data) as [p|e] eqn:Hb; [|reflexivity].
  exfalso.
  pose proof (report_body_str_keywords w rl meeting_data p ks Hb Hget) as Hall.
  apply Exists_exists in Hex. destruct Hex as (v & Hv & Hn).
  rewrite Forall_forall in Hall. rewrite (Hall v Hv) in Hn. discriminate Hn.
Qed.

Lemma report_needs_str_keywords_witness :
  generate_pdf DemoReport.world (DemoReport.meeting [PStr "budget"; PInt 2024]) = Ret None.
Proof.
  apply (report_needs_str_keywords (Sample.world Sample.payload None None)
           DemoReport.rl (DemoReport.meeting [PStr "budget"; PInt 2024])
           [PStr "budget"; PInt 2024]).
  - reflexivity.
  - right. left. reflexivity.
Defined.


(** X26: a number among the keywords.  An analysis whose keywords hold a
    value that is not a string passes [analyze_meeting] and is displayed,
    but its report is lost: when the report library is reportlab, a run
    that ends with the success message on such an analysis hands out no
    report path and records no temporary file, and says nothing of it. *)
Theorem non_string_keyword_loses_report (w : World) (rl : Reportlab) (file : upload)
  (api_key hf_token : string) (st st' : state) (r : result) :
  process_meeting (with_reportlab w rl) file api_key hf_token st = (Ret r, st') ->
  Py.startswith success_mark (r_message r) = true ->
  exists text d ks,
    obtain_text (with_reportlab w rl) (upload_path file) = Ret (Some text)
    /\ fst (analyze_meeting (with_reportlab w rl) text api_key st)
       = Ret (Some (PDict d))
    /\ PyVal.dict_get d "keywords" = Some (PList ks)
    /\ r_keywords r = markdown_list (with_reportlab w rl) ks
    /\ (Exists (fun v => PyVal.isinstance_str v = false) ks ->
        r_pdf_path r = None /\ temp_files st' = temp_files st).
Proof.
  intros Hrun Hok.
  assert (Hnot : forall reason st2,
             process_meeting (with_reportlab w rl) file api_key hf_token st
             = (Ret (failure reason), st2) -> False).
  { intros reason st2 E. rewrite E in Hrun. injection Hrun as <- _.
    rewrite failure_not_success in Hok. discriminate Hok. }
  destruct (early_failure (with_reportlab w rl) file api_key) as [reason|] eqn:He.
  { elim (Hnot _ _ (process_meeting_early _ file api_key reason He hf_token st)). }
  destruct (process_meeting_shape _ file api_key st He) as (text & Ho & Hshape).
  destruct Hshape as [[_ Hf]|[(st1 & _ & _ & Hf)|(d & s & ts & ks & pdf & Ea & Hgs & Hgt & Hgk & Hpdf & Hsucc)]];
    try (elim (Hnot _ _ (Hf hf_token))).
  destruct (Hsucc hf_token) as (evs & Erun & _).
  rewrite Erun in Hrun. injection Hrun as <- <-.
  exists text, d, ks. split; [exact Ho|]. split; [now rewrite Ea|].
  split; [exact Hgk|]. split; [reflexivity|].
  intros Hex. cbn [r_pdf_path temp_files].
  assert (Hnone : pdf = None).
  { rewrite generate_pdf_body in Hpdf.
    destruct (PyVal.truthy (PDict d)); cbn [negb] in Hpdf; [|now injection Hpdf as <-].
    destruct (report_body rl w (PDict d)) as [p|e] eqn:Hb; [|now injection Hpdf as <-].
    exfalso.
    assert (Hget : PyVal.get (PDict d) "keywords" (PList []) = Ret (PList ks))
      by (cbn [PyVal.get]; now rewrite Hgk).
    pose proof (report_body_str_keywords w rl (PDict d) p ks Hb Hget) as Hall.
    apply Exists_exists in Hex. destruct Hex as (v & Hv & Hn).
    rewrite Forall_forall in Hall. rewrite (Hall v Hv) in Hn. discriminate Hn. }
  subst pdf. cbn [checked_report]. split; [reflexivity | apply app_nil_r].
Qed.

Lemma non_string_keyword_loses_report_witness :
  (exists text d ks,
      obtain_text
        (with_reportlab (Sample.world DemoReport.numbered None None) DemoReport.rl)
        (upload_path (PathStr "/tmp/meeting.txt")) = Ret (Some text)
      /\ fst (analyze_meeting
                (with_reportlab (Sample.world DemoReport.numbered None None) DemoReport.rl)
                text "sk-test" Sample.st0)
         = Ret (Some (PDict d))
      /\ PyVal.dict_get d "keywords" = Some (PList ks)
      /\ Py.join nl ["- budget"; "- 2024"]
         = markdown_list
             (with_reportlab (Sample.world DemoReport.numbered None None) DemoReport.rl) ks
      /\ (Exists (fun v => PyVal.isinstance_str v = false) ks ->
          r_pdf_path
            (mk_result (PStr "Budget review")
               (Py.join nl ["- A"]) (Py.join nl ["- budget"; "- 2024"])
               None (success_msg "meeting.txt" 11 1 2)) = None
          /\ temp_files
               (mk_state [ChatRequest "sk-test" (build_prompt "Hello world")] [])
             = temp_files Sample.st0))
  /\ Exists (fun v => PyVal.isinstance_str v = false) [PStr "budget"; PInt 2024].
Proof.
  split; [|right; left; reflexivity].
  exact (non_string_keyword_loses_report
           (Sample.world DemoReport.numbered None None) DemoReport.rl
           (PathStr "/tmp/meeting.txt") "sk-test" "" Sample.st0 _ _
           numbered_keyword_run eq_refl).
Defined.

(** * utils/transcription.py: the model cache *)

(** X24: the model is loaded once.  When [load_whisper_model] returns a
    pair, that pair is what the two globals hold afterwards, and every later
    call returns the same pair, makes no call to the libraries and needs
    none of them. *)
Theorem load_whisper_model_cached {Model Processor : Type}
  (lib lib' : option (Transformers Model Processor))
  (st st1 : whisper_state Model Processor) (model : Model) (processor : Processor) :
  load_whisper_model lib st = (Ret (model, processor), st1) ->
  _model st1 = Some model
  /\ _processor st1 = Some processor
  /\ load_whisper_model lib' st1 = (Ret (model, processor), st1).
Proof.
  intros H.
  assert (Hc : _model st1 = Some model /\ _processor st1 = Some processor).
  { revert H. unfold load_whisper_model.
    destruct (_model st) as [m|] eqn:Hm; destruct (_processor st) as [p|] eqn:Hp.
    { intros E. injection E as <- <- <-. auto. }
    all: destruct lib as [t|]; [|discriminate];
      destruct (processor_from_pretrained t _) as [p'|]; [|discriminate];
      destruct (model_from_pretrained t _) as [m'|]; [|discriminate];
      cbv zeta; cbn [_model _processor calls];
      destruct (eval_mode t m') as [[]|]; [|discriminate];
      destruct (to_device t m' _) as [moved|]; [|discriminate];
      intros E; injection E as <- <- <-; auto. }
  destruct Hc as [Hm Hp]. split; [exact Hm|]. split; [exact Hp|].
  unfold load_whisper_model. rewrite Hm, Hp. reflexivity.
Qed.

Lemma load_whisper_model_cached_witness :
  _model (mk_whisper (Some "model:openai/whisper-tiny@cuda")
            (Some "processor:openai/whisper-tiny")
            [FetchProcessor "openai/whisper-tiny"; FetchModel "openai/whisper-tiny";
             MoveTo "cuda"])
  = Some "model:openai/whisper-tiny@cuda"
  /\ _processor (mk_whisper (Some "model:openai/whisper-tiny@cuda")
                   (Some "processor:openai/whisper-tiny")
                   [FetchProcessor "openai/whisper-tiny"; FetchModel "openai/whisper-tiny";
                    MoveTo "cuda"])
     = Some "processor:openai/whisper-tiny"
  /\ load_whisper_model None
       (mk_whisper (Some "model:openai/whisper-tiny@cuda")
          (Some "processor:openai/whisper-tiny")
          [FetchProcessor "openai/whisper-tiny"; FetchModel "openai/whisper-tiny";
           MoveTo "cuda"])
     = (Ret ("model:openai/whisper-tiny@cuda", "processor:openai/whisper-tiny"),
        mk_whisper (Some "model:openai/whisper-tiny@cuda")
          (Some "processor:openai/whisper-tiny")
          [FetchProcessor "openai/whisper-tiny"; FetchModel "openai/whisper-tiny";
           MoveTo "cuda"]).
Proof.
  apply (load_whisper_model_cached (Some (DemoWhisper.lib true)) None DemoWhisper.cold).
  reflexivity.
Defined.

(** X25: a failed move to the device is never retried.  When both fetches
    succeed and moving the model to the device raises, the call raises that
    exception with the fetched model already stored; every later call then
    succeeds without touching the libraries and returns the model as it was
    fetched, not moved to the device. *)
Theorem load_whisper_model_move_fails {Model Processor : Type}
  (t : Transformers Model Processor) (lib' : option (Transformers Model Processor))
  (st : whisper_state Model Processor) (model : Model) (processor : Processor)
  (e : exn) :
  _model st = None ->
  processor_from_pretrained t "openai/whisper-tiny" = Ret processor ->
  model_from_pretrained t "openai/whisper-tiny" = Ret model ->
  eval_mode t model = Ret tt ->
  to_device t model (if cuda_is_available t then "cuda" else "cpu") = Raise e ->
  exists st1,
    load_whisper_model (Some t) st = (Raise e, st1)
    /\ calls st1
       = (calls st ++ [FetchProcessor "openai/whisper-tiny";
                       FetchModel "openai/whisper-tiny";
                       MoveTo (if cuda_is_available t then "cuda" else "cpu")])%list
    /\ load_whisper_model lib' st1 = (Ret (model, processor), st1).
Proof.
  intros Hm Hp Hmod Hev Hto.
  unfold load_whisper_model at 1. rewrite Hm, Hp, Hmod. cbv zeta.
  cbn [_model _processor calls]. rewrite Hev, Hto.
  eexists. split; [reflexivity|]. split.
  - cbn [calls]. rewrite <- !app_assoc. reflexivity.
  - reflexivity.
Qed.

Lemma load_whisper_model_move_fails_witness :
  exists st1,
    load_whisper_model (Some (DemoWhisper.lib false)) DemoWhisper.cold
    = (Raise (mk_exn OtherException "CUDA out of memory"), st1)
    /\ calls st1
       = ([] ++ [FetchProcessor "openai/whisper-tiny";
                 FetchModel "openai/whisper-tiny";
                 MoveTo "cuda"])%list
    /\ load_whisper_model (Some (DemoWhisper.lib false)) st1
       = (Ret ("model:openai/whisper-tiny", "processor:openai/whisper-tiny"), st1).
Proof.
  apply (load_whisper_model_move_fails (DemoWhisper.lib false)
           (Some (DemoWhisper.lib false)) DemoWhisper.cold
           "model:openai/whisper-tiny" "processor:openai/whisper-tiny"
           (mk_exn OtherException "CUDA out of memory"));
    reflexivity.
Defined.

(** X27: [transcribe_audio] and the model cache.  With the globals of the
    module in view, [transcribe_audio] still never raises and returns what
    the function over a [World] returns when the speech stack of that world
    answers as it does from the present cache.  The cache is left alone when
    the file does not exist or the libraries are missing; otherwise it ends
    as one call of [load_whisper_model] leaves it, also when the
    transcription then fails: a cache that holds a model and a processor is
    not touched, and a cold one is loaded. *)
Theorem transcribe_audio_loading_spec {Model Processor : Type} (w : World)
  (speech : option (Speech Model Processor)) (file_path language : string)
  (st : whisper_state Model Processor) :
  exists r st',
    transcribe_audio_loading w speech file_path language st = (Ret r, st')
    /\ transcribe_audio
         (with_librosa w (option_map (fun sp => speech_oracle sp st) speech))
         file_path language = Ret r
    /\ st' = (if Os.exists_ w file_path
              then match speech with
                   | Some sp => snd (load_whisper_model (Some (transformers sp)) st)
                   | None => st
                   end
              else st)
    /\ (forall model processor,
          _model st = Some model -> _processor st = Some processor -> st' = st).
Proof.
  assert (Hexists : forall whisper,
             Os.exists_ (with_librosa w whisper) file_path = Os.exists_ w file_path)
    by reflexivity.
  assert (Hopen : forall whisper,
             Os.open_read (with_librosa w whisper) file_path = Os.open_read w file_path)
    by reflexivity.
  unfold transcribe_audio_loading, transcribe_audio.
  rewrite Hexists, Hopen. cbn [librosa with_librosa].
  destruct (Os.exists_ w file_path); cbn [negb].
  2:{ exists None, st. repeat split; reflexivity. }
  destruct speech as [sp|]; cbn [option_map].
  2:{ exists None, st. repeat split; reflexivity. }
  assert (Hwarm : forall model processor,
             _model st = Some model -> _processor st = Some processor ->
             snd (load_whisper_model (Some (transformers sp)) st) = st).
  { intros model processor Hm Hp. unfold load_whisper_model. now rewrite Hm, Hp. }
  unfold speech_oracle.
  destruct (load_whisper_model (Some (transformers sp)) st) as [[[model processor]|e] st1].
  - destruct (Os.open_read w file_path) as [audio|e]; cbn [bind try_except].
    + destruct (decode_audio sp model processor audio language) as [t|e];
        cbn [bind try_except];
        eexists _, st1; (split; [reflexivity|]); (split; [reflexivity|]);
        (split; [reflexivity | exact Hwarm]).
    + exists None, st1. split; [reflexivity|]. split; [reflexivity|].
      split; [reflexivity | exact Hwarm].
  - exists None, st1. split; [reflexivity|]. split.
    + destruct (Os.open_read w file_path); reflexivity.
    + split; [reflexivity | exact Hwarm].
Qed.
